(** * Video detector and repair tool: a shallow embedding of the detection
      and repair core ([video_detector.py], [video_conversion.py]).

    The Python code is embedded as executable Gallina definitions:
    - Python values that can be [None], an [int], a [float] or a [str] are
      the type [pyval]; Python floats are IEEE binary64 values, modelled
      bit-exactly with the standard library's [spec_float] (prec 53,
      emax 1024);
    - the JSON document printed by ffprobe is a typed record following
      ffprobe's schema, every key optional;
    - the file system, the temp-file registry and the external processes
      (ffprobe, ffmpeg) are an explicit state [st], threaded through a small
      state-and-exception monad [M]; what the external tools answer is read
      from the state in call order.
    Strings are byte strings (UTF-8); the case conversions and the
    white-space tests act on the ASCII range only. *)

From Stdlib Require Import ZArith Lia Bool Ascii String List.
From Stdlib Require Import SpecFloat.
From Stdlib Require DecimalString DecimalZ DecimalPos DecimalN.
From stdpp Require Import base option list gmap strings.

Local Open Scope Z_scope.

(* ===================================================================== *)
(** ** Python built-ins used by the code                                   *)
(* ===================================================================== *)

Module Py.

(** *** Exceptions *)

Inductive exn_class :=
| ValueError | TypeError | ZeroDivisionError | OverflowError
| JSONDecodeError | OSError | Exception.

Record exn := mk_exn { exn_cls : exn_class; exn_msg : string }.

(** [isinstance(e, (ValueError, TypeError))]: [json.JSONDecodeError] is a
    subclass of [ValueError]. *)
Definition is_value_or_type_error (e : exn) : bool :=
  match exn_cls e with
  | ValueError | TypeError | JSONDecodeError => true
  | _ => false
  end.

Inductive res (A : Type) :=
| Ok (a : A)
| Raise (e : exn).
Arguments Ok {A} a.
Arguments Raise {A} e.

(** *** Dynamically typed values *)

Inductive pyval :=
| PyNone
| PyInt (z : Z)
| PyFloat (f : spec_float)
| PyStr (s : string).

Definition of_opt_str (o : option string) : pyval :=
  match o with Some s => PyStr s | None => PyNone end.

(** *** Strings *)

Definition ascii_lower (c : ascii) : ascii :=
  let n := N_of_ascii c in
  if ((65 <=? n) && (n <=? 90))%N then ascii_of_N (n + 32) else c.

Definition ascii_upper (c : ascii) : ascii :=
  let n := N_of_ascii c in
  if ((97 <=? n) && (n <=? 122))%N then ascii_of_N (n - 32) else c.

Fixpoint str_map (f : ascii -> ascii) (s : string) : string :=
  match s with
  | EmptyString => EmptyString
  | String c r => String (f c) (str_map f r)
  end.

(** [s.lower()] and [s.upper()] *)
Definition lower (s : string) : string := str_map ascii_lower s.
Definition upper (s : string) : string := str_map ascii_upper s.

(** truth value of a [str]: non-empty *)
Definition str_truthy (s : string) : bool :=
  match s with EmptyString => false | _ => true end.

(** [x in [a, b, ...]] on strings *)
Definition str_in (x : string) (l : list string) : bool :=
  existsb (String.eqb x) l.
Global Arguments str_in : simpl never.

(** [c in s] for a one-character [c] *)
Fixpoint contains_char (c : ascii) (s : string) : bool :=
  match s with
  | EmptyString => false
  | String a r => Ascii.eqb a c || contains_char c r
  end.

(** [s.split(c)] for a one-character separator: always at least one part *)
Fixpoint split_char (c : ascii) (s : string) : list string :=
  match s with
  | EmptyString => [EmptyString]
  | String a r =>
      if Ascii.eqb a c then EmptyString :: split_char c r
      else match split_char c r with
           | p :: ps => String a p :: ps
           | [] => [String a EmptyString]
           end
  end.

(** C's [isspace] in the C locale, as used by [int()] and [float()] *)
Definition is_space (c : ascii) : bool :=
  let n := N_of_ascii c in ((n =? 32) || ((9 <=? n) && (n <=? 13)))%N.

Fixpoint lstrip (l : list ascii) : list ascii :=
  match l with
  | c :: r => if is_space c then lstrip r else l
  | [] => []
  end.

Definition strip (l : list ascii) : list ascii :=
  rev (lstrip (rev (lstrip l))).

Definition digit_val (c : ascii) : option Z :=
  let n := N_of_ascii c in
  if ((48 <=? n) && (n <=? 57))%N then Some (Z.of_N (n - 48)) else None.

(** *** [int(s)] for a [str], base 10

    Surrounding white space is skipped, one sign is accepted, and single
    underscores may separate digits.  (The limit on the number of digits of
    recent interpreters is not modelled.) *)

Fixpoint int_digits (after_digit : bool) (acc : Z) (l : list ascii) : option Z :=
  match l with
  | [] => if after_digit then Some acc else None
  | c :: r =>
      match digit_val c with
      | Some d => int_digits true (10 * acc + d) r
      | None =>
          if Ascii.eqb c "_" && after_digit then
            match r with
            | c' :: _ =>
                match digit_val c' with
                | Some _ => int_digits false acc r
                | None => None
                end
            | [] => None
            end
          else None
      end
  end.

Definition int_of_chars (l : list ascii) : option Z :=
  match strip l with
  | "-"%char :: r => Z.opp <$> int_digits false 0 r
  | "+"%char :: r => int_digits false 0 r
  | r => int_digits false 0 r
  end.

(** *** [repr(s)] for a [str]

    The quote is the single one, unless the text holds a single quote and
    no double quote.  The quote, the backslash and the ASCII control
    characters are escaped.  Bytes outside ASCII are kept: the texts are
    UTF-8, and [repr] keeps every character it can print (the characters
    it would escape instead are not modelled). *)

Definition hex_digit (n : N) : ascii :=
  nth (N.to_nat n) (list_ascii_of_string "0123456789abcdef") "0"%char.

Definition repr_char (quote c : ascii) : list ascii :=
  let n := N_of_ascii c in
  if Ascii.eqb c quote || Ascii.eqb c "092"%char then ["092"%char; c]
  else if Ascii.eqb c "009"%char then ["092"%char; "t"%char]
  else if Ascii.eqb c "010"%char then ["092"%char; "n"%char]
  else if Ascii.eqb c "013"%char then ["092"%char; "r"%char]
  else if ((n <? 32) || (n =? 127))%N
       then ["092"%char; "x"%char; hex_digit (n / 16); hex_digit (n mod 16)]
  else [c].

Definition repr_quote (l : list ascii) : ascii :=
  if existsb (Ascii.eqb "039"%char) l && negb (existsb (Ascii.eqb "034"%char) l)
  then "034"%char else "039"%char.

Definition repr_chars (l : list ascii) : list ascii :=
  let quote := repr_quote l in
  quote :: flat_map (repr_char quote) l ++ [quote].

Definition repr (s : string) : string :=
  string_of_list_ascii (repr_chars (list_ascii_of_string s)).

(** the first [n] characters of a UTF-8 text; a byte of the form 10xxxxxx
    continues the character before it *)
Fixpoint take_chars (n : nat) (l : list ascii) : list ascii :=
  match l with
  | [] => []
  | c :: r =>
      let b := N_of_ascii c in
      if ((128 <=? b) && (b <? 192))%N then c :: take_chars n r
      else match n with
           | O => []
           | S m => c :: take_chars m r
           end
  end.

(** the message of the ValueError of [int(s)]: the format cuts the
    [repr] after 200 characters *)
Definition int_error (s : string) : string :=
  "invalid literal for int() with base 10: "
  +:+ string_of_list_ascii (take_chars 200 (repr_chars (list_ascii_of_string s))).

Definition int_of_str (s : string) : res Z :=
  match int_of_chars (list_ascii_of_string s) with
  | Some z => Ok z
  | None => Raise (mk_exn ValueError (int_error s))
  end.

(** *** Floats: IEEE binary64 *)

Definition prec : Z := 53.
Definition emax : Z := 1024.

(** the binary64 value nearest to [n / d] (ties to even), with sign [s] *)
Definition float_of_ratio (s : bool) (n d : positive) : spec_float :=
  let '(q, e, l) := SFdiv_core_binary prec emax (Zpos n) 0 (Zpos d) 0 in
  binary_round_aux prec emax s q e l.

(** [n / d] on two [int]s: the correctly rounded quotient;
    [ZeroDivisionError] on a zero divisor, [OverflowError] when the
    quotient is too large for a float. *)
Definition truediv (n d : Z) : res spec_float :=
  let s := xorb (n <? 0) (d <? 0) in
  match d, n with
  | Z0, _ => Raise (mk_exn ZeroDivisionError "division by zero")
  | _, Z0 => Ok (S754_zero s)
  | (Zpos pd | Zneg pd), (Zpos pn | Zneg pn) =>
      match float_of_ratio s pn pd with
      | S754_infinity _ =>
          Raise (mk_exn OverflowError "integer division result too large for a float")
      | f => Ok f
      end
  end.

(** nearest integer to [n / d], ties to even ([0 <= n], [0 < d]) *)
Definition round_half_even_div (n d : Z) : Z :=
  let q := n / d in
  let r := n mod d in
  match 2 * r ?= d with
  | Lt => q
  | Gt => q + 1
  | Eq => if Z.even q then q else q + 1
  end.

(** nearest integer (ties to even) to [m * 2^e * 10^k], the magnitude of a
    finite float scaled by a power of ten *)
Definition scaled_round (m : positive) (e : Z) (k : Z) : Z :=
  if 0 <=? e then Zpos m * 2 ^ e * 10 ^ k
  else round_half_even_div (Zpos m * 10 ^ k) (2 ^ (- e)).

(** [round(x, 2)]: the decimal with two places nearest to the exact value
    of [x] (ties to even), converted back to the nearest float. *)
Definition round2 (x : spec_float) : spec_float :=
  match x with
  | S754_finite s m e =>
      match scaled_round m e 2 with
      | Zpos k => float_of_ratio s k 100
      | _ => S754_zero s
      end
  | _ => x
  end.

(** decimal digits of a natural number *)
Definition digit_char (d : Z) : ascii := ascii_of_N (48 + Z.to_N d).

Fixpoint uint_chars (d : Decimal.uint) : list ascii :=
  match d with
  | Decimal.Nil => []
  | Decimal.D0 r => "0"%char :: uint_chars r
  | Decimal.D1 r => "1"%char :: uint_chars r
  | Decimal.D2 r => "2"%char :: uint_chars r
  | Decimal.D3 r => "3"%char :: uint_chars r
  | Decimal.D4 r => "4"%char :: uint_chars r
  | Decimal.D5 r => "5"%char :: uint_chars r
  | Decimal.D6 r => "6"%char :: uint_chars r
  | Decimal.D7 r => "7"%char :: uint_chars r
  | Decimal.D8 r => "8"%char :: uint_chars r
  | Decimal.D9 r => "9"%char :: uint_chars r
  end.

(** [str(z)] for an [int] *)
Definition str_of_int (z : Z) : string :=
  match z with
  | Z0 => "0"
  | Zpos p => string_of_list_ascii (uint_chars (Pos.to_uint p))
  | Zneg p => String "-" (string_of_list_ascii (uint_chars (Pos.to_uint p)))
  end.

(** [f"{x:.0f}"]: the exact value rounded to an integer (ties to even),
    with the sign of [x] *)
Definition format_0f (x : spec_float) : string :=
  let sign (s : bool) : string := if s then "-" else "" in
  match x with
  | S754_zero s => sign s +:+ "0"
  | S754_finite s m e => sign s +:+ str_of_int (scaled_round m e 0)
  | S754_infinity s => sign s +:+ "inf"
  | S754_nan => "nan"
  end.

(** *** [float(s)] for a [str]

    White space around the literal is skipped; single underscores may
    separate digits; the literal is [inf], [infinity] or [nan] (any case),
    or decimal digits with an optional point and an optional exponent, with
    an optional sign in front.  The value is the binary64 nearest to the
    decimal (ties to even); a magnitude too large becomes an infinity. *)

Fixpoint underscores_ok (prev : ascii) (l : list ascii) : bool :=
  match l with
  | [] => negb (Ascii.eqb prev "_")
  | c :: r =>
      (if Ascii.eqb c "_" then bool_decide (is_Some (digit_val prev))
       else negb (Ascii.eqb prev "_") || bool_decide (is_Some (digit_val c)))
      && underscores_ok c r
  end.

Definition drop_underscores (l : list ascii) : list ascii :=
  filter (fun c => negb (Ascii.eqb c "_")) l.

(** leading digits: their value, their number, and the rest *)
Fixpoint take_digits (acc : Z) (n : Z) (l : list ascii) : Z * Z * list ascii :=
  match l with
  | c :: r =>
      match digit_val c with
      | Some d => take_digits (10 * acc + d) (n + 1) r
      | None => (acc, n, l)
      end
  | [] => (acc, n, l)
  end.

Definition take_sign (l : list ascii) : bool * list ascii :=
  match l with
  | "-"%char :: r => (true, r)
  | "+"%char :: r => (false, r)
  | _ => (false, l)
  end.

(** the exponent part: consumed only when at least one digit follows *)
Definition take_exponent (l : list ascii) : Z * list ascii :=
  match l with
  | c :: r =>
      if Ascii.eqb (ascii_lower c) "e" then
        let '(neg, r1) := take_sign r in
        let '(v, n, r2) := take_digits 0 0 r1 in
        if n =? 0 then (0, l) else ((if neg then - v else v), r2)
      else (0, l)
  | [] => (0, l)
  end.

(** the nearest binary64 to [m * 10^x] *)
Definition float_of_decimal (s : bool) (m : Z) (x : Z) : spec_float :=
  match m with
  | Zpos pm =>
      if 0 <=? x then binary_normalize prec emax ((if s then Zneg pm else Zpos pm) * 10 ^ x) 0 s
      else float_of_ratio s pm (Z.to_pos (10 ^ (- x)))
  | _ => S754_zero s
  end.

Definition float_of_chars (l : list ascii) : option spec_float :=
  let body := strip l in
  if negb (underscores_ok " " body) then None else
  let '(neg, r) := take_sign (drop_underscores body) in
  let word := string_of_list_ascii (map ascii_lower r) in
  if String.eqb word "inf" || String.eqb word "infinity" then Some (S754_infinity neg)
  else if String.eqb word "nan" then Some S754_nan
  else
    let '(ip, ni, r1) := take_digits 0 0 r in
    let '(m, nf, r2) :=
      match r1 with
      | "."%char :: r' => take_digits ip 0 r'
      | _ => (ip, 0, r1)
      end in
    if ni + nf =? 0 then None else
    let '(x, r3) := take_exponent r2 in
    match r3 with
    | [] => Some (float_of_decimal neg m (x - nf))
    | _ => None
    end.

Definition float_of_str (s : string) : res spec_float :=
  match float_of_chars (list_ascii_of_string s) with
  | Some f => Ok f
  | None => Raise (mk_exn ValueError ("could not convert string to float: " +:+ repr s))
  end.

(** truth value of a float: nonzero (a NaN is true) *)
Definition float_truthy (x : spec_float) : bool :=
  match x with S754_zero _ => false | _ => true end.

(** *** [int(x)] for a [float]: the value truncated towards zero *)
Definition int_of_float (x : spec_float) : res Z :=
  match x with
  | S754_zero _ => Ok 0
  | S754_finite s m e =>
      let magnitude := if 0 <=? e then Zpos m * 2 ^ e else Zpos m / 2 ^ (- e) in
      Ok (if s then - magnitude else magnitude)
  | S754_infinity _ =>
      Raise (mk_exn OverflowError "cannot convert float infinity to integer")
  | S754_nan => Raise (mk_exn ValueError "cannot convert float NaN to integer")
  end.

(** [f"{z:02d}"]: at least two characters, zeros in front *)
Definition format_02d (z : Z) : string :=
  if (0 <=? z) && (z <? 10) then "0" +:+ str_of_int z else str_of_int z.

(** *** [s.strip()] and [s.endswith(suffix)]

    The white space of [str.strip], in the ASCII range: the C set and the
    four separators 0x1c to 0x1f. *)
Definition is_str_space (c : ascii) : bool :=
  let n := N_of_ascii c in
  ((n =? 32) || ((9 <=? n) && (n <=? 13)) || ((28 <=? n) && (n <=? 31)))%N.

Fixpoint str_lstrip (l : list ascii) : list ascii :=
  match l with
  | c :: r => if is_str_space c then str_lstrip r else l
  | [] => []
  end.

Definition str_strip (s : string) : string :=
  string_of_list_ascii
    (rev (str_lstrip (rev (str_lstrip (list_ascii_of_string s))))).

Fixpoint starts_with (prefix l : list ascii) : bool :=
  match prefix, l with
  | [], _ => true
  | a :: p, b :: r => Ascii.eqb a b && starts_with p r
  | _ :: _, [] => false
  end.

Definition endswith (s suffix : string) : bool :=
  starts_with (rev (list_ascii_of_string suffix)) (rev (list_ascii_of_string s)).

End Py.

Import Py.

(* ===================================================================== *)
(** ** The document printed by ffprobe                                     *)
(* ===================================================================== *)

(** [ffprobe -print_format json -show_format -show_streams] prints one JSON
    object.  Each record below is one of its objects; a field is [None]
    when the key is missing.  ffprobe prints [width] and [height] as
    numbers and the other scalars as strings. *)
Module Ffprobe.

Record side_data := { side_data_type : option string }.

Record stream := {
  codec_type : option string;
  codec_name : option string;
  width : option Z;
  height : option Z;
  pix_fmt : option string;
  color_space : option string;
  r_frame_rate : option string;
  bit_rate : option string;
  duration : option string;
  side_data_list : option (list side_data)
}.

Record format := { format_duration : option string }.

Record data := {
  streams : option (list stream);
  format_ : option format
}.

(** a stream object that has only its [codec_type] key *)
Definition bare (ty : string) : stream :=
  {| codec_type := Some ty; codec_name := None; width := None; height := None;
     pix_fmt := None; color_space := None; r_frame_rate := None;
     bit_rate := None; duration := None; side_data_list := None |}.

End Ffprobe.

(* ===================================================================== *)
(** ** class VideoInfo                                                     *)
(* ===================================================================== *)

Inductive status :=
| STATUS_UNKNOWN | STATUS_OK | STATUS_ERROR | STATUS_FIXED | STATUS_PROCESSING.

Global Instance status_eq_dec : EqDecision status.
Proof. solve_decision. Defined.

Module VideoInfo.

Record t := {
  filepath : string;
  filename : string;
  filesize : Z;
  status_ : status;
  width : pyval;
  height : pyval;
  duration : pyval;
  fps : pyval;
  codec : pyval;
  video_bitrate : pyval;
  audio_codec : pyval;
  audio_bitrate : pyval;
  error_message : pyval;
  fixed_path : pyval;
  fixed_time : pyval;
  conversion_params : pyval;
  pixel_format : pyval;
  color_space : pyval;
  issues : list string
}.

(** [VideoInfo.__init__] *)
Definition init (path name : string) (size : Z) : t :=
  {| filepath := path; filename := name; filesize := size;
     status_ := STATUS_UNKNOWN;
     width := PyNone; height := PyNone; duration := PyNone; fps := PyNone;
     codec := PyNone; video_bitrate := PyNone; audio_codec := PyNone;
     audio_bitrate := PyNone; error_message := PyNone; fixed_path := PyNone;
     fixed_time := PyNone; conversion_params := PyNone;
     pixel_format := PyNone; color_space := PyNone; issues := [] |}.

Definition set_status (v : status) (i : t) : t :=
  {| filepath := filepath i; filename := filename i; filesize := filesize i;
     status_ := v;
     width := width i; height := height i; duration := duration i; fps := fps i;
     codec := codec i; video_bitrate := video_bitrate i;
     audio_codec := audio_codec i; audio_bitrate := audio_bitrate i;
     error_message := error_message i; fixed_path := fixed_path i;
     fixed_time := fixed_time i; conversion_params := conversion_params i;
     pixel_format := pixel_format i; color_space := color_space i;
     issues := issues i |}.

Definition set_error_message (v : pyval) (i : t) : t :=
  {| filepath := filepath i; filename := filename i; filesize := filesize i;
     status_ := status_ i;
     width := width i; height := height i; duration := duration i; fps := fps i;
     codec := codec i; video_bitrate := video_bitrate i;
     audio_codec := audio_codec i; audio_bitrate := audio_bitrate i;
     error_message := v; fixed_path := fixed_path i;
     fixed_time := fixed_time i; conversion_params := conversion_params i;
     pixel_format := pixel_format i; color_space := color_space i;
     issues := issues i |}.

Definition set_issues (v : list string) (i : t) : t :=
  {| filepath := filepath i; filename := filename i; filesize := filesize i;
     status_ := status_ i;
     width := width i; height := height i; duration := duration i; fps := fps i;
     codec := codec i; video_bitrate := video_bitrate i;
     audio_codec := audio_codec i; audio_bitrate := audio_bitrate i;
     error_message := error_message i; fixed_path := fixed_path i;
     fixed_time := fixed_time i; conversion_params := conversion_params i;
     pixel_format := pixel_format i; color_space := color_space i;
     issues := v |}.

(** the three assignments that record a successful repair *)
Definition set_fixed (path time params : pyval) (i : t) : t :=
  {| filepath := filepath i; filename := filename i; filesize := filesize i;
     status_ := status_ i;
     width := width i; height := height i; duration := duration i; fps := fps i;
     codec := codec i; video_bitrate := video_bitrate i;
     audio_codec := audio_codec i; audio_bitrate := audio_bitrate i;
     error_message := error_message i; fixed_path := path;
     fixed_time := time; conversion_params := params;
     pixel_format := pixel_format i; color_space := color_space i;
     issues := issues i |}.

(** [hasattr(info, key)] for the data attributes set in [__init__] that hold
    a probed value *)
Definition probed_attrs : list string :=
  ["width"; "height"; "duration"; "fps"; "codec"; "video_bitrate";
   "audio_codec"; "audio_bitrate"; "pixel_format"; "color_space"].

(** [setattr(info, key, value)] on those attributes *)
Definition setattr (key : string) (v : pyval) (i : t) : t :=
  let upd (k : string) (old : pyval) := if String.eqb key k then v else old in
  {| filepath := filepath i; filename := filename i; filesize := filesize i;
     status_ := status_ i;
     width := upd "width" (width i); height := upd "height" (height i);
     duration := upd "duration" (duration i); fps := upd "fps" (fps i);
     codec := upd "codec" (codec i);
     video_bitrate := upd "video_bitrate" (video_bitrate i);
     audio_codec := upd "audio_codec" (audio_codec i);
     audio_bitrate := upd "audio_bitrate" (audio_bitrate i);
     error_message := error_message i; fixed_path := fixed_path i;
     fixed_time := fixed_time i; conversion_params := conversion_params i;
     pixel_format := upd "pixel_format" (pixel_format i);
     color_space := upd "color_space" (color_space i);
     issues := issues i |}.

(** [format_duration]: "未知" without a duration, otherwise the whole
    seconds [int(self.duration)] as MM:SS, or HH:MM:SS from one hour on.
    [int] raises on an infinity and on a NaN. *)
Definition clock_text (total : Z) : string :=
  let hours := total / 3600 in
  let remainder := total mod 3600 in
  let minutes := remainder / 60 in
  let seconds := remainder mod 60 in
  if 0 <? hours
  then format_02d hours +:+ ":" +:+ format_02d minutes +:+ ":" +:+ format_02d seconds
  else format_02d minutes +:+ ":" +:+ format_02d seconds.

Definition format_duration (i : t) : res string :=
  match duration i with
  | PyNone => Ok "未知"
  | PyInt z => Ok (clock_text z)
  | PyFloat x =>
      match int_of_float x with
      | Ok z => Ok (clock_text z)
      | Raise e => Raise e
      end
  | PyStr s =>
      match int_of_str s with
      | Ok z => Ok (clock_text z)
      | Raise e => Raise e
      end
  end.

End VideoInfo.

(* ===================================================================== *)
(** ** The environment: files, external tools, and the monad               *)
(* ===================================================================== *)

(** *** [os.path] (POSIX flavour) *)
Module OsPath.

(** [(p[:i], p[i:])] for [i = p.rfind('/') + 1] *)
Fixpoint split_last_slash (p : string) : string * string :=
  match p with
  | EmptyString => (EmptyString, EmptyString)
  | String c r =>
      if contains_char "/" r then
        let '(h, t) := split_last_slash r in (String c h, t)
      else if Ascii.eqb c "/" then (String c EmptyString, r)
      else (EmptyString, p)
  end.

Definition all_slashes (s : string) : bool :=
  forallb (fun c => Ascii.eqb c "/") (list_ascii_of_string s).

Fixpoint drop_slashes (l : list ascii) : list ascii :=
  match l with
  | c :: r => if Ascii.eqb c "/" then drop_slashes r else l
  | [] => []
  end.

Definition rstrip_slashes (s : string) : string :=
  string_of_list_ascii (rev (drop_slashes (rev (list_ascii_of_string s)))).

Definition dirname (p : string) : string :=
  let head := fst (split_last_slash p) in
  if str_truthy head && negb (all_slashes head) then rstrip_slashes head
  else head.

Definition basename (p : string) : string := snd (split_last_slash p).

Definition ends_with_slash (s : string) : bool :=
  match rev (list_ascii_of_string s) with
  | c :: _ => Ascii.eqb c "/"
  | [] => false
  end.

Definition join (a b : string) : string :=
  match b with
  | String "/" _ => b
  | _ => if negb (str_truthy a) || ends_with_slash a then a +:+ b
         else a +:+ "/" +:+ b
  end.

(** [os.path.splitext]: the extension starts at the last dot of the last
    component, unless only dots stand before it in that component *)
Fixpoint split_last_dot (s : string) : option (string * string) :=
  match s with
  | EmptyString => None
  | String c r =>
      match split_last_dot r with
      | Some (a, b) => Some (String c a, b)
      | None => if Ascii.eqb c "." then Some (EmptyString, s) else None
      end
  end.

Definition all_dots (s : string) : bool :=
  forallb (fun c => Ascii.eqb c ".") (list_ascii_of_string s).

Definition splitext (p : string) : string * string :=
  let '(head, tail) := split_last_slash p in
  match split_last_dot tail with
  | Some (name, ext) =>
      if all_dots name then (p, EmptyString) else (head +:+ name, ext)
  | None => (p, EmptyString)
  end.

End OsPath.

(** *** State *)

Inductive node :=
| File (content : string)
| Dir.

(** file-system calls that the environment may refuse *)
Inductive fs_op :=
| OpRemove (p : string)
| OpRename (src dst : string)
| OpMove (src dst : string)
| OpMakedirs (p : string)
| OpMkstemp (dir : string).

(** the two probe commands differ only in [-show_data] *)
Record probe_cmd := { show_data : bool; probed : string }.

(** what ffprobe wrote to stdout: text that [json.loads] rejects, or a
    document *)
Inductive probe_stdout :=
| Unparsable (why : string)
| Json (d : Ffprobe.data).

Inductive probe_reply :=
| ProbeSpawnError (msg : string)
| ProbeExit (returncode : Z) (stdout : probe_stdout) (stderr : string).

(** the ffmpeg command lines of the repair *)
Inductive ffmpeg_cmd :=
| Stage1 (input raw_out : string)
| Stage2 (size_w size_h rate : pyval) (raw_in audio_in : string)
         (preset crf : string) (out : string).

Definition ffmpeg_output (c : ffmpeg_cmd) : string :=
  match c with
  | Stage1 _ o => o
  | Stage2 _ _ _ _ _ _ _ o => o
  end.

(** an ffmpeg run: its exit code and, when it wrote its output file, the
    bytes written *)
Inductive ffmpeg_reply :=
| FfmpegSpawnError (msg : string)
| FfmpegExit (returncode : Z) (written : option string).

Inductive event :=
| EvProbe (c : probe_cmd)
| EvFfmpeg (c : ffmpeg_cmd)
| EvFs (op : fs_op)
| EvTemp (suffix path : string).   (* mkstemp created [path] *)

(** The disk maps the text of a path to what is found there: a file is
    known by one text.  This is the disk as the program sees it when every
    path is absolute and normalised and there are no links; two spellings
    of one path (["/v/./a.mp4"] and ["/v/a.mp4"]) would be two files here,
    so what is stated about distinct paths is stated for such paths. *)
Record st := {
  fs : gmap string node;            (* the files and directories on disk *)
  dir_size : Z;                     (* what stat reports for a directory *)
  refused : fs_op -> bool;          (* calls that raise OSError *)
  probes : list probe_reply;        (* ffprobe runs still to come *)
  encodes : list ffmpeg_reply;      (* ffmpeg runs still to come *)
  tmp_names : list string;          (* random names mkstemp will try *)
  clock : string;                   (* time.strftime("%Y-%m-%d %H:%M:%S") *)
  temp_files : list string;         (* self._temp_files *)
  trace : list event                (* calls made so far, latest last *)
}.

Definition with_fs (f : gmap string node) (s : st) : st :=
  {| fs := f; dir_size := dir_size s; refused := refused s;
     probes := probes s; encodes := encodes s; tmp_names := tmp_names s;
     clock := clock s; temp_files := temp_files s; trace := trace s |}.

Definition with_probes (l : list probe_reply) (s : st) : st :=
  {| fs := fs s; dir_size := dir_size s; refused := refused s;
     probes := l; encodes := encodes s; tmp_names := tmp_names s;
     clock := clock s; temp_files := temp_files s; trace := trace s |}.

Definition with_encodes (l : list ffmpeg_reply) (s : st) : st :=
  {| fs := fs s; dir_size := dir_size s; refused := refused s;
     probes := probes s; encodes := l; tmp_names := tmp_names s;
     clock := clock s; temp_files := temp_files s; trace := trace s |}.

Definition with_tmp_names (l : list string) (s : st) : st :=
  {| fs := fs s; dir_size := dir_size s; refused := refused s;
     probes := probes s; encodes := encodes s; tmp_names := l;
     clock := clock s; temp_files := temp_files s; trace := trace s |}.

Definition with_temp_files (l : list string) (s : st) : st :=
  {| fs := fs s; dir_size := dir_size s; refused := refused s;
     probes := probes s; encodes := encodes s; tmp_names := tmp_names s;
     clock := clock s; temp_files := l; trace := trace s |}.

Definition log_event (e : event) (s : st) : st :=
  {| fs := fs s; dir_size := dir_size s; refused := refused s;
     probes := probes s; encodes := encodes s; tmp_names := tmp_names s;
     clock := clock s; temp_files := temp_files s; trace := trace s ++ [e] |}.

(** *** The monad: state, and a result that is a value or an exception *)

Definition M (A : Type) : Type := st -> res A * st.

Definition ret {A} (a : A) : M A := fun s => (Ok a, s).
Definition raise {A} (e : exn) : M A := fun s => (Raise e, s).

Definition bind {A B} (c : M A) (k : A -> M B) : M B :=
  fun s => match c s with
           | (Ok a, s') => k a s'
           | (Raise e, s') => (Raise e, s')
           end.

(** [try: c  except Exception as e: h e] *)
Definition try_except {A} (c : M A) (h : exn -> M A) : M A :=
  fun s => match c s with
           | (Ok a, s') => (Ok a, s')
           | (Raise e, s') => h e s'
           end.

(** [try: c  finally: f]; an exception of [f] replaces the outcome of [c] *)
Definition try_finally {A} (c : M A) (f : M unit) : M A :=
  fun s => let '(r, s') := c s in
           match f s' with
           | (Ok _, s'') => (r, s'')
           | (Raise e, s'') => (Raise e, s'')
           end.

Definition lift {A} (r : res A) : M A := fun s => (r, s).
Definition get {A} (f : st -> A) : M A := fun s => (Ok (f s), s).
Definition modify (f : st -> st) : M unit := fun s => (Ok tt, f s).

Declare Scope py_scope.
Delimit Scope py_scope with py.
Notation "x <- c ;; k" := (bind c (fun x => k))
  (at level 100, c at next level, right associativity) : py_scope.
Notation "c ;;; k" := (bind c (fun _ => k))
  (at level 100, right associativity) : py_scope.

Definition res_bind {A B} (r : res A) (k : A -> res B) : res B :=
  match r with Ok a => k a | Raise e => Raise e end.

Declare Scope res_scope.
Delimit Scope res_scope with res.
Notation "x <- c ;; k" := (res_bind c (fun x => k))
  (at level 100, c at next level, right associativity) : res_scope.

Definition os_error {A} (msg : string) : M A := raise (mk_exn OSError msg).

(** *** File-system calls *)

Local Open Scope py_scope.

Definition exists_ (p : string) : M bool :=
  get (fun s => bool_decide (is_Some (fs s !! p))).

Definition getsize (p : string) : M Z :=
  s <- get id ;;
  match fs s !! p with
  | Some (File c) => ret (Z.of_nat (String.length c))
  | Some Dir => ret (dir_size s)
  | None => os_error "No such file or directory"
  end.

Definition fs_call (op : fs_op) (run : st -> M unit) : M unit :=
  modify (log_event (EvFs op)) ;;;
  s <- get id ;;
  if refused s op then os_error "Permission denied" else run s.

(** [os.remove(p)] *)
Definition remove (p : string) : M unit :=
  fs_call (OpRemove p) (fun s =>
    match fs s !! p with
    | Some (File _) => modify (with_fs (delete p (fs s)))
    | Some Dir => os_error "Is a directory"
    | None => os_error "No such file or directory"
    end).

(** [os.rename(src, dst)] *)
Definition rename (src dst : string) : M unit :=
  fs_call (OpRename src dst) (fun s =>
    match fs s !! src with
    | Some n => modify (with_fs (<[dst := n]> (delete src (fs s))))
    | None => os_error "No such file or directory"
    end).

(** [shutil.move(src, dst)]: into [dst] when [dst] is a directory *)
Definition move (src dst : string) : M unit :=
  fs_call (OpMove src dst) (fun s =>
    match fs s !! src with
    | Some n =>
        match fs s !! dst with
        | Some Dir =>
            let real_dst := OsPath.join dst (OsPath.basename src) in
            if bool_decide (is_Some (fs s !! real_dst))
            then raise (mk_exn Exception "Destination path already exists")
            else modify (with_fs (<[real_dst := n]> (delete src (fs s))))
        | _ => modify (with_fs (<[dst := n]> (delete src (fs s))))
        end
    | None => os_error "No such file or directory"
    end).

(** [os.makedirs(p)] (the intermediate directories are not listed) *)
Definition makedirs (p : string) : M unit :=
  fs_call (OpMakedirs p) (fun s =>
    match fs s !! p with
    | Some _ => os_error "File exists"
    | None => modify (with_fs (<[p := Dir]> (fs s)))
    end).

(** [tempfile.mkstemp(suffix, prefix, dir)] followed by [os.close(fd)]:
    random names are tried until one is free; the empty file is created.
    The path returned is [dir] joined with the name: for an absolute,
    normalised [dir] this is the absolute path that [mkstemp] returns (for a
    relative or empty [dir], [mkstemp] would prefix the working directory,
    which the model does not have). *)
Fixpoint first_free (f : gmap string node) (dir prefix suffix : string)
    (names : list string) : option string * list string :=
  match names with
  | [] => (None, [])
  | n :: rest =>
      let p := OsPath.join dir (prefix +:+ n +:+ suffix) in
      match f !! p with
      | None => (Some p, rest)
      | Some _ => first_free f dir prefix suffix rest
      end
  end.

Definition mkstemp (suffix prefix dir : string) : M string :=
  fs_call (OpMkstemp dir) (fun _ => ret tt) ;;;
  s <- get id ;;
  let is_dir := match fs s !! dir with Some Dir => true | _ => false end in
  if str_truthy dir && negb is_dir
  then os_error "No such file or directory"
  else
    match first_free (fs s) dir prefix suffix (tmp_names s) with
    | (Some p, rest) =>
        modify (fun s => with_fs (<[p := File ""]> (fs s)) (with_tmp_names rest s)) ;;;
        modify (log_event (EvTemp suffix p)) ;;;
        ret p
    | (None, rest) =>
        modify (with_tmp_names rest) ;;;
        os_error "No usable temporary file name found"
    end.

(** *** External tools *)

(** [subprocess.run([ffprobe, ...], capture_output=True, ...)] *)
Definition run_ffprobe (c : probe_cmd) : M (Z * probe_stdout * string) :=
  modify (log_event (EvProbe c)) ;;;
  s <- get id ;;
  match probes s with
  | ProbeExit rc out err :: rest =>
      modify (with_probes rest) ;;; ret (rc, out, err)
  | ProbeSpawnError msg :: rest =>
      modify (with_probes rest) ;;; os_error msg
  | [] => os_error "cannot start ffprobe"
  end.

(** [json.loads(result.stdout)] *)
Definition json_loads (out : probe_stdout) : res Ffprobe.data :=
  match out with
  | Json d => Ok d
  | Unparsable why => Raise (mk_exn JSONDecodeError why)
  end.

(** [subprocess.Popen([ffmpeg, ...])], the loop that drains its stderr, and
    [process.poll()]: the run ends, its output file (if any) is on disk and
    the exit code is returned. *)
Definition run_ffmpeg (c : ffmpeg_cmd) : M Z :=
  modify (log_event (EvFfmpeg c)) ;;;
  s <- get id ;;
  match encodes s with
  | FfmpegExit rc written :: rest =>
      modify (with_encodes rest) ;;;
      match written with
      | Some bytes => modify (fun s => with_fs (<[ffmpeg_output c := File bytes]> (fs s)) s)
      | None => ret tt
      end ;;;
      ret rc
  | FfmpegSpawnError msg :: rest =>
      modify (with_encodes rest) ;;; os_error msg
  | [] => os_error "cannot start ffmpeg"
  end.

Fixpoint for_each {A} (l : list A) (body : A -> M unit) : M unit :=
  match l with
  | [] => ret tt
  | x :: r => body x ;;; for_each r body
  end.

(** [l.remove(x)] guarded by [x in l]: the first occurrence goes *)
Fixpoint list_remove (x : string) (l : list string) : list string :=
  match l with
  | [] => []
  | y :: r => if String.eqb x y then r else y :: list_remove x r
  end.

Definition registry_add (p : string) : M unit :=
  modify (fun s => with_temp_files (temp_files s ++ [p]) s).

Definition registry_discard (p : string) : M unit :=
  modify (fun s => if str_in p (temp_files s)
                   then with_temp_files (list_remove p (temp_files s)) s
                   else s).

(** *** Python dicts with string keys, in insertion order *)

Definition dict := list (string * pyval).

Fixpoint dict_get (k : string) (d : dict) : option pyval :=
  match d with
  | [] => None
  | (k', v) :: r => if String.eqb k k' then Some v else dict_get k r
  end.

Fixpoint dict_set (k : string) (v : pyval) (d : dict) : dict :=
  match d with
  | [] => [(k, v)]
  | (k', v') :: r =>
      if String.eqb k k' then (k, v) :: r else (k', v') :: dict_set k v r
  end.

(** truth value of a dict, and of [None]-or-dict *)
Definition dict_truthy (d : dict) : bool :=
  match d with [] => false | _ => true end.

Definition opt_dict_truthy (o : option dict) : bool :=
  match o with Some d => dict_truthy d | None => false end.

(** the two issue lists *)
Record issue_lists := {
  video_issues : list string;
  audio_issues : list string
}.

Definition no_issues : issue_lists :=
  {| video_issues := []; audio_issues := [] |}.

Definition add_video_issue (msg : string) (r : issue_lists) : issue_lists :=
  {| video_issues := video_issues r ++ [msg]; audio_issues := audio_issues r |}.

Definition add_audio_issue (msg : string) (r : issue_lists) : issue_lists :=
  {| video_issues := video_issues r; audio_issues := audio_issues r ++ [msg] |}.

(** the verdict test [issues["video_issues"] or issues["audio_issues"]] *)
Definition has_issues (r : issue_lists) : bool :=
  match video_issues r, audio_issues r with
  | [], [] => false
  | _, _ => true
  end.

Definition opt_str_is (o : option string) (s : string) : bool :=
  match o with Some x => String.eqb x s | None => false end.

(* ===================================================================== *)
(** ** class VideoDetector (video_detector.py)                             *)
(* ===================================================================== *)

Module VideoDetector.

(** the attributes set once in [__init__]; [_temp_files] lives in [st] *)
Record self := {
  ffmpeg_path : option string;
  ffprobe_path : option string
}.

Definition has_ffmpeg (d : self) : bool := bool_decide (is_Some (ffmpeg_path d)).
Definition has_ffprobe (d : self) : bool := bool_decide (is_Some (ffprobe_path d)).
(** *** _find_executable and __init__

    What [subprocess.run(["which", name], ...)] (["where"] on Windows) did:
    it raised, or it ended with an exit code and its standard output. *)
Inductive which_reply :=
| WhichError (msg : string)
| WhichExit (returncode : Z) (stdout : string).

Definition newline : ascii := "010"%char.

(** the first line of the stripped output when the exit code is 0; the
    list [paths] is never empty, so the test [if paths:] always succeeds *)
Definition _find_executable (r : which_reply) : option string :=
  match r with
  | WhichExit returncode stdout =>
      if returncode =? 0 then
        match split_char newline (str_strip stdout) with
        | path :: _ => Some path
        | [] => None
        end
      else None
  | WhichError _ => None
  end.

(** [__init__]: one search for each tool *)
Definition init (ffmpeg ffprobe : which_reply) : self :=
  {| ffmpeg_path := _find_executable ffmpeg;
     ffprobe_path := _find_executable ffprobe |}.


(** *** cleanup *)

Definition cleanup : M unit :=
  files <- get temp_files ;;
  for_each files (fun temp_file =>
    try_except
      (e <- exists_ temp_file ;;
       if e then remove temp_file else ret tt)
      (fun _ => ret tt)) ;;;
  modify (with_temp_files []).

(** *** _get_video_info *)

(** the loop that keeps the first video stream and the first audio stream *)
Definition pick_stream (acc : option Ffprobe.stream * option Ffprobe.stream)
    (stream : Ffprobe.stream) : option Ffprobe.stream * option Ffprobe.stream :=
  let '(video_stream, audio_stream) := acc in
  if opt_str_is (Ffprobe.codec_type stream) "video"
     && negb (bool_decide (is_Some video_stream))
  then (Some stream, audio_stream)
  else if opt_str_is (Ffprobe.codec_type stream) "audio"
          && negb (bool_decide (is_Some audio_stream))
  then (video_stream, Some stream)
  else acc.

Definition pick_streams (l : list Ffprobe.stream)
    : option Ffprobe.stream * option Ffprobe.stream :=
  fold_left pick_stream l (None, None).

(** [num, denom = map(int, parts)] *)
Definition unpack2_ints (parts : list string) : res (Z * Z) :=
  match parts with
  | [a; b] =>
      (num <- int_of_str a ;; denom <- int_of_str b ;; Ok (num, denom))%res
  | a :: b :: c :: _ =>
      (_ <- int_of_str a ;; _ <- int_of_str b ;; _ <- int_of_str c ;;
       Raise (mk_exn ValueError "too many values to unpack (expected 2)"))%res
  | [a] =>
      (_ <- int_of_str a ;;
       Raise (mk_exn ValueError "not enough values to unpack (expected 2, got 1)"))%res
  | [] => Raise (mk_exn ValueError "not enough values to unpack (expected 2, got 0)")
  end.

(** the frame-rate block: the value to store under ['fps'], if any *)
Definition parse_fps (fps_str : string) : res (option spec_float) :=
  if str_truthy fps_str && contains_char "/" fps_str then
    (nd <- unpack2_ints (split_char "/" fps_str) ;;
     let '(num, denom) := nd in
     if negb (denom =? 0) then
       (q <- truediv num denom ;; Ok (Some (round2 q)))
     else Ok None)%res
  else Ok None.

(** [try: ... except (ValueError, TypeError): pass] *)
Definition pass_value_type_error {A} (r : res A) : res (option A) :=
  match r with
  | Ok a => Ok (Some a)
  | Raise e => if is_value_or_type_error e then Ok None else Raise e
  end.

(** the bit-rate block: the text to store, if any *)
Definition parse_bitrate (bit_rate : option string) : res (option string) :=
  match bit_rate with
  | Some b =>
      pass_value_type_error
        (z <- int_of_str b ;;
         bitrate <- truediv z 1000 ;;
         Ok (format_0f bitrate +:+ " kbps"))%res
  | None => Ok None
  end.

Definition set_if_some {A} (k : string) (f : A -> pyval) (o : option A)
    (info : dict) : dict :=
  match o with Some a => dict_set k (f a) info | None => info end.

Definition int_or (dflt : Z) (o : option Z) : Z :=
  match o with Some z => z | None => dflt end.

Definition extract_video (video_stream : option Ffprobe.stream) (info : dict)
    : res dict :=
  match video_stream with
  | Some vs =>
      let info := dict_set "width" (PyInt (int_or 0 (Ffprobe.width vs))) info in
      let info := dict_set "height" (PyInt (int_or 0 (Ffprobe.height vs))) info in
      let info := dict_set "codec" (of_opt_str (Ffprobe.codec_name vs)) info in
      let info := dict_set "pixel_format" (of_opt_str (Ffprobe.pix_fmt vs)) info in
      let info := dict_set "color_space" (of_opt_str (Ffprobe.color_space vs)) info in
      let fps_str := match Ffprobe.r_frame_rate vs with Some s => s | None => "" end in
      (fps <- parse_fps fps_str ;;
       let info := set_if_some "fps" PyFloat fps info in
       kbps <- parse_bitrate (Ffprobe.bit_rate vs) ;;
       Ok (set_if_some "video_bitrate" PyStr kbps info))%res
  | None => Ok info
  end.

Definition extract_audio (audio_stream : option Ffprobe.stream) (info : dict)
    : res dict :=
  match audio_stream with
  | Some au =>
      let info := dict_set "audio_codec" (of_opt_str (Ffprobe.codec_name au)) info in
      (kbps <- parse_bitrate (Ffprobe.bit_rate au) ;;
       Ok (set_if_some "audio_bitrate" PyStr kbps info))%res
  | None => Ok info
  end.

(** the container block: only the format-level duration is read *)
Definition extract_format (fmt : option Ffprobe.format) (info : dict) : res dict :=
  match fmt with
  | Some f =>
      match Ffprobe.format_duration f with
      | Some d =>
          (v <- pass_value_type_error (float_of_str d) ;;
           Ok (set_if_some "duration" PyFloat v info))%res
      | None => Ok info
      end
  | None => Ok info
  end.

Definition streams_of (data : Ffprobe.data) : list Ffprobe.stream :=
  match Ffprobe.streams data with Some l => l | None => [] end.

(** everything between [json.loads] and [return info] *)
Definition extract_info (data : Ffprobe.data) : res dict :=
  let '(video_stream, audio_stream) := pick_streams (streams_of data) in
  (info <- extract_video video_stream [] ;;
   info <- extract_audio audio_stream info ;;
   extract_format (Ffprobe.format_ data) info)%res.

Definition _get_video_info (d : self) (video_path : string) : M (option dict) :=
  if negb (has_ffprobe d) then ret None
  else
    try_except
      (r <- run_ffprobe {| show_data := false; probed := video_path |} ;;
       let '(returncode, stdout, stderr) := r in
       if negb (returncode =? 0)
       then raise (mk_exn Exception ("FFprobe执行失败: " +:+ stderr))
       else
         data <- lift (json_loads stdout) ;;
         info <- lift (extract_info data) ;;
         ret (Some info))
      (fun e =>
         match exn_cls e with
         | JSONDecodeError =>
             raise (mk_exn Exception ("无法解析FFprobe输出: " +:+ exn_msg e))
         | _ =>
             raise (mk_exn Exception ("获取视频信息时出错: " +:+ exn_msg e))
         end).

(** *** _identify_problematic_streams *)

Definition check_side_data (result : issue_lists) (data_item : Ffprobe.side_data)
    : issue_lists :=
  if opt_str_is (Ffprobe.side_data_type data_item) "Ambient viewing environment"
  then add_video_issue "视频包含环境观看环境元数据，可能不被MoviePy兼容" result
  else result.

Definition get_str (o : option string) : string :=
  match o with Some s => s | None => "" end.

(** the body of the stream loop *)
Definition check_stream (result : issue_lists) (stream : Ffprobe.stream)
    : issue_lists :=
  if opt_str_is (Ffprobe.codec_type stream) "video" then
    let codec_name := lower (get_str (Ffprobe.codec_name stream)) in
    let result :=
      if str_in codec_name ["hevc"; "h265"; "av1"; "vp9"]
      then add_video_issue
             ("视频使用 " +:+ upper codec_name +:+ " 编码，可能不被MoviePy兼容") result
      else result in
    let pix_fmt := lower (get_str (Ffprobe.pix_fmt stream)) in
    let result :=
      if str_truthy pix_fmt
         && negb (str_in pix_fmt ["yuv420p"; "yuvj420p"; "rgb24"; "bgr24"])
      then add_video_issue
             ("视频使用 " +:+ pix_fmt +:+ " 像素格式，可能不被MoviePy兼容") result
      else result in
    let color_space := lower (get_str (Ffprobe.color_space stream)) in
    let result :=
      if str_truthy color_space
         && negb (str_in color_space ["bt709"; "bt601"; "bt470bg"; "smpte170m"])
      then add_video_issue
             ("视频使用 " +:+ color_space +:+ " 色彩空间，可能不被MoviePy兼容") result
      else result in
    let side_data :=
      match Ffprobe.side_data_list stream with Some l => l | None => [] end in
    fold_left check_side_data side_data result
  else if opt_str_is (Ffprobe.codec_type stream) "audio" then
    let codec_name := lower (get_str (Ffprobe.codec_name stream)) in
    if negb (str_in codec_name ["aac"; "mp3"; "pcm_s16le"])
    then add_audio_issue
           ("音频使用 " +:+ codec_name +:+ " 编码，可能不被MoviePy兼容") result
    else result
  else result.

(** the stream loop, from the empty result *)
Definition scan_streams (data : Ffprobe.data) : issue_lists :=
  fold_left check_stream (streams_of data) no_issues.

(** The scan itself cannot raise on a document of the ffprobe schema, so the
    handler always returns the still empty [result]. *)
Definition _identify_problematic_streams (d : self) (input_path : string)
    : M issue_lists :=
  let result := no_issues in
  if negb (has_ffprobe d) then ret result
  else
    try_except
      (video_info <- _get_video_info d input_path ;;
       if negb (opt_dict_truthy video_info) then ret result
       else
         r <- run_ffprobe {| show_data := true; probed := input_path |} ;;
         let '(returncode, stdout, _) := r in
         if negb (returncode =? 0) then ret result
         else
           data <- lift (json_loads stdout) ;;
           ret (scan_streams data))
      (fun _ => ret result).

(** *** detect_video *)

(** [for key, value in video_info.items(): if hasattr(info, key): setattr(...)] *)
Definition copy_attrs (video_info : dict) (info : VideoInfo.t) : VideoInfo.t :=
  fold_left
    (fun info kv =>
       if str_in (fst kv) VideoInfo.probed_attrs
       then VideoInfo.setattr (fst kv) (snd kv) info
       else info)
    video_info info.

Definition mark_error (msg : string) (info : VideoInfo.t) : VideoInfo.t :=
  VideoInfo.set_error_message (PyStr msg) (VideoInfo.set_status STATUS_ERROR info).

(** the handler of the [try] block, on the record as it is when the
    exception is raised *)
Definition detection_failed (e : exn) (info : VideoInfo.t) : VideoInfo.t :=
  mark_error ("检测失败: " +:+ exn_msg e) info.

(** the log line that closes a detection:
    [f"检测完成: {info.get_resolution_str()}, {info.format_duration()}, 状态: {info.status}"];
    of its three parts only [format_duration] can raise *)
Definition completion_line (info : VideoInfo.t) : res unit :=
  match VideoInfo.format_duration info with
  | Ok _ => Ok tt
  | Raise e => Raise e
  end.

(** [None] when the file does not exist.  Inside the [try], two steps can
    raise: the first call of [_get_video_info], before [info] is touched,
    and the log line that formats the duration, after the record has
    received its attributes, its issues and its verdict; the handler marks
    the record as it is at that point.  The returned [issues] dict has two
    keys, so the test [if issues:] always succeeds and its [else] branch is
    never taken. *)
Definition detect_video (d : self) (video_path : string) : M (option VideoInfo.t) :=
  e <- exists_ video_path ;;
  if negb e then ret None
  else
    size <- getsize video_path ;;
    let info := VideoInfo.init video_path (OsPath.basename video_path) size in
    if has_ffprobe d then
      try_except
        (video_info <- _get_video_info d video_path ;;
         match video_info with
         | Some vi =>
             if dict_truthy vi then
               let info := copy_attrs vi info in
               issues <- _identify_problematic_streams d video_path ;;
               let info :=
                 VideoInfo.set_issues (video_issues issues ++ audio_issues issues) info in
               let info :=
                 if has_issues issues
                 then mark_error "检测到兼容性问题" info
                 else VideoInfo.set_status STATUS_OK info in
               try_except (lift (completion_line info) ;;; ret (Some info))
                 (fun e => ret (Some (detection_failed e info)))
             else ret (Some (mark_error "无法获取视频信息" info))
         | None => ret (Some (mark_error "无法获取视频信息" info))
         end)
        (fun e => ret (Some (detection_failed e info)))
    else ret (Some (mark_error "检测工具不可用，请安装FFprobe" info)).

(** *** fix_video *)

Record quality_setting := { preset : string; crf : string; video_bitrate_ : string }.

(** [quality_settings.get(quality, quality_settings['medium'])] *)
Definition quality_settings (quality : string) : quality_setting :=
  if String.eqb quality "high" then
    {| preset := "slow"; crf := "18"; video_bitrate_ := "0" |}
  else if String.eqb quality "medium" then
    {| preset := "medium"; crf := "23"; video_bitrate_ := "0" |}
  else if String.eqb quality "low" then
    {| preset := "ultrafast"; crf := "28"; video_bitrate_ := "0" |}
  else {| preset := "medium"; crf := "23"; video_bitrate_ := "0" |}.

(** [orig_info.get(key, dflt) if orig_info else dflt] *)
Definition info_or (orig_info : option dict) (key : string) (dflt : Z) : pyval :=
  if opt_dict_truthy orig_info then
    match orig_info with
    | Some i => match dict_get key i with Some v => v | None => PyInt dflt end
    | None => PyInt dflt
    end
  else PyInt dflt.

Definition outcome : Type := VideoInfo.t * (bool * string).

(** the block that deletes the raw file, both after stage 2 and in
    [finally]; its exceptions are swallowed by the caller *)
Definition remove_raw (raw_temp_path : string) : M unit :=
  e <- exists_ raw_temp_path ;;
  if e then remove raw_temp_path ;;; registry_discard raw_temp_path
  else ret tt.

(** the replace step: [None] when it went through *)
Definition replace_original (original_path temp_output_path output_path : string)
    : M (option string) :=
  try_except
    (e <- exists_ original_path ;;
     (if e then
        try_except (remove original_path)
          (fun _ => rename original_path (original_path +:+ ".bak"))
      else ret tt) ;;;
     move temp_output_path output_path ;;;
     registry_discard temp_output_path ;;;
     ret None)
    (fun e => ret (Some ("替换原文件时出错: " +:+ exn_msg e))).

(** the body of the [try] block *)
Definition two_stage (d : self) (video_info : VideoInfo.t)
    (original_path temp_output_path output_path raw_temp_path quality : string)
    (settings : quality_setting) (width height fps : pyval) : M outcome :=
  return_code1 <- run_ffmpeg (Stage1 original_path raw_temp_path) ;;
  if negb (return_code1 =? 0) then
    ret (video_info, (false, "阶段1解码失败，返回代码: " +:+ str_of_int return_code1))
  else
    return_code2 <-
      run_ffmpeg (Stage2 width height fps raw_temp_path original_path
                    (preset settings) (crf settings) temp_output_path) ;;
    if negb (return_code2 =? 0) then
      ret (video_info, (false, "阶段2编码失败，返回代码: " +:+ str_of_int return_code2))
    else
      e <- exists_ temp_output_path ;;
      empty <- (if e then size <- getsize temp_output_path ;; ret (size =? 0)
                else ret true) ;;
      if empty then ret (video_info, (false, "转换失败: 输出文件未创建或为空"))
      else
        try_except (remove_raw raw_temp_path) (fun _ => ret tt) ;;;
        _identify_problematic_streams d temp_output_path ;;;
        failed <-
          (if negb (String.eqb temp_output_path output_path)
           then replace_original original_path temp_output_path output_path
           else ret None) ;;
        match failed with
        | Some msg => ret (video_info, (false, msg))
        | None =>
            now <- get clock ;;
            let video_info :=
              VideoInfo.set_fixed
                (PyStr output_path) (PyStr now)
                (PyStr ("质量: " +:+ quality +:+ ", 预设: " +:+ preset settings
                        +:+ ", CRF: " +:+ crf settings +:+ ", 两阶段完全重编码"))
                (VideoInfo.set_status STATUS_FIXED video_info) in
            (if has_ffprobe d
             then try_except (_get_video_info d output_path ;;; ret tt)
                             (fun _ => ret tt)
             else ret tt) ;;;
            ret (video_info,
                 (true, "视频修复成功: " +:+ OsPath.basename output_path))
        end.

(** The result carries the record as the call leaves it; when the call
    raises, the record is as it was. *)
Definition fix_video (d : self) (video_info : VideoInfo.t)
    (output_path : option string) (quality : string) (delete_original : bool)
    : M outcome :=
  if negb (has_ffmpeg d) then
    ret (video_info, (false, "未找到FFmpeg，无法修复视频"))
  else if bool_decide (VideoInfo.status_ video_info = STATUS_OK) then
    ret (video_info, (true, "视频已兼容，无需修复"))
  else
    let original_path := VideoInfo.filepath video_info in
    let dirname := OsPath.dirname original_path in
    paths <-
      match output_path with
      | None =>
          temp_output_path <- mkstemp ".mp4" "temp_fix_" dirname ;;
          registry_add temp_output_path ;;;
          ret (temp_output_path, original_path)
      | Some o => ret (o, o)
      end ;;
    let '(temp_output_path, output_path) := paths in
    let output_dir := OsPath.dirname temp_output_path in
    dir_missing <-
      (if str_truthy output_dir
       then e <- exists_ output_dir ;; ret (negb e)
       else ret false) ;;
    made <-
      (if dir_missing
       then try_except (makedirs output_dir ;;; ret None)
                       (fun e => ret (Some ("无法创建输出目录: " +:+ exn_msg e)))
       else ret None) ;;
    match made with
    | Some msg => ret (video_info, (false, msg))
    | None =>
        let settings := quality_settings quality in
        orig_info <- _get_video_info d original_path ;;
        let width := info_or orig_info "width" 1920 in
        let height := info_or orig_info "height" 1080 in
        let fps := info_or orig_info "fps" 30 in
        raw_temp_path <- mkstemp ".yuv" "raw_temp_" dirname ;;
        registry_add raw_temp_path ;;;
        try_finally
          (try_except
             (two_stage d video_info original_path temp_output_path output_path
                raw_temp_path quality settings width height fps)
             (fun e => ret (video_info, (false, "转换错误: " +:+ exn_msg e))))
          (try_except (remove_raw raw_temp_path) (fun _ => ret tt))
    end.

End VideoDetector.

(* ===================================================================== *)
(** ** class VideoConverter (video_conversion.py)                          *)
(* ===================================================================== *)

Module VideoConverter.

Record self := {
  ffmpeg_path : option string;
  ffprobe_path : option string
}.

(** truth value of a path attribute: [None] and the empty string are false *)
Definition path_truthy (o : option string) : bool :=
  match o with Some s => str_truthy s | None => false end.

(** [__init__]: [ffmpeg_path or self._find_executable('ffmpeg')], and the
    same for ffprobe; the search is the one of [VideoDetector] *)
Definition init (ffmpeg_path ffprobe_path : option string)
    (ffmpeg ffprobe : VideoDetector.which_reply) : self :=
  {| ffmpeg_path :=
       if path_truthy ffmpeg_path then ffmpeg_path
       else VideoDetector._find_executable ffmpeg;
     ffprobe_path :=
       if path_truthy ffprobe_path then ffprobe_path
       else VideoDetector._find_executable ffprobe |}.

(** truth value of the probed document: the empty object is false *)
Definition data_truthy (data : Ffprobe.data) : bool :=
  bool_decide (is_Some (Ffprobe.streams data))
  || bool_decide (is_Some (Ffprobe.format_ data)).

(** [get_video_info]: the document itself, or [None] on any failure *)
Definition get_video_info (c : self) (input_path : string)
    : M (option Ffprobe.data) :=
  if negb (path_truthy (ffprobe_path c)) then ret None
  else
    e <- exists_ input_path ;;
    if negb e then ret None
    else
      try_except
        (r <- run_ffprobe {| show_data := false; probed := input_path |} ;;
         let '(returncode, stdout, _) := r in
         if negb (returncode =? 0) then ret None
         else data <- lift (json_loads stdout) ;; ret (Some data))
        (fun _ => ret None).

(** the body of the stream loop of [identify_problematic_streams] *)
Definition check_stream (result : issue_lists) (stream : Ffprobe.stream)
    : issue_lists :=
  if opt_str_is (Ffprobe.codec_type stream) "video" then
    let codec_name := lower (VideoDetector.get_str (Ffprobe.codec_name stream)) in
    let result :=
      if str_in codec_name ["hevc"; "h265"; "av1"; "vp9"]
      then add_video_issue
             ("视频使用 " +:+ upper codec_name +:+ " 编码，可能不被MoviePy兼容") result
      else result in
    let pix_fmt := lower (VideoDetector.get_str (Ffprobe.pix_fmt stream)) in
    let result :=
      if str_truthy pix_fmt
         && negb (str_in pix_fmt ["yuv420p"; "yuvj420p"; "rgb24"; "bgr24"])
      then add_video_issue
             ("视频使用 " +:+ pix_fmt +:+ " 像素格式，可能不被MoviePy兼容") result
      else result in
    let color_space := lower (VideoDetector.get_str (Ffprobe.color_space stream)) in
    if str_truthy color_space
       && negb (str_in color_space ["bt709"; "bt601"; "bt470bg"; "smpte170m"])
    then add_video_issue
           ("视频使用 " +:+ color_space +:+ " 色彩空间，可能不被MoviePy兼容") result
    else result
  else if opt_str_is (Ffprobe.codec_type stream) "audio" then
    let codec_name := lower (VideoDetector.get_str (Ffprobe.codec_name stream)) in
    if negb (str_in codec_name ["aac"; "mp3"; "pcm_s16le"])
    then add_audio_issue
           ("音频使用 " +:+ codec_name +:+ " 编码，可能不被MoviePy兼容") result
    else result
  else result.

Definition scan_streams (data : Ffprobe.data) : issue_lists :=
  fold_left check_stream (VideoDetector.streams_of data) no_issues.

Definition identify_problematic_streams (c : self) (input_path : string)
    : M issue_lists :=
  let result := no_issues in
  if negb (path_truthy (ffprobe_path c)) then ret result
  else
    info <- get_video_info c input_path ;;
    match info with
    | Some data => if data_truthy data then ret (scan_streams data) else ret result
    | None => ret result
    end.

(** *** The duration that [create_preview] and [extract_frame] derive

    [video_duration] starts as the integer 0, which has the truth value and
    the order of the float 0.0 used here. *)

Definition float_zero : spec_float := S754_zero false.

(** the stream loop: every video stream with a readable [duration]
    overwrites the value *)
Definition stream_duration_step (video_duration : spec_float)
    (stream : Ffprobe.stream) : spec_float :=
  if opt_str_is (Ffprobe.codec_type stream) "video" then
    match Ffprobe.duration stream with
    | Some d =>
        match float_of_str d with
        | Ok f => f
        | Raise _ => video_duration
        end
    | None => video_duration
    end
  else video_duration.

Definition format_duration_or_zero (info : Ffprobe.data) : res spec_float :=
  match Ffprobe.format_ info with
  | Some f =>
      match Ffprobe.format_duration f with
      | Some d => float_of_str d
      | None => Ok float_zero
      end
  | None => Ok float_zero
  end.

(** the value of [video_duration] when the test [video_duration <= 0] is
    reached *)
Definition video_duration_of (info : Ffprobe.data) : spec_float :=
  let video_duration :=
    fold_left stream_duration_step (VideoDetector.streams_of info) float_zero in
  if negb (float_truthy video_duration) then
    match format_duration_or_zero info with
    | Ok f => f
    | Raise _ => video_duration
    end
  else video_duration.

(** [None] stands for the failure return "无法确定视频时长" *)
Definition determined_duration (info : Ffprobe.data) : option spec_float :=
  let video_duration := video_duration_of info in
  if SFleb video_duration float_zero then None else Some video_duration.

(** *** convert_video

    [options] is given as the entries the code reads, each with the type
    the code expects: a text for the codecs, the quality and the format, a
    truth value for [keep_audio].  [None] is an absent key; for [resize] it
    is also the value [None], which is the default.  [now] is
    [int(time.time())] as read when the output name is generated. *)

Record overrides := {
  o_video_codec : option string;
  o_audio_codec : option string;
  o_quality : option string;
  o_keep_audio : option bool;
  o_resize : option string;
  o_format : option string
}.

Record opts := {
  video_codec : string;
  audio_codec : string;
  quality : string;
  keep_audio : bool;
  resize : option string;
  format : string
}.

Definition default_options : opts :=
  {| video_codec := "libx264"; audio_codec := "aac"; quality := "medium";
     keep_audio := true; resize := None; format := "mp4" |}.

(** [opts.update(options)] *)
Definition update (o : opts) (options : overrides) : opts :=
  {| video_codec := default (video_codec o) (o_video_codec options);
     audio_codec := default (audio_codec o) (o_audio_codec options);
     quality := default (quality o) (o_quality options);
     keep_audio := default (keep_audio o) (o_keep_audio options);
     resize := match o_resize options with
               | Some r => Some r
               | None => resize o
               end;
     format := default (format o) (o_format options) |}.

(** the merged options; the test [if options:] skips the update for
    [None] and for the empty dict, for which the update changes nothing *)
Definition merged (options : option overrides) : opts :=
  match options with
  | Some o => update default_options o
  | None => default_options
  end.

(** one entry of [quality_presets] *)
Record preset := {
  libx264 : list string;
  libx265 : list string;
  libvpx_vp9 : list string;
  audio_bitrate : string
}.

Definition preset_high : preset :=
  {| libx264 := ["-preset"; "slow"; "-crf"; "18"; "-pix_fmt"; "yuv420p";
                 "-color_primaries"; "bt709"; "-color_trc"; "bt709";
                 "-colorspace"; "bt709"];
     libx265 := ["-preset"; "slow"; "-crf"; "22"; "-pix_fmt"; "yuv420p";
                 "-color_primaries"; "bt709"; "-color_trc"; "bt709";
                 "-colorspace"; "bt709"];
     libvpx_vp9 := ["-b:v"; "2M"; "-crf"; "24"; "-pix_fmt"; "yuv420p";
                    "-color_primaries"; "bt709"; "-color_trc"; "bt709";
                    "-colorspace"; "bt709"];
     audio_bitrate := "192k" |}.

Definition preset_medium : preset :=
  {| libx264 := ["-preset"; "medium"; "-crf"; "23"; "-pix_fmt"; "yuv420p";
                 "-color_primaries"; "bt709"; "-color_trc"; "bt709";
                 "-colorspace"; "bt709"];
     libx265 := ["-preset"; "medium"; "-crf"; "28"; "-pix_fmt"; "yuv420p";
                 "-color_primaries"; "bt709"; "-color_trc"; "bt709";
                 "-colorspace"; "bt709"];
     libvpx_vp9 := ["-b:v"; "1M"; "-crf"; "30"; "-pix_fmt"; "yuv420p";
                    "-color_primaries"; "bt709"; "-color_trc"; "bt709";
                    "-colorspace"; "bt709"];
     audio_bitrate := "128k" |}.

Definition preset_low : preset :=
  {| libx264 := ["-preset"; "ultrafast"; "-crf"; "28"; "-pix_fmt"; "yuv420p";
                 "-color_primaries"; "bt709"; "-color_trc"; "bt709";
                 "-colorspace"; "bt709"];
     libx265 := ["-preset"; "ultrafast"; "-crf"; "35"; "-pix_fmt"; "yuv420p";
                 "-color_primaries"; "bt709"; "-color_trc"; "bt709";
                 "-colorspace"; "bt709"];
     libvpx_vp9 := ["-b:v"; "500k"; "-crf"; "35"; "-pix_fmt"; "yuv420p";
                    "-color_primaries"; "bt709"; "-color_trc"; "bt709";
                    "-colorspace"; "bt709"];
     audio_bitrate := "96k" |}.

(** [quality_presets[quality]] after
    [if quality not in quality_presets: quality = "medium"] *)
Definition quality_presets (quality : string) : preset :=
  if String.eqb quality "high" then preset_high
  else if String.eqb quality "medium" then preset_medium
  else if String.eqb quality "low" then preset_low
  else preset_medium.

(** [[*s]] for a text: its characters, one by one *)
Definition characters (s : string) : list string :=
  map (fun c => String c EmptyString) (list_ascii_of_string s).

(** [[*quality_presets[quality].get(video_codec,
    quality_presets[quality]["libx264"])]]: the key ["audio_bitrate"] of
    the same dict answers with a text, which the star spreads into its
    characters *)
Definition video_params (p : preset) (video_codec : string) : list string :=
  if String.eqb video_codec "libx264" then libx264 p
  else if String.eqb video_codec "libx265" then libx265 p
  else if String.eqb video_codec "libvpx-vp9" then libvpx_vp9 p
  else if String.eqb video_codec "audio_bitrate" then characters (audio_bitrate p)
  else libx264 p.

(** the command line [cmd] *)
Definition convert_command (ffmpeg : string) (o : opts)
    (input_path output_path : string) : list string :=
  let p := quality_presets (quality o) in
  [ffmpeg; "-y"; "-i"; input_path; "-c:v"; video_codec o]
  ++ video_params p (video_codec o)
  ++ (if keep_audio o
      then ["-c:a"; audio_codec o; "-b:a"; audio_bitrate p; "-ar"; "44100"]
      else ["-an"])
  ++ (match resize o with
      | Some r => if str_truthy r then ["-vf"; "scale=" +:+ r] else []
      | None => []
      end)
  ++ [output_path].

(** the output path made up when none is given *)
Definition generated_output (o : opts) (input_path : string) (now : Z) : string :=
  let dirname := OsPath.dirname input_path in
  let basename := OsPath.basename input_path in
  let '(name, _) := OsPath.splitext basename in
  OsPath.join dirname
    (name +:+ "_converted_" +:+ str_of_int now +:+ "." +:+ format o).

(** [output_path] after [if not output_path: ...] *)
Definition target_path (o : opts) (input_path : string)
    (output_path : option string) (now : Z) : string :=
  match output_path with
  | Some p => if str_truthy p then p else generated_output o input_path now
  | None => generated_output o input_path now
  end.

(** [subprocess.Popen(cmd, ...)], the loop that drains its stderr, and
    [process.poll()], for a command line whose last word is the output
    file: the run ends, its output file (if any) is on disk and the exit
    code is returned. *)
Definition popen (cmd : list string) : M Z :=
  s <- get id ;;
  match encodes s with
  | FfmpegExit rc written :: rest =>
      modify (with_encodes rest) ;;;
      match written with
      | Some bytes =>
          modify (fun s => with_fs (<[List.last cmd "" := File bytes]> (fs s)) s)
      | None => ret tt
      end ;;;
      ret rc
  | FfmpegSpawnError msg :: rest =>
      modify (with_encodes rest) ;;; os_error msg
  | [] => os_error "cannot start ffmpeg"
  end.

Definition convert_video (c : self) (input_path : string)
    (output_path : option string) (options : option overrides)
    (delete_original : bool) (now : Z) : M (bool * option string * string) :=
  match ffmpeg_path c with
  | None => ret (false, None, "FFmpeg不可用，无法转换视频")
  | Some ffmpeg =>
      if negb (str_truthy ffmpeg)
      then ret (false, None, "FFmpeg不可用，无法转换视频")
      else
        e <- exists_ input_path ;;
        if negb e then ret (false, None, "输入文件不存在: " +:+ input_path)
        else
          let opts := merged options in
          let output_path := target_path opts input_path output_path now in
          let output_dir := OsPath.dirname output_path in
          dir_missing <-
            (if str_truthy output_dir
             then e <- exists_ output_dir ;; ret (negb e)
             else ret false) ;;
          made <-
            (if dir_missing
             then try_except (makedirs output_dir ;;; ret None)
                    (fun e => ret (Some ("无法创建输出目录: " +:+ exn_msg e)))
             else ret None) ;;
          match made with
          | Some msg => ret (false, None, msg)
          | None =>
              let cmd := convert_command ffmpeg opts input_path output_path in
              try_except
                (return_code <- popen cmd ;;
                 if negb (return_code =? 0) then
                   ret (false, None,
                        "FFmpeg转换失败，返回代码: " +:+ str_of_int return_code)
                 else
                   e <- exists_ output_path ;;
                   empty <- (if e then size <- getsize output_path ;; ret (size =? 0)
                             else ret true) ;;
                   if empty then ret (false, None, "转换失败: 输出文件未创建或为空")
                   else
                     (if delete_original
                      then try_except (remove input_path) (fun _ => ret tt)
                      else ret tt) ;;;
                     ret (true, Some output_path, "视频转换成功"))
                (fun e => ret (false, None, "转换错误: " +:+ exn_msg e))
          end
  end.

End VideoConverter.

(* ===================================================================== *)
(** ** class VideoDetectorApp (video_detector.py): the list of records     *)
(* ===================================================================== *)

(** The application keeps the list [video_info_list] of the records shown
    to the user.  The functions below are the parts of its handlers and
    worker threads that read and write that list and call the detector; a
    worker is run to its end.  What they send to the window (status line,
    progress bar, rows of the table, message boxes) does not touch the
    records and is left out; the answer to a confirmation dialog is an
    argument. *)
Module VideoDetectorApp.
Import VideoDetector.

(** [index < 0 or index >= len(self.video_info_list)] is false *)
Definition in_range (index : Z) (video_info_list : list VideoInfo.t) : bool :=
  (0 <=? index) && (index <? Z.of_nat (length video_info_list)).

(** [_add_to_file_list]: a path already listed is skipped; [VideoInfo(...)]
    reads the size of the file, and raises when there is none *)
Definition _add_to_file_list (video_info_list : list VideoInfo.t)
    (file_path : string) : M (list VideoInfo.t) :=
  if existsb (fun info => String.eqb (VideoInfo.filepath info) file_path)
       video_info_list
  then ret video_info_list
  else
    (size <- getsize file_path ;;
     ret (video_info_list
          ++ [VideoInfo.init file_path (OsPath.basename file_path) size]))%py.

(** the loop of [_detection_worker]: [done] are the records already
    visited.  The list is returned as the loop leaves it, with the exception
    that ended it, if any. *)
Fixpoint detection_loop (d : self) (done todo : list VideoInfo.t) (s : st)
    : (list VideoInfo.t * option exn) * st :=
  match todo with
  | [] => ((done, None), s)
  | info :: rest =>
      let info := VideoInfo.set_status STATUS_PROCESSING info in
      match detect_video d (VideoInfo.filepath info) s with
      | (Ok (Some detected_info), s1) =>
          detection_loop d (done ++ [detected_info]) rest s1
      | (Ok None, s1) => detection_loop d (done ++ [info]) rest s1
      | (Raise e, s1) => ((done ++ info :: rest, Some e), s1)
      end
  end.

(** [sum(1 for info in self.video_info_list if info.status == v)] *)
Definition count_status (v : status) (video_info_list : list VideoInfo.t) : Z :=
  Z.of_nat (length (List.filter
                      (fun info => bool_decide (VideoInfo.status_ info = v))
                      video_info_list)).

(** [_detection_worker]: the list, and the two counts of the report when
    the loop was not ended by an exception *)
Definition _detection_worker (d : self) (video_info_list : list VideoInfo.t)
    (s : st) : (list VideoInfo.t * option (Z * Z)) * st :=
  let '((l, raised), s1) := detection_loop d [] video_info_list s in
  match raised with
  | None => ((l, Some (count_status STATUS_OK l, count_status STATUS_ERROR l)), s1)
  | Some _ => ((l, None), s1)
  end.

(** the output path when the original name is not kept:
    [os.path.join(dirname, f"{name}_fixed.mp4")] *)
Definition suffixed_output (filepath : string) : string :=
  let dirname := OsPath.dirname filepath in
  let basename := OsPath.basename filepath in
  let '(name, ext) := OsPath.splitext basename in
  OsPath.join dirname (name +:+ "_fixed.mp4").

Definition output_path_for (keep_original_name : bool) (info : VideoInfo.t)
    : option string :=
  if keep_original_name then None
  else Some (suffixed_output (VideoInfo.filepath info)).

(** [_fix_worker]: the record is marked as processing, then repaired; it is
    marked as an error again when the repair fails, and left as it is when
    the repair raises *)
Definition _fix_worker (d : self) (video_info_list : list VideoInfo.t)
    (index : Z) (output_path : option string) (quality : string)
    (delete_original : bool) (s : st) : list VideoInfo.t * st :=
  if negb (in_range index video_info_list) then (video_info_list, s)
  else
    match video_info_list !! Z.to_nat index with
    | None => (video_info_list, s)
    | Some info =>
        let info := VideoInfo.set_status STATUS_PROCESSING info in
        match fix_video d info output_path quality delete_original s with
        | (Ok (info', (true, _)), s1) =>
            (<[Z.to_nat index := info']> video_info_list, s1)
        | (Ok (info', (false, _)), s1) =>
            (<[Z.to_nat index := VideoInfo.set_status STATUS_ERROR info']>
               video_info_list, s1)
        | (Raise _, s1) => (<[Z.to_nat index := info]> video_info_list, s1)
        end
    end.

(** [_fix_selected]: only a record with the status error is repaired, and
    only when the user confirms *)
Definition _fix_selected (d : self) (video_info_list : list VideoInfo.t)
    (selected_video_index : Z) (keep_original_name delete_original_var : bool)
    (quality : string) (confirm : bool) (s : st) : list VideoInfo.t * st :=
  if negb (in_range selected_video_index video_info_list) then (video_info_list, s)
  else
    match video_info_list !! Z.to_nat selected_video_index with
    | None => (video_info_list, s)
    | Some info =>
        if negb (bool_decide (VideoInfo.status_ info = STATUS_ERROR))
        then (video_info_list, s)
        else
          let delete_original := delete_original_var && negb keep_original_name in
          let output_path := output_path_for keep_original_name info in
          if negb confirm then (video_info_list, s)
          else _fix_worker d video_info_list selected_video_index output_path
                 quality delete_original s
    end.

(** the loop of [_batch_fix_worker], with its two counters *)
Fixpoint batch_loop (d : self) (quality : string)
    (delete_original keep_original_name : bool) (indices : list Z)
    (video_info_list : list VideoInfo.t) (success_count fail_count : Z) (s : st)
    : (list VideoInfo.t * (Z * Z) * option exn) * st :=
  match indices with
  | [] => ((video_info_list, (success_count, fail_count), None), s)
  | index :: rest =>
      if negb (in_range index video_info_list)
      then batch_loop d quality delete_original keep_original_name rest
             video_info_list success_count fail_count s
      else
        match video_info_list !! Z.to_nat index with
        | None =>
            batch_loop d quality delete_original keep_original_name rest
              video_info_list success_count fail_count s
        | Some info =>
            let info := VideoInfo.set_status STATUS_PROCESSING info in
            let output_path := output_path_for keep_original_name info in
            match fix_video d info output_path quality delete_original s with
            | (Ok (info', (true, _)), s1) =>
                batch_loop d quality delete_original keep_original_name rest
                  (<[Z.to_nat index := info']> video_info_list)
                  (success_count + 1) fail_count s1
            | (Ok (info', (false, _)), s1) =>
                batch_loop d quality delete_original keep_original_name rest
                  (<[Z.to_nat index := VideoInfo.set_status STATUS_ERROR info']>
                     video_info_list)
                  success_count (fail_count + 1) s1
            | (Raise e, s1) =>
                ((<[Z.to_nat index := info]> video_info_list,
                  (success_count, fail_count), Some e), s1)
            end
        end
  end.

Definition _batch_fix_worker (d : self) (video_info_list : list VideoInfo.t)
    (indices : list Z) (quality : string)
    (delete_original keep_original_name : bool) (s : st)
    : (list VideoInfo.t * (Z * Z) * option exn) * st :=
  batch_loop d quality delete_original keep_original_name indices
    video_info_list 0 0 s.

(** [[i for i, info in enumerate(...) if info.status == STATUS_ERROR]] *)
Fixpoint error_indices_from (i : Z) (video_info_list : list VideoInfo.t) : list Z :=
  match video_info_list with
  | [] => []
  | info :: rest =>
      if bool_decide (VideoInfo.status_ info = STATUS_ERROR)
      then i :: error_indices_from (i + 1) rest
      else error_indices_from (i + 1) rest
  end.

(** [_fix_all]: [None] when no worker was started *)
Definition _fix_all (d : self) (video_info_list : list VideoInfo.t)
    (keep_original_name delete_original_var : bool) (quality : string)
    (confirm : bool) (s : st)
    : option ((list VideoInfo.t * (Z * Z) * option exn) * st) :=
  let error_indices := error_indices_from 0 video_info_list in
  match error_indices with
  | [] => None
  | _ =>
      let delete_original := delete_original_var && negb keep_original_name in
      if negb confirm then None
      else Some (_batch_fix_worker d video_info_list error_indices quality
                   delete_original keep_original_name s)
  end.

End VideoDetectorApp.

(* ===================================================================== *)
(** ** Vocabulary of the properties                                        *)
(* ===================================================================== *)

Import VideoDetector.

(** *** Specifications of computations *)

(** [spec P c Q]: from a state satisfying [P], running [c] ends in a result
    and a state related by [Q].  Every computation of [M] is a total
    function, so this is total correctness. *)
Definition spec {A} (P : st -> Prop) (c : M A) (Q : res A -> st -> Prop) : Prop :=
  forall s, P s -> Q (c s).1 (c s).2.

(** [c] keeps the invariant [I], whatever it returns or raises *)
Definition preserves {A} (I : st -> Prop) (c : M A) : Prop :=
  spec I c (fun _ => I).

(** *** Streams *)

(** what one stream, looked at alone, adds to each list *)
Definition stream_video_issues (stream : Ffprobe.stream) : list string :=
  video_issues (check_stream no_issues stream).

Definition stream_audio_issues (stream : Ffprobe.stream) : list string :=
  audio_issues (check_stream no_issues stream).

Definition is_video (stream : Ffprobe.stream) : bool :=
  opt_str_is (Ffprobe.codec_type stream) "video".

Definition is_audio (stream : Ffprobe.stream) : bool :=
  negb (is_video stream) && opt_str_is (Ffprobe.codec_type stream) "audio".

(** the audio codec test, on the lower-cased name *)
Definition audio_codec_accepted (stream : Ffprobe.stream) : bool :=
  str_in (lower (get_str (Ffprobe.codec_name stream))) ["aac"; "mp3"; "pcm_s16le"].

Definition audio_issue_text (stream : Ffprobe.stream) : string :=
  "音频使用 " +:+ lower (get_str (Ffprobe.codec_name stream))
  +:+ " 编码，可能不被MoviePy兼容".

(** the refusals of the environment are [R] *)
Definition refusing (R : fs_op -> bool) (s : st) : Prop := refused s = R.

(** sample inputs *)
Module Samples.
Import VideoDetector.

Definition both_tools : self :=
  {| ffmpeg_path := Some "/usr/bin/ffmpeg"; ffprobe_path := Some "/usr/bin/ffprobe" |}.

Definition no_ffmpeg : self :=
  {| ffmpeg_path := None; ffprobe_path := Some "/usr/bin/ffprobe" |}.

Definition video (codec pixfmt colorspace : string) : Ffprobe.stream :=
  {| Ffprobe.codec_type := Some "video"; Ffprobe.codec_name := Some codec;
     Ffprobe.width := Some 1920; Ffprobe.height := Some 1080;
     Ffprobe.pix_fmt := Some pixfmt; Ffprobe.color_space := Some colorspace;
     Ffprobe.r_frame_rate := Some "30000/1001";
     Ffprobe.bit_rate := Some "4000000"; Ffprobe.duration := Some "10.0";
     Ffprobe.side_data_list := None |}.

Definition audio (codec : string) : Ffprobe.stream :=
  {| Ffprobe.codec_type := Some "audio"; Ffprobe.codec_name := Some codec;
     Ffprobe.width := None; Ffprobe.height := None;
     Ffprobe.pix_fmt := None; Ffprobe.color_space := None;
     Ffprobe.r_frame_rate := None;
     Ffprobe.bit_rate := Some "128000"; Ffprobe.duration := Some "10.0";
     Ffprobe.side_data_list := None |}.

Definition document (l : list Ffprobe.stream) (dur : option string) : Ffprobe.data :=
  {| Ffprobe.streams := Some l;
     Ffprobe.format_ := Some {| Ffprobe.format_duration := dur |} |}.

(** h264 / yuv420p / bt709 with aac sound *)
Definition clean_doc : Ffprobe.data :=
  document [video "h264" "yuv420p" "bt709"; audio "aac"] (Some "10.0").

(** the same, followed by a second video stream in hevc *)
Definition second_hevc_doc : Ffprobe.data :=
  document [video "h264" "yuv420p" "bt709"; audio "aac";
            video "hevc" "yuv420p" "bt709"] (Some "10.0").

Definition hevc_doc : Ffprobe.data :=
  document [video "hevc" "yuv420p" "bt709"; audio "aac"] (Some "10.0").

(** one audio stream whose codec ffprobe could not name *)
Definition unnamed_audio_doc : Ffprobe.data :=
  document [video "h264" "yuv420p" "bt709"; Ffprobe.bare "audio"] (Some "10.0").


Definition good (d : Ffprobe.data) : probe_reply := ProbeExit 0 (Json d) "".
Definition bad : probe_reply := ProbeExit 1 (Unparsable "") "Invalid data found".

(** a disk with one video file in [/v], and the answers to come *)
Definition world (ps : list probe_reply) (es : list ffmpeg_reply) : st :=
  {| fs := {[ "/v/a.mp4" := File "0123456789"; "/v" := Dir ]};
     dir_size := 4096;
     refused := fun _ => false;
     probes := ps;
     encodes := es;
     tmp_names := ["k3x9"; "q7w2"];
     clock := "2024-05-01 12:00:00";
     temp_files := [];
     trace := [] |}.

Definition ok_record : VideoInfo.t :=
  VideoInfo.set_status STATUS_OK (VideoInfo.init "/v/a.mp4" "a.mp4" 10).

Definition flagged_record : VideoInfo.t :=
  mark_error "检测到兼容性问题" (VideoInfo.init "/v/a.mp4" "a.mp4" 10).

End Samples.

(** the next ffprobe run cannot be started, exits nonzero, or prints text
    that is not JSON *)
Definition probe_fails (l : list probe_reply) : bool :=
  match l with
  | [] => true
  | ProbeSpawnError _ :: _ => true
  | ProbeExit rc out _ :: _ =>
      negb (rc =? 0) || match out with Unparsable _ => true | Json _ => false end
  end.

(** the issue reported for an audio stream without a codec name *)
Definition unnamed_audio_issue : string := "音频使用  编码，可能不被MoviePy兼容".

(** the four video rules, one after the other *)
Definition codec_issue (stream : Ffprobe.stream) : list string :=
  let codec_name := lower (get_str (Ffprobe.codec_name stream)) in
  if str_in codec_name ["hevc"; "h265"; "av1"; "vp9"]
  then ["视频使用 " +:+ upper codec_name +:+ " 编码，可能不被MoviePy兼容"] else [].

Definition pix_fmt_issue (stream : Ffprobe.stream) : list string :=
  let pix_fmt := lower (get_str (Ffprobe.pix_fmt stream)) in
  if str_truthy pix_fmt && negb (str_in pix_fmt ["yuv420p"; "yuvj420p"; "rgb24"; "bgr24"])
  then ["视频使用 " +:+ pix_fmt +:+ " 像素格式，可能不被MoviePy兼容"] else [].

Definition color_space_issue (stream : Ffprobe.stream) : list string :=
  let color_space := lower (get_str (Ffprobe.color_space stream)) in
  if str_truthy color_space
     && negb (str_in color_space ["bt709"; "bt601"; "bt470bg"; "smpte170m"])
  then ["视频使用 " +:+ color_space +:+ " 色彩空间，可能不被MoviePy兼容"] else [].

Definition side_data_issues (stream : Ffprobe.stream) : list string :=
  flat_map
    (fun item =>
       if opt_str_is (Ffprobe.side_data_type item) "Ambient viewing environment"
       then ["视频包含环境观看环境元数据，可能不被MoviePy兼容"] else [])
    (match Ffprobe.side_data_list stream with Some l => l | None => [] end).

(** neither white space nor a slash *)
Definition plain (c : ascii) : bool :=
  negb (is_space c) && negb (Ascii.eqb c "/").

Definition format_duration_of (data : Ffprobe.data) : option string :=
  match Ffprobe.format_ data with
  | Some f => Ffprobe.format_duration f
  | None => None
  end.

(** the readable durations of the video streams, in stream order *)
Definition numeric_video_durations (l : list Ffprobe.stream) : list spec_float :=
  omap (fun stream =>
          if is_video stream then
            match Ffprobe.duration stream with
            | Some d => match float_of_str d with Ok f => Some f | Raise _ => None end
            | None => None
            end
          else None) l.

(** the calls that would replace the original: removing it, renaming or
    moving anything, and an ffmpeg run that writes onto it *)
Definition replace_event (orig : string) (e : event) : bool :=
  match e with
  | EvFs (OpRemove p) => String.eqb p orig
  | EvFs (OpRename _ _) | EvFs (OpMove _ _) => true
  | EvFfmpeg c => String.eqb (ffmpeg_output c) orig
  | _ => false
  end.

(** the original is on disk as it was, no ffmpeg run was consumed beyond
    [E], and no call made since [T0] is a replace step *)
Definition untouched (orig : string) (n : node) (E : list ffmpeg_reply)
    (T0 : list event) (s : st) : Prop :=
  fs s !! orig = Some n
  /\ encodes s = E
  /\ exists evs, trace s = T0 ++ evs
                 /\ Forall (fun e => replace_event orig e = false) evs.

(** the state after an ffmpeg run that exited *)
Definition after_ffmpeg (c : ffmpeg_cmd) (written : option string)
    (rest : list ffmpeg_reply) (s : st) : st :=
  let s1 := with_encodes rest (log_event (EvFfmpeg c) s) in
  match written with
  | Some bytes => with_fs (<[ffmpeg_output c := File bytes]> (fs s1)) s1
  | None => s1
  end.

Definition stage1_message (rc : Z) : string :=
  "阶段1解码失败，返回代码: " +:+ str_of_int rc.

(** no regular file at [p] *)
Definition not_a_file (s : st) (p : string) : Prop :=
  forall c, fs s !! p <> Some (File c).

(** [mkstemp] created [p], with the given suffix, between [s] and [s'] *)
Definition new_temp (suffix p : string) (s s' : st) : Prop :=
  In (EvTemp suffix p) (trace s') /\ ~ In (EvTemp suffix p) (trace s).

Definition succeeded (r : res outcome) : Prop :=
  exists vi msg, r = Ok (vi, (true, msg)).

(** the body of the loop of [cleanup] *)
Definition cleanup_one (temp_file : string) : M unit :=
  try_except
    (e <- exists_ temp_file ;; if e then remove temp_file else ret tt)
    (fun _ => ret tt).

(** no [mkstemp] has created [p] with this suffix *)
Definition no_temp_event (suffix p : string) (s : st) : Prop :=
  ~ In (EvTemp suffix p) (trace s).

(** the [try] block of [fix_video] with its handler and its [finally] *)
Definition guarded (d : self) (vi : VideoInfo.t)
    (orig temp outp raw quality : string) (settings : quality_setting)
    (w h fps : pyval) : M outcome :=
  try_finally
    (try_except
       (two_stage d vi orig temp outp raw quality settings w h fps)
       (fun e => ret (vi, (false, "转换错误: " +:+ exn_msg e))))
    (try_except (remove_raw raw) (fun _ => ret tt)).

(** both facts carried along the first half of [fix_video] *)
Definition no_raw_yet (R : fs_op -> bool) (p : string) (s : st) : Prop :=
  no_temp_event ".yuv" p s /\ refused s = R.

(** [t] is in the registry *)
Definition registered (t : string) (s : st) : Prop := In t (temp_files s).

(** [t] is on disk and in the registry *)
Definition on_disk_registered (t : string) (s : st) : Prop :=
  is_Some (fs s !! t) /\ In t (temp_files s).

(** [raw] is in the registry, and the file system refuses to remove it *)
Definition kept_raw (raw : string) (s : st) : Prop :=
  refused s (OpRemove raw) = true /\ In raw (temp_files s).

(** *** Vocabulary of the further properties *)

(** the three video rules that both analyzers apply to a stream *)
Definition shared_video_issues (stream : Ffprobe.stream) : list string :=
  codec_issue stream ++ pix_fmt_issue stream ++ color_space_issue stream.

(** reading a text MM:SS or HH:MM:SS back as a number of seconds *)
Definition seconds_of_clock (text : string) : option Z :=
  match map int_of_str (split_char ":" text) with
  | [Ok m; Ok s] => Some (60 * m + s)
  | [Ok h; Ok m; Ok s] => Some (3600 * h + 60 * m + s)
  | _ => None
  end.

(** the first character of a text, if any, is not white space *)
Definition no_leading_space (s : string) : Prop :=
  match s with
  | EmptyString => True
  | String c _ => is_str_space c = false
  end.

(** a run of ffprobe, as an event *)
Definition probe_event (e : event) : bool :=
  match e with EvProbe _ => true | _ => false end.

(** since the trace was [T], at most [n] calls were made, all of them runs
    of ffprobe *)
Definition probing (n : nat) (T : list event) (s : st) : Prop :=
  exists evs, trace s = T ++ evs /\ forallb probe_event evs = true
              /\ (length evs <= n)%nat.

(** the files, the registry and the ffmpeg runs to come are as given *)
Definition quiet (F : gmap string node) (T : list string) (E : list ffmpeg_reply)
    (s : st) : Prop :=
  fs s = F /\ temp_files s = T /\ encodes s = E.

(** what [detect_video] returns for a file that exists: a record of that
    file, either ok with no message and no issue, or an error with a
    message *)
Definition detected (path : string) (r : res (option VideoInfo.t)) : Prop :=
  exists info,
    r = Ok (Some info)
    /\ VideoInfo.filepath info = path
    /\ VideoInfo.filename info = OsPath.basename path
    /\ (VideoInfo.status_ info = STATUS_OK
        /\ VideoInfo.error_message info = PyNone
        /\ VideoInfo.issues info = []
        \/ VideoInfo.status_ info = STATUS_ERROR
           /\ exists m, VideoInfo.error_message info = PyStr m).

(** [p] is on disk as the node [n] *)
Definition holds (p : string) (n : node) (s : st) : Prop := fs s !! p = Some n.

(** the ffmpeg commands run so far, in order *)
Definition ffmpeg_runs (s : st) : list ffmpeg_cmd :=
  omap (fun e => match e with EvFfmpeg c => Some c | _ => None end) (trace s).

(** no ffmpeg run was started or consumed, and [p] is on disk as [n] *)
Definition before_ffmpeg (E : list ffmpeg_reply) (R : list ffmpeg_cmd)
    (p : string) (n : node) (s : st) : Prop :=
  encodes s = E /\ ffmpeg_runs s = R /\ fs s !! p = Some n.

(** the frame size and rate that a second-stage command announces *)
Definition stage2_geometry (c : ffmpeg_cmd) : option (pyval * pyval * pyval) :=
  match c with
  | Stage2 w h r _ _ _ _ _ => Some (w, h, r)
  | Stage1 _ _ => None
  end.

(** every second stage run since the trace was [T] announced [g] *)
Definition geometry_is (g : pyval * pyval * pyval) (T : list event) (s : st) : Prop :=
  exists evs,
    trace s = T ++ evs
    /\ forall c, In (EvFfmpeg c) evs ->
                 stage2_geometry c = None \/ stage2_geometry c = Some g.

(** the state of an in-place repair while the temporary output file [t]
    holds the bytes [b]: the ffmpeg runs to come, the clock, the original
    on disk as [n], and the creation of [t] in the trace *)
Definition encoded (rest : list ffmpeg_reply) (C : string) (orig : string)
    (n : node) (t b : string) (s : st) : Prop :=
  encodes s = rest /\ clock s = C /\ fs s !! orig = Some n
  /\ fs s !! t = Some (File b) /\ In (EvTemp ".mp4" t) (trace s).

(** the state once the temporary output file [t] has been moved onto the
    original *)
Definition replaced (rest : list ffmpeg_reply) (C : string) (orig t b : string)
    (s : st) : Prop :=
  encodes s = rest /\ clock s = C /\ fs s !! orig = Some (File b)
  /\ fs s !! t = None /\ In (EvTemp ".mp4" t) (trace s).

(** what a successful in-place repair has done, from the ffmpeg runs [E]
    and the clock [C] it started with *)
Definition repaired_in_place (E : list ffmpeg_reply) (C : string) (orig t : string)
    (vi : VideoInfo.t) (r : res outcome) (s : st) : Prop :=
  forall vi' msg,
    r = Ok (vi', (true, msg)) ->
    exists w1 b rest,
      E = FfmpegExit 0 w1 :: FfmpegExit 0 (Some b) :: rest
      /\ b <> ""
      /\ replaced rest C orig t b s
      /\ VideoInfo.status_ vi' = STATUS_FIXED
      /\ VideoInfo.fixed_path vi' = PyStr orig
      /\ VideoInfo.fixed_time vi' = PyStr C
      /\ VideoInfo.filepath vi' = VideoInfo.filepath vi.

(** the last character of a text ([d] for the empty text) *)
Fixpoint last_char (s : string) (d : ascii) : ascii :=
  match s with
  | EmptyString => d
  | String c r => last_char r c
  end.

(** the status of a record after a detection pass over the files [F]: ok
    or error when its file is there, processing when it is not *)
Definition status_after_detection (F : gmap string node) (info : VideoInfo.t)
    : Prop :=
  match F !! VideoInfo.filepath info with
  | Some _ =>
      VideoInfo.status_ info = STATUS_OK \/ VideoInfo.status_ info = STATUS_ERROR
  | None => VideoInfo.status_ info = STATUS_PROCESSING
  end.

(** how many of the listed files are on disk *)
Definition listed_on_disk (F : gmap string node) (l : list VideoInfo.t) : Z :=
  Z.of_nat (length (List.filter
                      (fun info => bool_decide (is_Some (F !! VideoInfo.filepath info)))
                      l)).

(** how many of the indices point into the list *)
Definition valid_indices (indices : list Z) (l : list VideoInfo.t) : Z :=
  Z.of_nat (length (List.filter (fun i => VideoDetectorApp.in_range i l) indices)).

(** what [c] returns, when it returns, satisfies [Q] *)
Definition returns {A} (c : M A) (Q : A -> Prop) : Prop :=
  forall s a, (c s).1 = Ok a -> Q a.

(** what [fix_video] can hand back for the record [vi]: the record as it
    was, with success only for a record that is ok, or the record marked as
    fixed *)
Definition repair_outcome (vi : VideoInfo.t) (r : VideoDetector.outcome) : Prop :=
  let '(vi', (success, _)) := r in
  if success
  then (vi' = vi /\ VideoInfo.status_ vi = STATUS_OK)
       \/ exists path time params,
            vi' = VideoInfo.set_fixed path time params
                    (VideoInfo.set_status STATUS_FIXED vi)
  else vi' = vi.

(** the record at [index] *)
Definition record_at (l : list VideoInfo.t) (index : Z) : option VideoInfo.t :=
  if 0 <=? index then l !! Z.to_nat index else None.

(** the words that pin the pixel format and the colours of a conversion *)
Definition colour_params : list string :=
  ["-pix_fmt"; "yuv420p"; "-color_primaries"; "bt709"; "-color_trc"; "bt709";
   "-colorspace"; "bt709"].

(** the binary64 number [m * 2^e], with a full mantissa and below [2^53],
    is a nearest one to the fraction [n / d] ([0 < d]): it is within half
    a unit of its last place *)
Definition nearest_double (m : positive) (e : Z) (n d : Z) : Prop :=
  2 ^ 52 <= Zpos m < 2 ^ 53 /\ e < 0
  /\ Z.abs (2 * Zpos m * d - 2 * n * 2 ^ (- e)) <= d.

(** [k] hundredths is the decimal with two places nearest to [m * 2^e],
    the even one of the two when [m * 2^e] lies half way *)
Definition nearest_hundredths (m : positive) (e k : Z) : Prop :=
  if 0 <=? e then k = Zpos m * 2 ^ e * 100
  else Z.abs (2 * (Zpos m * 100) - 2 * 2 ^ (- e) * k) <= 2 ^ (- e)
       /\ (Z.abs (2 * (Zpos m * 100) - 2 * 2 ^ (- e) * k) = 2 ^ (- e) ->
           Z.even k = true).

(** a path in the form under which the disk of the model knows one file by
    one text: absolute, with no empty component, no [.] and no [..] *)
Definition plain_component (x : string) : bool :=
  str_truthy x && negb (String.eqb x ".") && negb (String.eqb x "..").

Definition canonical (p : string) : bool :=
  match split_char "/" p with
  | EmptyString :: x :: l => forallb plain_component (x :: l)
  | _ => false
  end.

(* ===================================================================== *)
(** ** Reasoning about computations in [M]                                 *)
(* ===================================================================== *)

Section SpecRules.
Context {A B : Type}.

Lemma spec_ret (P : st -> Prop) (a : A) (Q : res A -> st -> Prop) :
  (forall s, P s -> Q (Ok a) s) -> spec P (ret a) Q.
Proof. intros H s Hs. apply H, Hs. Qed.

Lemma spec_raise (P : st -> Prop) (e : exn) (Q : res A -> st -> Prop) :
  (forall s, P s -> Q (Raise e) s) -> spec P (raise e) Q.
Proof. intros H s Hs. apply H, Hs. Qed.

Lemma spec_conseq (P P' : st -> Prop) (c : M A) (Q Q' : res A -> st -> Prop) :
  spec P' c Q' ->
  (forall s, P s -> P' s) ->
  (forall r s, Q' r s -> Q r s) ->
  spec P c Q.
Proof. intros H HP HQ s Hs. apply HQ, H, HP, Hs. Qed.

Lemma spec_bind (P : st -> Prop) (c : M A) (k : A -> M B)
    (Q : res A -> st -> Prop) (R : res B -> st -> Prop) :
  spec P c Q ->
  (forall a, spec (Q (Ok a)) (k a) R) ->
  (forall e s, Q (Raise e) s -> R (Raise e) s) ->
  spec P (bind c k) R.
Proof.
  intros Hc Hk He s Hs. unfold bind. specialize (Hc s Hs).
  destruct (c s) as [[a|e] s1]; simpl in *.
  - apply Hk, Hc.
  - apply He, Hc.
Qed.

Lemma spec_try_except (P : st -> Prop) (c : M A) (h : exn -> M A)
    (Q R : res A -> st -> Prop) :
  spec P c Q ->
  (forall a s, Q (Ok a) s -> R (Ok a) s) ->
  (forall e, spec (Q (Raise e)) (h e) R) ->
  spec P (try_except c h) R.
Proof.
  intros Hc Hok Hh s Hs. unfold try_except. specialize (Hc s Hs).
  destruct (c s) as [[a|e] s1]; simpl in *.
  - apply Hok, Hc.
  - apply Hh, Hc.
Qed.

Lemma spec_try_finally (P : st -> Prop) (c : M A) (f : M unit)
    (Q R : res A -> st -> Prop) :
  spec P c Q ->
  (forall r, spec (Q r) f (fun rf s =>
               match rf with Ok _ => R r s | Raise e => R (Raise e) s end)) ->
  spec P (try_finally c f) R.
Proof.
  intros Hc Hf s Hs. unfold try_finally. specialize (Hc s Hs).
  destruct (c s) as [r s1]; simpl in *.
  specialize (Hf r s1 Hc). destruct (f s1) as [[u|e] s2]; simpl in *; exact Hf.
Qed.

Lemma spec_get {X} (P : st -> Prop) (f : st -> X) (Q : res X -> st -> Prop) :
  (forall s, P s -> Q (Ok (f s)) s) -> spec P (get f) Q.
Proof. intros H s Hs. apply H, Hs. Qed.

Lemma spec_modify (P : st -> Prop) (f : st -> st) (Q : res unit -> st -> Prop) :
  (forall s, P s -> Q (Ok tt) (f s)) -> spec P (modify f) Q.
Proof. intros H s Hs. apply H, Hs. Qed.

Lemma spec_lift (P : st -> Prop) (r : res A) (Q : res A -> st -> Prop) :
  (forall s, P s -> Q r s) -> spec P (lift r) Q.
Proof. intros H s Hs. apply H, Hs. Qed.
End SpecRules.

Section PreservesRules.
Context (I : st -> Prop).

Lemma preserves_ret {A} (a : A) : preserves I (ret a).
Proof. intros s Hs. exact Hs. Qed.

Lemma preserves_raise {A} (e : exn) : preserves I (@raise A e).
Proof. intros s Hs. exact Hs. Qed.

Lemma preserves_os_error {A} (m : string) : preserves I (@os_error A m).
Proof. intros s Hs. exact Hs. Qed.

Lemma preserves_lift {A} (r : res A) : preserves I (lift r).
Proof. intros s Hs. exact Hs. Qed.

Lemma preserves_get {X} (f : st -> X) : preserves I (get f).
Proof. intros s Hs. exact Hs. Qed.

Lemma preserves_modify (f : st -> st) :
  (forall s, I s -> I (f s)) -> preserves I (modify f).
Proof. intros H s Hs. apply H, Hs. Qed.

Lemma preserves_bind {A B} (c : M A) (k : A -> M B) :
  preserves I c -> (forall a, preserves I (k a)) -> preserves I (bind c k).
Proof.
  intros Hc Hk. eapply spec_bind; [exact Hc | exact Hk | auto].
Qed.

Lemma preserves_try_except {A} (c : M A) (h : exn -> M A) :
  preserves I c -> (forall e, preserves I (h e)) -> preserves I (try_except c h).
Proof.
  intros Hc Hh. eapply spec_try_except; [exact Hc | auto | exact Hh].
Qed.

Lemma preserves_try_finally {A} (c : M A) (f : M unit) :
  preserves I c -> preserves I f -> preserves I (try_finally c f).
Proof.
  intros Hc Hf. eapply spec_try_finally; [exact Hc|].
  intros r s Hs. specialize (Hf s Hs). simpl in Hf.
  destruct (f s) as [[u|e] s2]; exact Hf.
Qed.

Lemma preserves_for_each {A} (l : list A) (body : A -> M unit) :
  (forall x, preserves I (body x)) -> preserves I (for_each l body).
Proof.
  intros Hb. induction l as [|x l IH]; simpl.
  - apply preserves_ret.
  - apply preserves_bind; [apply Hb | intros _; exact IH].
Qed.
End PreservesRules.

(** Syntax-directed decomposition of a [preserves] goal: the structural
    rules, case analysis on the tests of the code, and the lemmas of the
    hint database [inv] for the primitive calls. *)
Create HintDb inv discriminated.

Ltac preserves_step :=
  lazymatch goal with
  | |- preserves _ (bind _ _) => apply preserves_bind; [ | intros ? ]
  | |- preserves _ (try_except _ _) => apply preserves_try_except; [ | intros ? ]
  | |- preserves _ (try_finally _ _) => apply preserves_try_finally
  | |- preserves _ (for_each _ _) => apply preserves_for_each; intros ?
  | |- preserves _ (ret _) => apply preserves_ret
  | |- preserves _ (raise _) => apply preserves_raise
  | |- preserves _ (os_error _) => apply preserves_os_error
  | |- preserves _ (lift _) => apply preserves_lift
  | |- preserves _ (get _) => apply preserves_get
  | |- preserves _ (if ?b then _ else _) => destruct b
  | |- preserves _ (match ?x with _ => _ end) => destruct x
  | |- preserves _ (let '(_, _) := ?x in _) => destruct x
  end.

Ltac preserves_auto :=
  repeat first [ solve [ eauto with inv ] | preserves_step ].

(* ===================================================================== *)
(** ** The analyzer: one stream at a time                                  *)
(* ===================================================================== *)

Lemma issue_lists_eq (a b : issue_lists) :
  video_issues a = video_issues b -> audio_issues a = audio_issues b -> a = b.
Proof. destruct a, b; simpl; congruence. Qed.

Lemma check_side_data_acc (l : list Ffprobe.side_data) (acc : issue_lists) :
  video_issues (fold_left check_side_data l acc)
  = video_issues acc ++ video_issues (fold_left check_side_data l no_issues)
  /\ audio_issues (fold_left check_side_data l acc) = audio_issues acc.
Proof.
  revert acc. induction l as [|x l IH]; intros acc; simpl.
  - by rewrite app_nil_r.
  - destruct (IH (check_side_data acc x)) as [Hv Ha].
    destruct (IH (check_side_data no_issues x)) as [Hv0 _].
    rewrite Hv, Ha, Hv0. unfold check_side_data.
    destruct (opt_str_is _ _); simpl; [|done].
    by rewrite <- app_assoc.
Qed.

(** the loop body only appends, and what it appends does not depend on
    what was found before *)
Lemma check_stream_acc (acc : issue_lists) (stream : Ffprobe.stream) :
  check_stream acc stream
  = {| video_issues := video_issues acc ++ stream_video_issues stream;
       audio_issues := audio_issues acc ++ stream_audio_issues stream |}.
Proof.
  unfold stream_video_issues, stream_audio_issues, check_stream.
  destruct (opt_str_is (Ffprobe.codec_type stream) "video").
  - match goal with
    | |- context [fold_left check_side_data ?l _] => set (sd := l)
    end.
    apply issue_lists_eq; simpl.
    + rewrite (proj1 (check_side_data_acc sd _)).
      rewrite (proj1 (check_side_data_acc sd
                 (if str_truthy _ && _ then _ else _))).
      repeat match goal with
             | |- context [if ?b then _ else _] => destruct b
             end; simpl; rewrite <- ?app_assoc, ?app_nil_r; reflexivity.
    + rewrite (proj2 (check_side_data_acc sd _)).
      rewrite (proj2 (check_side_data_acc sd
                 (if str_truthy _ && _ then _ else _))).
      repeat match goal with
             | |- context [if ?b then _ else _] => destruct b
             end; simpl; rewrite ?app_nil_r; reflexivity.
  - destruct (opt_str_is (Ffprobe.codec_type stream) "audio").
    + destruct (negb _); apply issue_lists_eq; simpl; by rewrite ?app_nil_r.
    + apply issue_lists_eq; simpl; by rewrite app_nil_r.
Qed.

Lemma fold_check_stream (l : list Ffprobe.stream) (acc : issue_lists) :
  fold_left check_stream l acc
  = {| video_issues := video_issues acc ++ flat_map stream_video_issues l;
       audio_issues := audio_issues acc ++ flat_map stream_audio_issues l |}.
Proof.
  revert acc. induction l as [|x l IH]; intros acc; simpl.
  - apply issue_lists_eq; simpl; by rewrite app_nil_r.
  - rewrite IH, check_stream_acc. simpl.
    apply issue_lists_eq; simpl; by rewrite <- app_assoc.
Qed.

Lemma scan_streams_flat_map (data : Ffprobe.data) :
  scan_streams data
  = {| video_issues := flat_map stream_video_issues (streams_of data);
       audio_issues := flat_map stream_audio_issues (streams_of data) |}.
Proof. unfold scan_streams. by rewrite fold_check_stream. Qed.

Lemma stream_audio_issues_audio (stream : Ffprobe.stream) :
  is_audio stream = true ->
  stream_audio_issues stream
  = if audio_codec_accepted stream then [] else [audio_issue_text stream].
Proof.
  unfold is_audio, is_video, stream_audio_issues, check_stream,
    audio_codec_accepted, audio_issue_text.
  destruct (opt_str_is (Ffprobe.codec_type stream) "video"); [done|].
  cbn [negb andb]. intros ->.
  by destruct (str_in _ _).
Qed.

Lemma stream_video_issues_not_video (stream : Ffprobe.stream) :
  is_video stream = false -> stream_video_issues stream = [].
Proof.
  unfold is_video, stream_video_issues, check_stream. intros ->.
  destruct (opt_str_is _ "audio"); [destruct (negb _)|]; reflexivity.
Qed.

Lemma stream_audio_issues_not_audio (stream : Ffprobe.stream) :
  is_audio stream = false -> stream_audio_issues stream = [].
Proof.
  unfold is_audio, is_video, stream_audio_issues. rewrite check_stream_acc.
  unfold stream_audio_issues, check_stream.
  destruct (opt_str_is _ "video"); simpl.
  - intros _. match goal with
    | |- context [fold_left check_side_data ?l ?a] =>
        rewrite (proj2 (check_side_data_acc l a))
    end.
    repeat match goal with
           | |- context [if ?b then _ else _] => destruct b
           end; reflexivity.
  - by intros ->.
Qed.

(* ===================================================================== *)
(** ** Invariants of the primitive calls                                   *)
(* ===================================================================== *)

(** a name returned by the search of [mkstemp] is not on disk *)
Lemma first_free_fresh (f : gmap string node) (dir prefix suffix : string)
    (names rest : list string) (p : string) :
  first_free f dir prefix suffix names = (Some p, rest) -> f !! p = None.
Proof.
  induction names as [|n names IH]; simpl; [done|].
  destruct (f !! OsPath.join dir (prefix +:+ n +:+ suffix)) eqn:E.
  - exact IH.
  - intros [= <- _]. exact E.
Qed.

Lemma str_in_spec (x : string) (l : list string) : str_in x l = true <-> In x l.
Proof.
  unfold str_in. rewrite existsb_exists. split.
  - intros (y & Hy & E). apply String.eqb_eq in E. by subst.
  - intros H. exists x. split; [done|]. apply String.eqb_refl.
Qed.

Lemma list_remove_other (x y : string) (l : list string) :
  x <> y -> In y l -> In y (list_remove x l).
Proof.
  intros Hne. induction l as [|z l IH]; simpl; [done|].
  destruct (String.eqb_spec x z) as [->|Hxz].
  - intros [->|H]; [done|exact H].
  - intros [->|H]; [by left|right; auto].
Qed.

Lemma list_remove_subset (x y : string) (l : list string) :
  In y (list_remove x l) -> In y l.
Proof.
  induction l as [|z l IH]; simpl; [done|].
  destruct (String.eqb x z); [by right|].
  intros [->|H]; [by left|right; auto].
Qed.

(** unfolding a primitive call down to the state it returns *)
Ltac prim_unfold :=
  unfold remove, rename, move, makedirs, mkstemp, run_ffprobe, run_ffmpeg,
    registry_add, registry_discard, exists_, getsize, fs_call, os_error,
    bind, ret, raise, get, modify, lift.

(** [preserves] for one primitive call: unfold it, split on what it
    tests, and close each case with [closer] *)
Ltac preserves_prim closer :=
  let s := fresh "s" in
  let Hs := fresh "Hs" in
  intros s Hs; prim_unfold; simpl;
  repeat (case_match; simplify_eq/=);
  closer.

Ltac preserves_rule closer :=
  first
    [ preserves_step
    | lazymatch goal with
      | |- preserves _ (VideoDetector._get_video_info _ _) =>
          unfold VideoDetector._get_video_info
      | |- preserves _ (VideoDetector._identify_problematic_streams _ _) =>
          unfold VideoDetector._identify_problematic_streams
      | |- preserves _ (VideoDetector.remove_raw _) =>
          unfold VideoDetector.remove_raw
      | |- preserves _ (VideoDetector.replace_original _ _ _) =>
          unfold VideoDetector.replace_original
      | |- preserves _ (VideoDetector.two_stage _ _ _ _ _ _ _ _ _ _ _) =>
          unfold VideoDetector.two_stage
      | |- preserves _ (VideoDetector.cleanup) =>
          unfold VideoDetector.cleanup
      | |- preserves _ (VideoDetector.fix_video _ _ _ _ _) =>
          unfold VideoDetector.fix_video
      | |- preserves _ (VideoDetector.detect_video _ _) =>
          unfold VideoDetector.detect_video
      end
    | lazymatch goal with
      | |- preserves _ (remove _) => preserves_prim closer
      | |- preserves _ (rename _ _) => preserves_prim closer
      | |- preserves _ (move _ _) => preserves_prim closer
      | |- preserves _ (makedirs _) => preserves_prim closer
      | |- preserves _ (mkstemp _ _ _) => preserves_prim closer
      | |- preserves _ (run_ffprobe _) => preserves_prim closer
      | |- preserves _ (run_ffmpeg _) => preserves_prim closer
      | |- preserves _ (registry_add _) => preserves_prim closer
      | |- preserves _ (registry_discard _) => preserves_prim closer
      | |- preserves _ (exists_ _) => preserves_prim closer
      | |- preserves _ (getsize _) => preserves_prim closer
      | |- preserves _ (modify _) => preserves_prim closer
      end ].

Ltac preserves_go closer := repeat (preserves_rule closer).

(** *** What no call ever changes: the refusals of the environment *)

Lemma fix_video_refusing (R : fs_op -> bool) d vi out q del :
  preserves (refusing R) (VideoDetector.fix_video d vi out q del).
Proof. preserves_go ltac:(unfold refusing in *; simpl; assumption). Qed.

(* ===================================================================== *)
(** ** Properties                                                          *)
(* ===================================================================== *)

(** *** Detection *)

Lemma identify_never_raises (d : self) (p : string) (s : st) :
  exists issues, (_identify_problematic_streams d p s).1 = Ok issues.
Proof.
  unfold _identify_problematic_streams.
  destruct (negb (has_ffprobe d)); [by eexists|].
  unfold try_except, ret.
  match goal with |- context [match ?c s with _ => _ end] => destruct (c s) as [[a|e] s'] end;
    simpl; by eexists.
Qed.

Lemma exists_run (p : string) (s : st) :
  exists_ p s = (Ok (bool_decide (is_Some (fs s !! p))), s).
Proof. reflexivity. Qed.

Lemma getsize_existing (p : string) (s : st) :
  is_Some (fs s !! p) -> exists n, getsize p s = (Ok n, s).
Proof.
  intros [n Hn]. unfold getsize, bind, get, ret. simpl. rewrite Hn.
  destruct n; by eexists.
Qed.

Lemma has_issues_false (i : issue_lists) :
  has_issues i = false <-> video_issues i = [] /\ audio_issues i = [].
Proof.
  unfold has_issues. destruct (video_issues i), (audio_issues i); split;
    (done || by intros [? ?]).
Qed.

Lemma copy_attrs_error_message (vi : dict) (i : VideoInfo.t) :
  VideoInfo.error_message (copy_attrs vi i) = VideoInfo.error_message i.
Proof.
  unfold copy_attrs. revert i. induction vi as [|[k v] l IH]; intros i; simpl; [done|].
  rewrite IH. by destruct (str_in _ _).
Qed.





(** *** Probe failures *)

Lemma get_video_info_fails (d : self) (p : string) (s : st) :
  has_ffprobe d = true ->
  probe_fails (probes s) = true ->
  exists msg s', _get_video_info d p s = (Raise (mk_exn Exception msg), s').
Proof.
  intros Hd Hf. unfold _get_video_info. rewrite Hd. simpl.
  unfold try_except, bind at 1, run_ffprobe, bind, modify, get, os_error, raise, ret.
  simpl. destruct (probes s) as [|[msg|rc out err] rest]; simpl in *.
  - by eexists _, _.
  - by eexists _, _.
  - destruct (rc =? 0); simpl in *.
    + destruct out; [|done]. simpl. by eexists _, _.
    + by eexists _, _.
Qed.

(** the analyzer's own probe, made after [_get_video_info] succeeded *)
Lemma identify_second_probe_fails (d : self) (p : string) (s s1 : st) (vi : dict) :
  has_ffprobe d = true ->
  _get_video_info d p s = (Ok (Some vi), s1) ->
  dict_truthy vi = true ->
  probe_fails (probes s1) = true ->
  (_identify_problematic_streams d p s).1 = Ok no_issues.
Proof.
  intros Hd Hinfo Hvi Hf. unfold _identify_problematic_streams. rewrite Hd. simpl.
  unfold try_except, bind at 1. rewrite Hinfo. simpl. rewrite Hvi. simpl.
  unfold bind at 1, run_ffprobe, bind, modify, get, os_error, raise, ret. simpl.
  destruct (probes s1) as [|[msg|rc out err] rest]; simpl in *; try done.
  destruct (rc =? 0); simpl in *; [|done].
  by destruct out.
Qed.

Lemma flagged_message_differs (msg : string) :
  PyStr ("检测失败: " +:+ msg) <> PyStr "检测到兼容性问题".
Proof. intros H. injection H as H. vm_compute in H. discriminate H. Qed.

(** C3 (amended). When the probe fails -- ffprobe cannot be started, exits
    nonzero or prints text that is not JSON -- the analyzer returns the two
    empty lists and nothing else, the value it returns for a compliant file;
    and [detect_video], whose own probe is the one that fails, returns a
    record with status error (never ok), no issues, and the message
    "检测失败: ..." rather than the message of a flagged file. *)
Theorem probe_failure_reported (d : self) (path : string) (s : st) :
  has_ffprobe d = true ->
  probe_fails (probes s) = true ->
  (_identify_problematic_streams d path s).1 = Ok no_issues
  /\ (is_Some (fs s !! path) ->
      exists info msg,
        (detect_video d path s).1 = Ok (Some info)
        /\ VideoInfo.status_ info = STATUS_ERROR
        /\ VideoInfo.issues info = []
        /\ VideoInfo.error_message info = PyStr ("检测失败: " +:+ msg)
        /\ VideoInfo.error_message info <> PyStr "检测到兼容性问题").
Proof.
  intros Hd Hf.
  destruct (get_video_info_fails d path s Hd Hf) as (msg & s' & Hinfo).
  split.
  - unfold _identify_problematic_streams. rewrite Hd. simpl.
    unfold try_except, bind. by rewrite Hinfo.
  - intros Hex. destruct (getsize_existing path s Hex) as [size Hsize].
    eexists _, msg. unfold detect_video, bind at 1. rewrite exists_run.
    rewrite bool_decide_eq_true_2 by exact Hex. simpl.
    unfold bind at 1. rewrite Hsize, Hd. unfold try_except, bind.
    rewrite Hinfo. simpl.
    split; [reflexivity|]. split; [reflexivity|]. split; [reflexivity|].
    split; [reflexivity|]. apply flagged_message_differs.
Qed.

Lemma probe_failure_reported_witness :
  let d := Samples.both_tools in
  let s := Samples.world [Samples.bad] [] in
  has_ffprobe d = true
  /\ probe_fails (probes s) = true
  /\ is_Some (fs s !! "/v/a.mp4")
  /\ (_identify_problematic_streams d "/v/a.mp4" s).1 = Ok no_issues
  /\ exists info,
       (detect_video d "/v/a.mp4" s).1 = Ok (Some info)
       /\ VideoInfo.status_ info = STATUS_ERROR.
Proof.
  intros d s.
  assert (H1 : has_ffprobe d = true) by reflexivity.
  assert (H2 : probe_fails (probes s) = true) by reflexivity.
  assert (H3 : is_Some (fs s !! "/v/a.mp4")) by (vm_compute; eauto).
  split; [exact H1|]. split; [exact H2|]. split; [exact H3|].
  destruct (probe_failure_reported d "/v/a.mp4" s H1 H2) as [Ha Hd].
  split; [exact Ha|].
  destruct (Hd H3) as (info & msg & Hrun & Hst & _).
  exists info. split; [exact Hrun|exact Hst].
Defined.

(** C3, as stated, fails: the file below has an hevc video stream; the
    probe of [detect_video] succeeds, the probe made by the analyzer exits
    with code 1; the analyzer returns the empty lists, exactly what it
    returns for the compliant file, and the record is reported ok. *)
Lemma probe_failure_reported_ok :
  let d := Samples.both_tools in
  let s := Samples.world [Samples.good Samples.hevc_doc; Samples.bad] [] in
  let s_clean := Samples.world [Samples.good Samples.clean_doc;
                                Samples.good Samples.clean_doc] [] in
  probe_fails (probes (_get_video_info d "/v/a.mp4" s).2) = true
  /\ (_identify_problematic_streams d "/v/a.mp4" (_get_video_info d "/v/a.mp4" s).2).1
     = (_identify_problematic_streams d "/v/a.mp4" s_clean).1
  /\ exists info,
       (detect_video d "/v/a.mp4" s).1 = Ok (Some info)
       /\ VideoInfo.status_ info = STATUS_OK
       /\ VideoInfo.codec info = PyStr "hevc".
Proof.
  intros d s s_clean. split; [reflexivity|]. split; [reflexivity|].
  eexists. split; [vm_compute; reflexivity|]. split; reflexivity.
Qed.

(** *** Repair of a record that is already ok *)

(** C10 (amended). When ffmpeg is available, [fix_video] on a record whose
    status is ok returns success with the message "视频已兼容，无需修复" and
    leaves everything as it was: the record, the files, the registry of
    temporary files, and the list of calls made to the file system and to
    the external tools. *)
Theorem fix_video_ok_is_noop (d : self) (vi : VideoInfo.t)
    (out : option string) (quality : string) (del : bool) (s : st) :
  has_ffmpeg d = true ->
  VideoInfo.status_ vi = STATUS_OK ->
  fix_video d vi out quality del s = (Ok (vi, (true, "视频已兼容，无需修复")), s).
Proof.
  intros Hd Hst. unfold fix_video. rewrite Hd. simpl.
  by rewrite bool_decide_eq_true_2.
Qed.

Lemma fix_video_ok_is_noop_witness :
  let s := Samples.world [] [] in
  has_ffmpeg Samples.both_tools = true
  /\ VideoInfo.status_ Samples.ok_record = STATUS_OK
  /\ fix_video Samples.both_tools Samples.ok_record None "medium" false s
     = (Ok (Samples.ok_record, (true, "视频已兼容，无需修复")), s).
Proof.
  intros s.
  assert (H1 : has_ffmpeg Samples.both_tools = true) by reflexivity.
  assert (H2 : VideoInfo.status_ Samples.ok_record = STATUS_OK) by reflexivity.
  split; [exact H1|]. split; [exact H2|].
  exact (fix_video_ok_is_noop Samples.both_tools Samples.ok_record None "medium"
           false s H1 H2).
Defined.

(** C10, as stated, fails when ffmpeg was not found: the test for ffmpeg
    comes first, and the call on an ok record reports a failure. *)
Lemma fix_video_ok_without_ffmpeg :
  let s := Samples.world [] [] in
  VideoInfo.status_ Samples.ok_record = STATUS_OK
  /\ fix_video Samples.no_ffmpeg Samples.ok_record None "medium" false s
     = (Ok (Samples.ok_record, (false, "未找到FFmpeg，无法修复视频")), s).
Proof. split; reflexivity. Qed.

(** *** Absent fields in the analyzer *)

(** a video stream without codec name, pixel format, colour space and side
    data raises no issue, in either implementation *)
Lemma bare_video_no_issue (stream : Ffprobe.stream) (acc : issue_lists) :
  is_video stream = true ->
  Ffprobe.codec_name stream = None ->
  Ffprobe.pix_fmt stream = None ->
  Ffprobe.color_space stream = None ->
  Ffprobe.side_data_list stream = None ->
  check_stream acc stream = acc /\ VideoConverter.check_stream acc stream = acc.
Proof.
  unfold is_video, check_stream, VideoConverter.check_stream.
  intros -> -> -> -> ->. by destruct acc.
Qed.

(** C2, on the code: an audio stream whose codec name is absent from the
    probe output does add an audio issue, in both implementations; the
    name defaults to the empty string, which is not in the accepted list,
    and unlike the pixel-format and colour-space tests this one is not
    guarded by a test for presence. *)
Theorem absent_audio_codec_is_flagged (data : Ffprobe.data) (stream : Ffprobe.stream) :
  In stream (streams_of data) ->
  is_audio stream = true ->
  Ffprobe.codec_name stream = None ->
  In unnamed_audio_issue (audio_issues (scan_streams data))
  /\ In unnamed_audio_issue (audio_issues (VideoConverter.scan_streams data)).
Proof.
  intros Hin Haudio Hname. split.
  - rewrite scan_streams_flat_map. simpl. apply in_flat_map.
    exists stream. split; [exact Hin|].
    rewrite stream_audio_issues_audio by exact Haudio.
    unfold audio_codec_accepted, audio_issue_text. rewrite Hname. by left.
  - unfold VideoConverter.scan_streams.
    assert (Hgen : forall l acc,
      In stream l \/ In unnamed_audio_issue (audio_issues acc) ->
      In unnamed_audio_issue
        (audio_issues (fold_left VideoConverter.check_stream l acc))).
    { induction l as [|x l IH]; intros acc [H|H]; simpl; try done.
      - destruct H as [->|H].
        + apply IH. right.
          unfold is_audio, is_video in Haudio. unfold VideoConverter.check_stream.
          destruct (opt_str_is (Ffprobe.codec_type stream) "video"); [done|].
          simpl in Haudio. rewrite Haudio, Hname. simpl.
          apply in_or_app. right. by left.
        + apply IH. by left.
      - apply IH. right. unfold VideoConverter.check_stream.
        repeat match goal with
               | |- context [if ?b then _ else _] => destruct b
               end; simpl; try done; apply in_or_app; by left. }
    apply Hgen. by left.
Qed.

Lemma absent_audio_codec_is_flagged_witness :
  let d := Samples.both_tools in
  let doc := Samples.unnamed_audio_doc in
  let s := Samples.world [Samples.good doc; Samples.good doc; Samples.good doc] [] in
  In (Ffprobe.bare "audio") (streams_of doc)
  /\ is_audio (Ffprobe.bare "audio") = true
  /\ Ffprobe.codec_name (Ffprobe.bare "audio") = None
  /\ In unnamed_audio_issue (audio_issues (scan_streams doc))
  /\ (_identify_problematic_streams d "/v/a.mp4" s).1
     = Ok {| video_issues := []; audio_issues := [unnamed_audio_issue] |}
  /\ exists info,
       (detect_video d "/v/a.mp4" s).1 = Ok (Some info)
       /\ VideoInfo.status_ info = STATUS_ERROR
       /\ VideoInfo.audio_codec info = PyNone.
Proof.
  intros d doc s.
  assert (H1 : In (Ffprobe.bare "audio") (streams_of doc)) by (right; left; reflexivity).
  assert (H2 : is_audio (Ffprobe.bare "audio") = true) by reflexivity.
  assert (H3 : Ffprobe.codec_name (Ffprobe.bare "audio") = None) by reflexivity.
  split; [exact H1|]. split; [exact H2|]. split; [exact H3|].
  split; [exact (proj1 (absent_audio_codec_is_flagged doc _ H1 H2 H3))|].
  split; [reflexivity|].
  eexists. split; [vm_compute; reflexivity|]. split; reflexivity.
Defined.

(** *** Every stream is scanned *)

Lemma video_not_audio (stream : Ffprobe.stream) :
  is_video stream = true -> opt_str_is (Ffprobe.codec_type stream) "audio" = false.
Proof.
  unfold is_video, opt_str_is. destruct (Ffprobe.codec_type stream) as [t|]; [|done].
  intros ->%String.eqb_eq. reflexivity.
Qed.

Lemma pick_fold (l : list Ffprobe.stream) (v a : option Ffprobe.stream) :
  fold_left pick_stream l (v, a)
  = (match v with Some _ => v | None => find is_video l end,
     match a with Some _ => a | None => find is_audio l end).
Proof.
  revert v a. induction l as [|x l IH]; intros v a; simpl.
  - by destruct v, a.
  - unfold pick_stream, is_audio. fold (is_video x).
    destruct (is_video x) eqn:Hv.
    + rewrite (video_not_audio x Hv). simpl.
      destruct v; simpl; rewrite IH; by destruct a.
    + simpl. destruct (opt_str_is (Ffprobe.codec_type x) "audio"); simpl;
        destruct a; simpl; rewrite IH; by destruct v.
Qed.

(** the description keeps the first video stream and the first audio
    stream of the document *)
Lemma pick_streams_first (l : list Ffprobe.stream) :
  pick_streams l = (find is_video l, find is_audio l).
Proof. apply pick_fold. Qed.

Lemma identify_scans (d : self) (p : string) (s s1 : st) (vi : dict)
    (data : Ffprobe.data) (err : string) (rest : list probe_reply) :
  has_ffprobe d = true ->
  _get_video_info d p s = (Ok (Some vi), s1) ->
  dict_truthy vi = true ->
  probes s1 = ProbeExit 0 (Json data) err :: rest ->
  (_identify_problematic_streams d p s).1 = Ok (scan_streams data).
Proof.
  intros Hd Hinfo Hvi Hp. unfold _identify_problematic_streams. rewrite Hd. simpl.
  unfold try_except, bind at 1. rewrite Hinfo. simpl. rewrite Hvi. simpl.
  unfold bind at 1, run_ffprobe, bind, modify, get, os_error, raise, ret. simpl.
  by rewrite Hp.
Qed.

Lemma side_data_fold (l : list Ffprobe.side_data) :
  video_issues (fold_left check_side_data l no_issues)
  = flat_map
      (fun item =>
         if opt_str_is (Ffprobe.side_data_type item) "Ambient viewing environment"
         then ["视频包含环境观看环境元数据，可能不被MoviePy兼容"] else [])
      l.
Proof.
  induction l as [|x l IH]; simpl; [done|].
  rewrite (proj1 (check_side_data_acc l _)), IH.
  unfold check_side_data. by destruct (opt_str_is _ _).
Qed.

Lemma stream_video_issues_video (stream : Ffprobe.stream) :
  is_video stream = true ->
  stream_video_issues stream
  = codec_issue stream ++ pix_fmt_issue stream ++ color_space_issue stream
    ++ side_data_issues stream.
Proof.
  unfold is_video, stream_video_issues, check_stream, codec_issue, pix_fmt_issue,
    color_space_issue, side_data_issues.
  intros ->.
  match goal with
  | |- context [fold_left check_side_data ?l ?a] =>
      rewrite (proj1 (check_side_data_acc l a)), side_data_fold
  end.
  repeat match goal with
         | |- context [if ?b then _ else _] => destruct b
         end; reflexivity.
Qed.

(** C9. The analyzer looks at every stream of the document, wherever it
    stands: its video list is the concatenation, in stream order, of what
    each stream contributes by itself (for a video stream: its codec, pixel
    format, colour space and side-data issues), and its audio list is the
    concatenation of the audio contributions.  So every issue of any stream
    is reported, every audio stream whose lower-cased codec name is not aac,
    mp3 or pcm_s16le adds its issue, and a stream with an issue makes the
    verdict non-compliant, while the description of the file is taken from
    the first video stream and the first audio stream only. *)
Theorem every_stream_is_scanned (d : self) (p : string) (s s1 : st) (vi : dict)
    (data : Ffprobe.data) (err : string) (rest : list probe_reply)
    (stream : Ffprobe.stream) :
  has_ffprobe d = true ->
  _get_video_info d p s = (Ok (Some vi), s1) ->
  dict_truthy vi = true ->
  probes s1 = ProbeExit 0 (Json data) err :: rest ->
  In stream (streams_of data) ->
  exists issues,
    (_identify_problematic_streams d p s).1 = Ok issues
    /\ video_issues issues = flat_map stream_video_issues (streams_of data)
    /\ audio_issues issues = flat_map stream_audio_issues (streams_of data)
    /\ (is_video stream = true ->
        stream_video_issues stream
        = codec_issue stream ++ pix_fmt_issue stream ++ color_space_issue stream
          ++ side_data_issues stream)
    /\ (forall msg, In msg (stream_video_issues stream) -> In msg (video_issues issues))
    /\ (is_audio stream = true -> audio_codec_accepted stream = false ->
        In (audio_issue_text stream) (audio_issues issues))
    /\ (stream_video_issues stream <> [] \/ stream_audio_issues stream <> [] ->
        has_issues issues = true)
    /\ pick_streams (streams_of data)
       = (find is_video (streams_of data), find is_audio (streams_of data)).
Proof.
  intros Hd Hinfo Hvi Hp Hin. exists (scan_streams data).
  split; [by eapply identify_scans|].

  rewrite scan_streams_flat_map. simpl.
  split; [done|]. split; [done|].
  split; [apply stream_video_issues_video|].
  split.
  { intros msg Hmsg. apply in_flat_map. by exists stream. }
  split.
  { intros Ha Hacc. apply in_flat_map. exists stream. split; [done|].
    rewrite stream_audio_issues_audio, Hacc by done. by left. }
  split; [|apply pick_streams_first].
  intros H. unfold has_issues. simpl.
  destruct (flat_map stream_video_issues (streams_of data)) eqn:Ev;
    destruct (flat_map stream_audio_issues (streams_of data)) eqn:Ea; try done.
  exfalso. destruct H as [H|H].
  - destruct (stream_video_issues stream) as [|m l] eqn:E; [done|].
    assert (Hm : In m (flat_map stream_video_issues (streams_of data))).
    { apply in_flat_map. exists stream. rewrite E. split; [done|by left]. }
    by rewrite Ev in Hm.
  - destruct (stream_audio_issues stream) as [|m l] eqn:E; [done|].
    assert (Hm : In m (flat_map stream_audio_issues (streams_of data))).
    { apply in_flat_map. exists stream. rewrite E. split; [done|by left]. }
    by rewrite Ea in Hm.
Qed.

(** the third stream of the sample is in hevc: the record shows the codec
    of the first video stream, h264, and the verdict is error *)
Lemma every_stream_is_scanned_witness :
  let d := Samples.both_tools in
  let doc := Samples.second_hevc_doc in
  let s := Samples.world [Samples.good doc; Samples.good doc; Samples.good doc] [] in
  let s0 := (_get_video_info d "/v/a.mp4" s).2 in
  let vi := match (_get_video_info d "/v/a.mp4" s0).1 with
            | Ok (Some vi) => vi
            | _ => []
            end in
  let s1 := (_get_video_info d "/v/a.mp4" s0).2 in
  let third := Samples.video "hevc" "yuv420p" "bt709" in
  has_ffprobe d = true
  /\ _get_video_info d "/v/a.mp4" s0 = (Ok (Some vi), s1)
  /\ dict_truthy vi = true
  /\ probes s1 = ProbeExit 0 (Json doc) "" :: []
  /\ In third (streams_of doc)
  /\ (exists issues,
        (_identify_problematic_streams d "/v/a.mp4" s0).1 = Ok issues
        /\ has_issues issues = true)
  /\ exists info,
       (detect_video d "/v/a.mp4" s).1 = Ok (Some info)
       /\ VideoInfo.codec info = PyStr "h264"
       /\ VideoInfo.status_ info = STATUS_ERROR
       /\ VideoInfo.issues info = ["视频使用 HEVC 编码，可能不被MoviePy兼容"].
Proof.
  intros d doc s s0 vi s1 third.
  assert (H1 : has_ffprobe d = true) by reflexivity.
  assert (H2 : _get_video_info d "/v/a.mp4" s0 = (Ok (Some vi), s1)) by reflexivity.
  assert (H3 : dict_truthy vi = true) by reflexivity.
  assert (H4 : probes s1 = ProbeExit 0 (Json doc) "" :: []) by reflexivity.
  assert (H5 : In third (streams_of doc)) by (right; right; left; reflexivity).
  repeat (split; [assumption|]).
  destruct (every_stream_is_scanned d "/v/a.mp4" s0 s1 vi doc "" [] third H1 H2 H3 H4 H5)
    as (issues & Hid & _ & _ & _ & _ & _ & Hhas & _).
  split.
  - exists issues. split; [exact Hid|]. apply Hhas. left. vm_compute. discriminate.
  - eexists. split; [vm_compute; reflexivity|]. repeat split; reflexivity.
Defined.

(** *** Integers and their decimal text *)

Module Decimals.

Lemma uint_chars_plain (d : Decimal.uint) : forallb plain (uint_chars d) = true.
Proof. induction d; simpl; auto. Qed.

Lemma int_digits_acc (d : Decimal.uint) (b : bool) (acc : positive) :
  int_digits b (Zpos acc) (uint_chars d) = Some (Zpos (Pos.of_uint_acc d acc))
  \/ (b = false /\ d = Decimal.Nil).
Proof.
  revert b acc. induction d; intros b acc; simpl;
    try (left;
         match goal with
         | IH : forall b acc, _ \/ _ |- int_digits true ?z _ = Some (Zpos (Pos.of_uint_acc _ ?a)) =>
             destruct (IH true a) as [E|[E _]]; [|discriminate E];
             replace z with (Zpos a) by lia; exact E
         end).
  destruct b; [by left|by right].
Qed.

Lemma int_digits_uint (d : Decimal.uint) (b : bool) :
  d <> Decimal.Nil \/ b = true ->
  int_digits b 0 (uint_chars d) = Some (Z.of_N (Pos.of_uint d)).
Proof.
  revert b. induction d; intros b Hd; simpl;
    try (match goal with
         | |- int_digits true ?z _ = Some (Zpos (Pos.of_uint_acc ?d ?a)) =>
             destruct (int_digits_acc d true a) as [E|[E _]]; [|discriminate E];
             replace z with (Zpos a) by lia; exact E
         end).
  - destruct Hd as [Hd| ->]; [done|reflexivity].
  - apply IHd. by right.
Qed.

Lemma strip_plain (l : list ascii) :
  forallb plain l = true -> strip l = l.
Proof.
  intros H. unfold strip.
  assert (Hl : forall l, forallb plain l = true -> lstrip l = l).
  { intros [|c r]; simpl; [done|]. unfold plain at 1.
    destruct (is_space c); [done|reflexivity]. }
  rewrite (Hl l H). rewrite Hl.
  - apply rev_involutive.
  - rewrite forallb_forall in *. intros x Hx. apply H. by apply in_rev.
Qed.

Lemma int_of_chars_pos (p : positive) :
  int_of_chars (uint_chars (Pos.to_uint p)) = Some (Zpos p).
Proof.
  unfold int_of_chars. rewrite strip_plain by apply uint_chars_plain.
  pose proof (DecimalPos.Unsigned.to_uint_nonnil p) as Hnil.
  pose proof (DecimalPos.Unsigned.of_to p) as Hof.
  pose proof (int_digits_uint (Pos.to_uint p) false (or_introl Hnil)) as H.
  rewrite Hof in H. simpl in H.
  destruct (Pos.to_uint p); try done; exact H.
Qed.

(** [int(str(z)) == z] *)
Lemma int_of_str_of_int (z : Z) : int_of_str (str_of_int z) = Ok z.
Proof.
  unfold int_of_str, str_of_int. destruct z as [|p|p].
  - reflexivity.
  - by rewrite list_ascii_of_string_of_list_ascii, int_of_chars_pos.
  - simpl. rewrite list_ascii_of_string_of_list_ascii.
    unfold int_of_chars. rewrite strip_plain
      by (simpl; apply uint_chars_plain).
    pose proof (int_of_chars_pos p) as H. unfold int_of_chars in H.
    rewrite strip_plain in H by apply uint_chars_plain.
    assert (E : int_digits false 0 (uint_chars (Pos.to_uint p)) = Some (Zpos p)).
    { destruct (Pos.to_uint p); try done; exact H. }
    by rewrite E.
Qed.

Lemma contains_char_plain (l : list ascii) :
  forallb plain l = true -> contains_char "/" (string_of_list_ascii l) = false.
Proof.
  induction l as [|c r IH]; simpl; [done|].
  intros [Hc Hr]%andb_true_iff. rewrite (IH Hr).
  unfold plain in Hc. apply andb_true_iff in Hc as [_ Hc].
  by destruct (Ascii.eqb c "/").
Qed.

Lemma str_of_int_no_slash (z : Z) : contains_char "/" (str_of_int z) = false.
Proof.
  destruct z as [|p|p]; [reflexivity| |].
  - apply contains_char_plain, uint_chars_plain.
  - simpl. apply (contains_char_plain ("-"%char :: _)). simpl. apply uint_chars_plain.
Qed.

Lemma str_of_int_truthy (z : Z) : str_truthy (str_of_int z) = true.
Proof.
  destruct z as [|p|p]; try reflexivity. simpl.
  pose proof (DecimalPos.Unsigned.to_uint_nonnil p).
  by destruct (Pos.to_uint p).
Qed.

Lemma split_char_none (c : ascii) (s : string) :
  contains_char c s = false -> split_char c s = [s].
Proof.
  induction s as [|a r IH]; simpl; [done|].
  intros [Ha Hr]%orb_false_iff. rewrite Ha, (IH Hr). reflexivity.
Qed.

Lemma split_char_app (c : ascii) (a b : string) :
  contains_char c a = false ->
  split_char c (a +:+ String c b) = a :: split_char c b.
Proof.
  induction a as [|x r IH]; simpl.
  - intros _. by rewrite Ascii.eqb_refl.
  - intros [Hx Hr]%orb_false_iff. rewrite Hx, (IH Hr). reflexivity.
Qed.

Lemma contains_char_app (c : ascii) (a b : string) :
  contains_char c (a +:+ String c b) = true.
Proof.
  induction a as [|x r IH]; simpl.
  - by rewrite Ascii.eqb_refl.
  - rewrite IH. apply orb_true_r.
Qed.

Lemma str_truthy_app (a b : string) :
  str_truthy a = true -> str_truthy (a +:+ b) = true.
Proof. by destruct a. Qed.

End Decimals.

(** *** Frame rate *)

Lemma round_half_even_div_near (n d : Z) :
  0 <= n -> 0 < d ->
  Z.abs (2 * n - 2 * d * round_half_even_div n d) <= d.
Proof.
  intros Hn Hd. unfold round_half_even_div.
  pose proof (Z.div_mod n d ltac:(lia)) as E.
  pose proof (Z.mod_pos_bound n d Hd) as B.
  set (q := n / d) in *. set (r := n mod d) in *.
  clearbody q r. destruct (Z.compare_spec (2 * r) d) as [C|C|C].
  - destruct (Z.even q); lia.
  - lia.
  - lia.
Qed.

(** the number of hundredths kept by [round2] is a nearest integer to a
    hundred times the exact value [m * 2^e] *)
Lemma scaled_round_near (m : positive) (e : Z) :
  (0 <= e -> scaled_round m e 2 = Zpos m * 2 ^ e * 100)
  /\ (e < 0 ->
      Z.abs (2 * (Zpos m * 100) - 2 * 2 ^ (- e) * scaled_round m e 2) <= 2 ^ (- e)).
Proof.
  unfold scaled_round. split; intros He.
  - by rewrite (proj2 (Z.leb_le 0 e) He).
  - rewrite (proj2 (Z.leb_gt 0 e) He).
    apply round_half_even_div_near; [lia|]. apply Z.pow_pos_nonneg; lia.
Qed.

Lemma round_half_even_div_tie (n d : Z) :
  0 <= n -> 0 < d ->
  Z.abs (2 * n - 2 * d * round_half_even_div n d) = d ->
  Z.even (round_half_even_div n d) = true.
Proof.
  intros Hn Hd. unfold round_half_even_div.
  pose proof (Z.div_mod n d ltac:(lia)) as E.
  pose proof (Z.mod_pos_bound n d Hd) as B.
  set (q := n / d) in *. set (r := n mod d) in *.
  clearbody q r. destruct (Z.compare_spec (2 * r) d) as [C|C|C].
  - destruct (Z.even q) eqn:Hq; [done|]. intros _.
    rewrite Z.even_add, Hq. reflexivity.
  - lia.
  - lia.
Qed.

Lemma scaled_round_nearest (m : positive) (e : Z) :
  0 <= scaled_round m e 2 /\ nearest_hundredths m e (scaled_round m e 2).
Proof.
  unfold nearest_hundredths, scaled_round.
  destruct (0 <=? e) eqn:He.
  - apply Z.leb_le in He. split; [|done].
    assert (0 < 2 ^ e) by (apply Z.pow_pos_nonneg; lia). lia.
  - apply Z.leb_gt in He.
    assert (Hp : 0 < 2 ^ (- e)) by (apply Z.pow_pos_nonneg; lia).
    split; [|split].
    + unfold round_half_even_div.
      assert (0 <= Z.pos m * 10 ^ 2 / 2 ^ (- e)) by (apply Z.div_pos; lia).
      destruct (_ ?= _); [destruct (Z.even _)| |]; lia.
    + apply round_half_even_div_near; lia.
    + apply round_half_even_div_tie; lia.
Qed.

(** C7. The frame-rate block turns the text "num/den" into the float
    [round(num / den, 2)], and when [den] is 0 it stores nothing and raises
    nothing: the division, which would raise ZeroDivisionError, is not
    evaluated.  The value stored is the float nearest to [k / 100], where
    [k] hundredths is the decimal with two places nearest to the quotient
    (the even one on a tie).  "30000/1001" gives the float nearest to
    29.97, "24000/1001" is rounded up to 23.98, "1/8" goes to the even
    0.12, and "25/0" leaves the frame rate off the description. *)
Theorem parse_fps_rational (num denom : Z) :
  parse_fps (str_of_int num +:+ "/" +:+ str_of_int denom)
  = (if denom =? 0 then Ok None
     else res_bind (truediv num denom) (fun q => Ok (Some (round2 q))))
  /\ parse_fps (str_of_int num +:+ "/0") = Ok None
  /\ (exists e, truediv num 0 = Raise e)
  /\ (exists x, parse_fps "30000/1001" = Ok (Some x) /\ float_of_str "29.97" = Ok x)
  /\ parse_fps "25/0" = Ok None
  /\ (exists info,
        extract_info
          (Samples.document
             [{| Ffprobe.codec_type := Some "video"; Ffprobe.codec_name := Some "h264";
                 Ffprobe.width := Some 640; Ffprobe.height := Some 480;
                 Ffprobe.pix_fmt := None; Ffprobe.color_space := None;
                 Ffprobe.r_frame_rate := Some "25/0"; Ffprobe.bit_rate := None;
                 Ffprobe.duration := None; Ffprobe.side_data_list := None |}]
             None) = Ok info
        /\ dict_get "fps" info = None
        /\ dict_get "width" info = Some (PyInt 640))
  /\ (forall s m e,
        denom <> 0 ->
        truediv num denom = Ok (S754_finite s m e) ->
        exists k,
          0 <= k /\ nearest_hundredths m e k
          /\ parse_fps (str_of_int num +:+ "/" +:+ str_of_int denom)
             = Ok (Some match k with
                        | Zpos p => float_of_ratio s p 100
                        | _ => S754_zero s
                        end))
  /\ (truediv 30000 1001 = Ok (S754_finite false 8435813487831848 (-48))
      /\ nearest_double 8435813487831848 (-48) 30000 1001
      /\ parse_fps "30000/1001" = Ok (Some (S754_finite false 8435805052018360 (-48)))
      /\ nearest_double 8435805052018360 (-48) 2997 100)
  /\ (parse_fps "24000/1001" = Ok (Some (S754_finite false 6749769941521531 (-48)))
      /\ nearest_double 6749769941521531 (-48) 2398 100)
  /\ (parse_fps "1/8" = Ok (Some (S754_finite false 8646911284551352 (-56)))
      /\ nearest_double 8646911284551352 (-56) 12 100).
Proof.
  assert (Hgen : forall n d,
    parse_fps (str_of_int n +:+ "/" +:+ str_of_int d)
    = (if d =? 0 then Ok None
       else res_bind (truediv n d) (fun q => Ok (Some (round2 q))))).
  { intros n d. unfold parse_fps.
    change ("/" +:+ str_of_int d) with (String "/" (str_of_int d)).
    rewrite Decimals.str_truthy_app by apply Decimals.str_of_int_truthy.
    rewrite Decimals.contains_char_app. simpl.
    rewrite Decimals.split_char_app by apply Decimals.str_of_int_no_slash.
    rewrite Decimals.split_char_none by apply Decimals.str_of_int_no_slash.
    unfold unpack2_ints. rewrite !Decimals.int_of_str_of_int. simpl.
    by destruct (d =? 0). }
  assert (Hnear : forall m e n d,
            (2 ^ 52 <=? Zpos m) && (Zpos m <? 2 ^ 53) && (e <? 0)
            && (Z.abs (2 * Zpos m * d - 2 * n * 2 ^ (- e)) <=? d) = true ->
            nearest_double m e n d).
  { intros m e n d H. unfold nearest_double.
    apply andb_prop in H as [H H4]. apply andb_prop in H as [H H3].
    apply andb_prop in H as [H1 H2].
    apply Z.leb_le in H1, H4. apply Z.ltb_lt in H2, H3. lia. }
  split; [apply Hgen|].
  split; [exact (Hgen num 0)|].
  split; [by eexists|].
  split; [eexists; split; vm_compute; reflexivity|].
  split; [reflexivity|].
  split; [eexists; split; [vm_compute; reflexivity|]; split; reflexivity|].
  split.
  { intros s m e Hd Hq. exists (scaled_round m e 2).
    destruct (scaled_round_nearest m e) as [Hk Hn].
    split; [exact Hk|]. split; [exact Hn|].
    rewrite Hgen, (proj2 (Z.eqb_neq denom 0) Hd), Hq. reflexivity. }
  split.
  { split; [vm_compute; reflexivity|]. split; [apply Hnear; vm_compute; reflexivity|].
    split; [vm_compute; reflexivity|]. apply Hnear. vm_compute. reflexivity. }
  split.
  { split; [vm_compute; reflexivity|]. apply Hnear. vm_compute. reflexivity. }
  split; [vm_compute; reflexivity|]. apply Hnear. vm_compute. reflexivity.
Qed.

(** *** The description of a file *)

(** case analysis on the results of the parsing blocks met in [H] *)
Ltac split_parsers H :=
  repeat
    (match type of H with
     | context [parse_fps ?x] =>
         let E := fresh "Efps" in destruct (parse_fps x) as [[?|]|?] eqn:E
     | context [parse_bitrate ?x] =>
         let E := fresh "Ekbps" in destruct (parse_bitrate x) as [[?|]|?] eqn:E
     | context [pass_value_type_error ?x] =>
         let E := fresh "Edur" in destruct (pass_value_type_error x) as [[?|]|?] eqn:E
     end;
     cbn [res_bind set_if_some] in H; try discriminate H).

(** C5 (amended). On the record filled by [detect_video] from a probe that
    succeeded, a field whose source key is absent stays [None] -- codec,
    pixel format, colour space, frame rate, bit rates, audio codec and
    duration -- with one exception: the width and the height of a video
    stream that carries none become 0.  Without any video stream, width and
    height stay [None] as well. *)
Theorem absent_fields_on_record (data : Ffprobe.data) (info : dict)
    (path name : string) (size : Z) :
  extract_info data = Ok info ->
  let r := copy_attrs info (VideoInfo.init path name size) in
  match find is_video (streams_of data) with
  | Some vs =>
      (Ffprobe.width vs = None -> VideoInfo.width r = PyInt 0)
      /\ (Ffprobe.height vs = None -> VideoInfo.height r = PyInt 0)
      /\ (Ffprobe.codec_name vs = None -> VideoInfo.codec r = PyNone)
      /\ (Ffprobe.pix_fmt vs = None -> VideoInfo.pixel_format r = PyNone)
      /\ (Ffprobe.color_space vs = None -> VideoInfo.color_space r = PyNone)
      /\ (Ffprobe.r_frame_rate vs = None -> VideoInfo.fps r = PyNone)
      /\ (Ffprobe.bit_rate vs = None -> VideoInfo.video_bitrate r = PyNone)
  | None =>
      VideoInfo.width r = PyNone /\ VideoInfo.height r = PyNone
      /\ VideoInfo.codec r = PyNone /\ VideoInfo.pixel_format r = PyNone
      /\ VideoInfo.color_space r = PyNone /\ VideoInfo.fps r = PyNone
      /\ VideoInfo.video_bitrate r = PyNone
  end
  /\ match find is_audio (streams_of data) with
     | Some au =>
         (Ffprobe.codec_name au = None -> VideoInfo.audio_codec r = PyNone)
         /\ (Ffprobe.bit_rate au = None -> VideoInfo.audio_bitrate r = PyNone)
     | None =>
         VideoInfo.audio_codec r = PyNone /\ VideoInfo.audio_bitrate r = PyNone
     end
  /\ (format_duration_of data = None -> VideoInfo.duration r = PyNone).
Proof.
  unfold extract_info, format_duration_of. rewrite pick_streams_first.
  destruct (find is_video (streams_of data)) as [vs|];
    destruct (find is_audio (streams_of data)) as [au|];
    unfold extract_video, extract_audio, extract_format;
    intros H; cbn [res_bind] in H;
    destruct (Ffprobe.format_ data) as [[[dur|]]|];
    cbn [Ffprobe.format_duration res_bind] in H;
    split_parsers H; injection H as <-; cbv zeta.
  all: repeat split; try reflexivity.
  all: intros Habs; try discriminate Habs; try (rewrite ?Habs in *; reflexivity).
  all: rewrite Habs in *; discriminate.
Qed.

Lemma absent_fields_on_record_witness :
  let doc := {| Ffprobe.streams := Some [Ffprobe.bare "video"]; Ffprobe.format_ := None |} in
  let info := [("width", PyInt 0); ("height", PyInt 0); ("codec", PyNone);
               ("pixel_format", PyNone); ("color_space", PyNone)] in
  extract_info doc = Ok info
  /\ VideoInfo.fps (copy_attrs info (VideoInfo.init "/v/a.mp4" "a.mp4" 10)) = PyNone
  /\ VideoInfo.audio_codec (copy_attrs info (VideoInfo.init "/v/a.mp4" "a.mp4" 10)) = PyNone.
Proof.
  intros doc info.
  assert (H : extract_info doc = Ok info) by reflexivity.
  split; [exact H|].
  destruct (absent_fields_on_record doc info "/v/a.mp4" "a.mp4" 10 H) as (Hv & Ha & _).
  simpl in Hv, Ha.
  destruct Hv as (_ & _ & _ & _ & _ & Hfps & _). destruct Ha as [Hac _].
  split; [exact (Hfps eq_refl)|exact Hac].
Defined.

(** C5, as stated, fails on width and height: for a video stream that
    carries neither, the record holds the integer 0, not [None]. *)
Lemma absent_width_becomes_zero :
  let doc := {| Ffprobe.streams := Some [Ffprobe.bare "video"]; Ffprobe.format_ := None |} in
  let s := Samples.world [Samples.good doc; Samples.good doc; Samples.good doc] [] in
  Ffprobe.width (Ffprobe.bare "video") = None
  /\ Ffprobe.height (Ffprobe.bare "video") = None
  /\ exists info,
       (detect_video Samples.both_tools "/v/a.mp4" s).1 = Ok (Some info)
       /\ VideoInfo.width info = PyInt 0
       /\ VideoInfo.height info = PyInt 0
       /\ VideoInfo.width info <> PyNone.
Proof.
  intros doc s. split; [reflexivity|]. split; [reflexivity|].
  eexists. split; [vm_compute; reflexivity|]. repeat split; try reflexivity.
  discriminate.
Qed.

(** *** Duration *)

Lemma pass_float_of_str (d : string) :
  pass_value_type_error (float_of_str d)
  = Ok (match float_of_str d with Ok f => Some f | Raise _ => None end).
Proof. unfold float_of_str. by destruct (float_of_chars _). Qed.

Lemma last_default {A} (l : list A) (x a b : A) :
  List.last (x :: l) a = List.last (x :: l) b.
Proof.
  revert x. induction l as [|y l IH]; intros x; [done|].
  change (List.last (y :: l) a = List.last (y :: l) b). apply IH.
Qed.

Lemma stream_duration_fold (l : list Ffprobe.stream) (acc : spec_float) :
  fold_left VideoConverter.stream_duration_step l acc
  = List.last (numeric_video_durations l) acc.
Proof.
  revert acc. induction l as [|x l IH]; intros acc; simpl; [done|].
  rewrite IH. unfold VideoConverter.stream_duration_step, numeric_video_durations.
  simpl. fold (is_video x). destruct (is_video x); [|done].
  destruct (Ffprobe.duration x) as [d|]; [|done].
  destruct (float_of_str d) as [f|e]; [|done].
  simpl. fold (numeric_video_durations l).
  destruct (numeric_video_durations l); [done|apply last_default].
Qed.

(** C6 (amended). [VideoDetector._get_video_info] takes the duration from
    the container-level entry alone: the description holds the float read
    from the format's duration when that text is numeric and no duration
    otherwise, whatever the streams carry.  Reading the video stream first
    is what [VideoConverter] does for a preview or a frame: the value is the
    duration of the last video stream whose duration is numeric, and the
    container-level duration replaces it when there is none or it is zero. *)
Theorem duration_sources (data : Ffprobe.data) (info : dict) :
  extract_info data = Ok info ->
  dict_get "duration" info
  = match format_duration_of data with
    | Some d => match float_of_str d with
                | Ok f => Some (PyFloat f)
                | Raise _ => None
                end
    | None => None
    end
  /\ VideoConverter.video_duration_of data
     = (let from_streams :=
          List.last (numeric_video_durations (streams_of data))
            VideoConverter.float_zero in
        if float_truthy from_streams then from_streams
        else match format_duration_of data with
             | Some d => match float_of_str d with
                         | Ok f => f
                         | Raise _ => from_streams
                         end
             | None => VideoConverter.float_zero
             end).
Proof.
  intros H. split.
  - revert H. unfold extract_info, format_duration_of. rewrite pick_streams_first.
    destruct (find is_video (streams_of data)) as [vs|];
      destruct (find is_audio (streams_of data)) as [au|];
      unfold extract_video, extract_audio, extract_format;
      intros H; cbn [res_bind] in H;
      destruct (Ffprobe.format_ data) as [[[dur|]]|];
      cbn [Ffprobe.format_duration res_bind] in H;
      rewrite ?pass_float_of_str in H;
      split_parsers H; injection H as <-.
    all: try reflexivity.
    all: cbn [Ffprobe.format_duration]; destruct (float_of_str dur) as [f|e].
    all: reflexivity.
  - unfold VideoConverter.video_duration_of, VideoConverter.format_duration_or_zero,
      format_duration_of.
    rewrite stream_duration_fold. cbv zeta.
    destruct (float_truthy _); [done|]. simpl.
    by destruct (Ffprobe.format_ data) as [[[d|]]|].
Qed.

Lemma duration_sources_witness :
  let doc := Samples.document [Samples.video "h264" "yuv420p" "bt709"] (Some "20.0") in
  let info := match extract_info doc with Ok i => i | Raise _ => [] end in
  extract_info doc = Ok info
  /\ (exists f, float_of_str "20.0" = Ok f
                /\ dict_get "duration" info = Some (PyFloat f))
  /\ (exists f, float_of_str "10.0" = Ok f /\ VideoConverter.video_duration_of doc = f).
Proof.
  intros doc info.
  assert (H : extract_info doc = Ok info) by reflexivity.
  split; [exact H|].
  destruct (duration_sources doc info H) as [Hd Hc].
  split.
  - eexists. split; [vm_compute; reflexivity|]. rewrite Hd. reflexivity.
  - eexists. split; [vm_compute; reflexivity|]. rewrite Hc. reflexivity.
Defined.

(** C6, as stated, fails for the prober: with a video stream lasting 10
    seconds in a container that says 20, the description holds 20; and with
    no container-level duration it holds none, although the stream has one. *)
Lemma stream_duration_not_read :
  let both := Samples.document [Samples.video "h264" "yuv420p" "bt709"] (Some "20.0") in
  let stream_only := Samples.document [Samples.video "h264" "yuv420p" "bt709"] None in
  Ffprobe.duration (Samples.video "h264" "yuv420p" "bt709") = Some "10.0"
  /\ (exists info f20 f10,
        extract_info both = Ok info
        /\ float_of_str "20.0" = Ok f20 /\ float_of_str "10.0" = Ok f10
        /\ dict_get "duration" info = Some (PyFloat f20)
        /\ f20 <> f10)
  /\ (exists info, extract_info stream_only = Ok info
                   /\ dict_get "duration" info = None)
  /\ (exists info,
        (detect_video Samples.both_tools "/v/a.mp4"
           (Samples.world [Samples.good stream_only; Samples.good stream_only;
                           Samples.good stream_only] [])).1 = Ok (Some info)
        /\ VideoInfo.duration info = PyNone).
Proof.
  intros both stream_only. split; [reflexivity|]. split; [|split].
  - eexists _, _, _. split; [vm_compute; reflexivity|].
    split; [vm_compute; reflexivity|]. split; [vm_compute; reflexivity|].
    split; [reflexivity|]. discriminate.
  - eexists. split; [vm_compute; reflexivity|]. reflexivity.
  - eexists. split; [vm_compute; reflexivity|]. reflexivity.
Qed.

(* ===================================================================== *)
(** ** Repair                                                              *)
(* ===================================================================== *)

(** decomposition of a [preserves] goal with the lemmas [leaf] for the
    primitive calls *)
Ltac preserves_with leaf :=
  repeat first
    [ preserves_step
    | lazymatch goal with
      | |- preserves _ (_get_video_info _ _) => unfold _get_video_info
      | |- preserves _ (_identify_problematic_streams _ _) =>
          unfold _identify_problematic_streams
      | |- preserves _ (remove_raw _) => unfold remove_raw
      | |- preserves _ (replace_original _ _ _) => unfold replace_original
      | |- preserves _ (two_stage _ _ _ _ _ _ _ _ _ _ _) => unfold two_stage
      | |- preserves _ cleanup => unfold cleanup
      end
    | leaf ].

Ltac as_preserves :=
  lazymatch goal with
  | |- spec ?I ?c (fun _ => ?I) => change (preserves I c)
  end.

(** *** A failing first stage *)

Section OriginalUntouched.
Context (orig : string) (n : node) (E : list ffmpeg_reply) (T0 : list event).
Local Abbreviation untouched_here := (untouched orig n E T0).

Lemma untouched_log (e : event) (s : st) :
  replace_event orig e = false -> untouched_here s -> untouched_here (log_event e s).
Proof.
  intros He (Hfs & Hen & evs & Ht & Hq). repeat split; try done.
  exists (evs ++ [e]). simpl. rewrite Ht, app_assoc. split; [done|].
  apply Forall_app. split; [done|]. by constructor.
Qed.

Lemma untouched_with_fs (f : gmap string node) (s : st) :
  f !! orig = fs s !! orig -> untouched_here s -> untouched_here (with_fs f s).
Proof. intros Hf (Hfs & Hen & Ht). repeat split; try done. simpl. congruence. Qed.

Lemma untouched_fresh (p : string) (s : st) :
  untouched_here s -> fs s !! p = None -> p <> orig.
Proof. intros (Hfs & _) Hp ->. congruence. Qed.

Lemma untouched_probes (l : list probe_reply) (s : st) :
  untouched_here s -> untouched_here (with_probes l s).
Proof. by intros (? & ? & ?). Qed.

Lemma untouched_tmp_names (l : list string) (s : st) :
  untouched_here s -> untouched_here (with_tmp_names l s).
Proof. by intros (? & ? & ?). Qed.

Lemma untouched_temp_files (l : list string) (s : st) :
  untouched_here s -> untouched_here (with_temp_files l s).
Proof. by intros (? & ? & ?). Qed.

Ltac untouched_close :=
  repeat first
    [ assumption
    | apply untouched_log; [reflexivity|]
    | apply untouched_probes
    | apply untouched_tmp_names
    | apply untouched_temp_files
    | apply untouched_with_fs;
      [ simpl; apply lookup_insert_ne;
        first [ eapply untouched_fresh; [eassumption|eassumption]
              | eapply untouched_fresh; [eassumption|by eapply first_free_fresh] ]
      | ] ].

Lemma untouched_mkstemp (suffix prefix dir : string) :
  spec untouched_here (mkstemp suffix prefix dir)
    (fun r s => untouched_here s /\ forall p, r = Ok p -> p <> orig).
Proof.
  intros s Hs. prim_unfold. simpl.
  repeat (case_match; simplify_eq/=); (split; [untouched_close|]); try done.
  all: intros p [= <-]; eapply untouched_fresh; [exact Hs|by eapply first_free_fresh].
Qed.

Lemma untouched_mkstemp_inv (suffix prefix dir : string) :
  preserves untouched_here (mkstemp suffix prefix dir).
Proof. intros s Hs. by apply untouched_mkstemp. Qed.

Lemma untouched_makedirs (p : string) : preserves untouched_here (makedirs p).
Proof. preserves_prim untouched_close. Qed.

Lemma untouched_probe (c : probe_cmd) : preserves untouched_here (run_ffprobe c).
Proof. preserves_prim untouched_close. Qed.

Lemma untouched_registry_add (p : string) : preserves untouched_here (registry_add p).
Proof. preserves_prim untouched_close. Qed.

Lemma untouched_registry_discard (p : string) : preserves untouched_here (registry_discard p).
Proof. preserves_prim untouched_close. Qed.

Lemma untouched_exists (p : string) : preserves untouched_here (exists_ p).
Proof. preserves_prim untouched_close. Qed.

Lemma untouched_remove (p : string) : p <> orig -> preserves untouched_here (remove p).
Proof.
  intros Hp s Hs. prim_unfold. simpl.
  assert (Hq : replace_event orig (EvFs (OpRemove p)) = false).
  { simpl. by apply String.eqb_neq. }
  repeat (case_match; simplify_eq/=);
    try (apply untouched_with_fs; [simpl; by apply lookup_delete_ne|]);
    by apply untouched_log.
Qed.

Ltac untouched_leaf :=
  first [ apply untouched_mkstemp_inv | apply untouched_makedirs
        | apply untouched_probe | apply untouched_registry_add
        | apply untouched_registry_discard | apply untouched_exists
        | apply untouched_remove; assumption ].

Lemma untouched_get_video_info (d : self) (p : string) :
  preserves untouched_here (_get_video_info d p).
Proof. preserves_with untouched_leaf. Qed.

Lemma untouched_remove_raw (raw : string) :
  raw <> orig ->
  preserves untouched_here (try_except (remove_raw raw) (fun _ => ret tt)).
Proof. intros Hraw. preserves_with untouched_leaf. Qed.

End OriginalUntouched.

Ltac untouched_leaf :=
  first [ apply untouched_mkstemp_inv | apply untouched_makedirs
        | apply untouched_probe | apply untouched_registry_add
        | apply untouched_registry_discard | apply untouched_exists
        | apply untouched_remove; assumption ].

Lemma run_ffmpeg_exit (c : ffmpeg_cmd) (s : st) (rc : Z) (written : option string)
    (rest : list ffmpeg_reply) :
  encodes s = FfmpegExit rc written :: rest ->
  run_ffmpeg c s = (Ok rc, after_ffmpeg c written rest s).
Proof.
  intros H. unfold run_ffmpeg, after_ffmpeg, bind, modify, get, ret. simpl.
  rewrite H. by destruct written.
Qed.

(** C4. Let the original be on disk and let the next ffmpeg run exit with a
    nonzero code.  Then either [fix_video] gives up before it runs ffmpeg at
    all, or that run is stage 1 and the call returns failure with the
    stage-1 message and the record unchanged (so not fixed, and with
    [fixed_path], [fixed_time] and [conversion_params] as they were), stage 2
    is not run, the original is on disk with the content it had, and none of
    the calls made is a replace step: no removal of the original, no rename,
    no move, no ffmpeg output onto it. *)
Theorem stage1_failure_leaves_original (d : self) (vi : VideoInfo.t)
    (out : option string) (quality : string) (del : bool) (s : st)
    (rc : Z) (written : option string) (rest : list ffmpeg_reply) (n : node) :
  fs s !! VideoInfo.filepath vi = Some n ->
  encodes s = FfmpegExit rc written :: rest ->
  rc <> 0 ->
  let r := (fix_video d vi out quality del s).1 in
  let s' := (fix_video d vi out quality del s).2 in
  encodes s' = encodes s
  \/ (r = Ok (vi, (false, stage1_message rc))
      /\ encodes s' = rest
      /\ fs s' !! VideoInfo.filepath vi = Some n
      /\ exists evs,
           trace s' = trace s ++ evs
           /\ Forall (fun e => replace_event (VideoInfo.filepath vi) e = false) evs).
Proof.
  intros Hfs Henc Hrc. cbv zeta.
  set (orig := VideoInfo.filepath vi) in *.
  set (K := untouched orig n (encodes s) (trace s)).
  set (Q := fun (r : res outcome) (s' : st) =>
              K s' \/ (r = Ok (vi, (false, stage1_message rc))
                       /\ untouched orig n rest (trace s) s')).
  assert (Hspec : spec K (fix_video d vi out quality del) Q).
  { unfold fix_video. fold orig.
    destruct (negb (has_ffmpeg d)); [apply spec_ret; by left|].
    destruct (bool_decide _); [apply spec_ret; by left|].
    eapply spec_bind with (Q := fun _ => K).
    { as_preserves. preserves_with untouched_leaf. }
    2: { intros e s1 Hs1. by left. }
    intros [temp_output_path output_path].
    eapply spec_bind with (Q := fun _ => K).
    { as_preserves. preserves_with untouched_leaf. }
    2: { intros e s1 Hs1. by left. }
    intros dir_missing.
    eapply spec_bind with (Q := fun _ => K).
    { as_preserves. preserves_with untouched_leaf. }
    2: { intros e s1 Hs1. by left. }
    intros [msg|]; [apply spec_ret; by left|].
    eapply spec_bind with (Q := fun _ => K).
    { apply untouched_get_video_info. }
    2: { intros e s1 Hs1. by left. }
    intros orig_info.
    eapply spec_bind.
    { apply untouched_mkstemp. }
    2: { intros e s1 [Hs1 _]. by left. }
    intros raw. simpl.
    eapply spec_bind with (Q := fun _ s1 => K s1 /\ raw <> orig).
    { intros s1 [Hs1 Hraw]. split; [|by apply Hraw].
      by apply untouched_registry_add. }
    2: { intros e s1 [Hs1 _]. by left. }
    intros _ s1 [Hs1 Hraw]. right.
    destruct Hs1 as (Hfs1 & Henc1 & evs & Htr1 & Hq1).
    set (s2 := after_ffmpeg (Stage1 orig raw) written rest s1).
    assert (Hs2 : untouched orig n rest (trace s) s2).
    { assert (Hev : exists evs', trace s2 = trace s ++ evs'
                /\ Forall (fun e => replace_event orig e = false) evs').
      { exists (evs ++ [EvFfmpeg (Stage1 orig raw)]).
        replace (trace s2) with (trace s1 ++ [EvFfmpeg (Stage1 orig raw)])
          by (unfold s2, after_ffmpeg; by destruct written).
        rewrite Htr1, app_assoc. split; [done|].
        apply Forall_app. split; [done|]. constructor; [|done].
        simpl. by apply String.eqb_neq. }
      split; [|split; [|exact Hev]].
      - unfold s2, after_ffmpeg. destruct written as [bytes|]; simpl; [|done].
        by rewrite lookup_insert_ne.
      - unfold s2, after_ffmpeg. by destruct written. }
    pose proof (untouched_remove_raw orig n rest (trace s) raw Hraw s2 Hs2) as Hfin.
    simpl in Hfin.
    match goal with
    | |- context [try_finally ?c ?f s1] =>
        assert (Hrun : try_finally c f s1
                       = (Ok (vi, (false, stage1_message rc)), (f s2).2))
    end.
    { unfold try_finally, try_except at 1, two_stage, bind at 1.
      rewrite (run_ffmpeg_exit _ s1 rc written rest) by congruence.
      rewrite (proj2 (Z.eqb_neq rc 0) Hrc). simpl. fold s2.
      unfold try_except. destruct (remove_raw raw s2) as [[u|e] s3]; reflexivity. }
    rewrite Hrun. simpl. split; [reflexivity|exact Hfin]. }
  assert (HK : K s).
  { split; [exact Hfs|]. split; [reflexivity|]. exists []. by rewrite app_nil_r. }
  specialize (Hspec s HK). unfold Q in Hspec.
  destruct Hspec as [(_ & He & _)|(Hr & Hf & He & Ht)].
  - by left.
  - right. repeat split; assumption.
Qed.

Lemma stage1_failure_leaves_original_witness :
  let d := Samples.both_tools in
  let vi := Samples.flagged_record in
  let s := Samples.world [Samples.good Samples.hevc_doc] [FfmpegExit 1 None] in
  fs s !! VideoInfo.filepath vi = Some (File "0123456789")
  /\ encodes s = [FfmpegExit 1 None]
  /\ 1 <> 0
  /\ (fix_video d vi None "medium" false s).1 = Ok (vi, (false, stage1_message 1))
  /\ fs (fix_video d vi None "medium" false s).2 !! "/v/a.mp4"
     = Some (File "0123456789").
Proof.
  intros d vi s.
  assert (H1 : fs s !! VideoInfo.filepath vi = Some (File "0123456789")) by reflexivity.
  assert (H2 : encodes s = [FfmpegExit 1 None]) by reflexivity.
  assert (H3 : 1 <> 0) by discriminate.
  split; [exact H1|]. split; [exact H2|]. split; [exact H3|].
  destruct (stage1_failure_leaves_original d vi None "medium" false s 1 None []
              (File "0123456789") H1 H2 H3) as [Hl|(Hr & _ & Hf & _)].
  - vm_compute in Hl. discriminate Hl.
  - split; [exact Hr|exact Hf].
Defined.

(** *** Temporary files *)

Lemma cleanup_one_spec (p : string) (s : st) :
  (cleanup_one p s).1 = Ok tt
  /\ refused (cleanup_one p s).2 = refused s
  /\ (forall q, not_a_file s q -> not_a_file (cleanup_one p s).2 q)
  /\ (refused s (OpRemove p) = false -> not_a_file (cleanup_one p s).2 p).
Proof.
  unfold cleanup_one, try_except, remove, fs_call, exists_, os_error, bind, get,
    modify, ret, raise, not_a_file. simpl.
  repeat (case_match; simplify_eq/=);
    (split; [reflexivity|]); (split; [reflexivity|]);
    (split; [|intros; try discriminate; try congruence]).
  all: try (intros q Hq c'; destruct (decide (q = p)) as [->|Hne];
            [rewrite lookup_delete_eq|rewrite lookup_delete_ne by done]; auto; done).
  all: try (intros q Hq c'; auto; done).
  all: try (rewrite lookup_delete_eq; done).
  all: try (exfalso; eauto using mk_is_Some; done).
  all: try match goal with
       | H : bool_decide (is_Some ?o) = false |- ?o <> _ =>
           apply bool_decide_eq_false in H; intros E; apply H; rewrite E; eauto
       end.
Qed.

Lemma for_each_cleanup (l : list string) (s : st) :
  (for_each l cleanup_one s).1 = Ok tt
  /\ refused (for_each l cleanup_one s).2 = refused s
  /\ (forall q, not_a_file s q -> not_a_file (for_each l cleanup_one s).2 q)
  /\ (forall p, In p l -> refused s (OpRemove p) = false ->
                not_a_file (for_each l cleanup_one s).2 p).
Proof.
  revert s. induction l as [|x l IH]; intros s; simpl.
  - repeat split; auto. intros p [].
  - unfold bind. destruct (cleanup_one_spec x s) as (Hok & Hr & Hkeep & Hdel).
    destruct (cleanup_one x s) as [r s1]. simpl in *. subst r.
    destruct (IH s1) as (Hok' & Hr' & Hkeep' & Hdel').
    split; [exact Hok'|]. split; [congruence|]. split; [auto|].
    intros p [->|Hp] Href.
    + apply Hkeep', Hdel, Href.
    + apply Hdel'; [exact Hp|]. by rewrite Hr.
Qed.

(** [cleanup] empties the registry and leaves no registered file behind,
    unless the file system refuses the removal *)
Lemma cleanup_spec (s : st) :
  (cleanup s).1 = Ok tt
  /\ temp_files (cleanup s).2 = []
  /\ (forall p, In p (temp_files s) -> refused s (OpRemove p) = false ->
                not_a_file (cleanup s).2 p)
  /\ (forall q, not_a_file s q -> not_a_file (cleanup s).2 q).
Proof.
  destruct (for_each_cleanup (temp_files s) s) as (Hok & Hr & Hkeep & Hdel).
  assert (Hrun : cleanup s
                 = (Ok tt, with_temp_files [] (for_each (temp_files s) cleanup_one s).2)).
  { unfold cleanup, bind, get, modify.
    change (for_each (temp_files s) _ s) with (for_each (temp_files s) cleanup_one s).
    destruct (for_each (temp_files s) cleanup_one s) as [r s1]. simpl in Hok.
    by subst r. }
  rewrite Hrun. simpl. repeat split; auto.
Qed.

(** the [finally] block of [fix_video] leaves no raw file, whatever
    happened before *)
Lemma finally_removes_raw (raw : string) (s : st) :
  (try_except (remove_raw raw) (fun _ => ret tt) s).1 = Ok tt
  /\ (refused s (OpRemove raw) = false ->
      not_a_file (try_except (remove_raw raw) (fun _ => ret tt) s).2 raw).
Proof.
  unfold try_except, remove_raw, registry_discard, remove, fs_call, exists_,
    os_error, bind, get, modify, ret, raise, not_a_file. simpl.
  repeat (case_match; simplify_eq/=);
    (split; [reflexivity|]); intros; try discriminate; try congruence.
  all: try (rewrite lookup_delete_eq; done).
  all: try (exfalso; eauto using mk_is_Some; done).
  all: try match goal with
       | H : bool_decide (is_Some ?o) = false |- ?o <> _ =>
           apply bool_decide_eq_false in H; intros E; apply H; rewrite E; eauto
       end.
Qed.

Ltac no_temp_close :=
  unfold no_temp_event in *; simpl; rewrite ?in_app_iff; simpl;
  intuition (try discriminate; try congruence).

Lemma guarded_no_temp (suffix p : string) d vi orig temp outp raw quality settings w h fps :
  preserves (no_temp_event suffix p)
    (guarded d vi orig temp outp raw quality settings w h fps).
Proof. unfold guarded. preserves_go no_temp_close. Qed.

Lemma guarded_refusing (R : fs_op -> bool) d vi orig temp outp raw quality settings w h fps :
  preserves (refusing R)
    (try_except
       (two_stage d vi orig temp outp raw quality settings w h fps)
       (fun e => ret (vi, (false, "转换错误: " +:+ exn_msg e)))).
Proof. preserves_go ltac:(unfold refusing in *; simpl; assumption). Qed.

Lemma try_finally_state {A} (c : M A) (f : M unit) (s : st) :
  (try_finally c f s).2 = (f (c s).2).2.
Proof.
  unfold try_finally. destruct (c s) as [r s1]. simpl.
  by destruct (f s1) as [[u|e] s2].
Qed.

(** whatever the [try] block did, no raw file is left when [guarded] ends *)
Lemma guarded_removes_raw d vi orig temp outp raw quality settings w h fps (s : st) :
  refused s (OpRemove raw) = false ->
  not_a_file (guarded d vi orig temp outp raw quality settings w h fps s).2 raw.
Proof.
  intros Href. unfold guarded. rewrite try_finally_state.
  apply finally_removes_raw.
  pose proof (guarded_refusing (refused s) d vi orig temp outp raw quality settings
                w h fps s eq_refl) as HR.
  unfold refusing in HR. simpl in HR. by rewrite HR.
Qed.

Ltac no_raw_yet_close :=
  match goal with
  | H : no_raw_yet _ _ _ |- _ => destruct H as [? ?]
  end;
  split; [no_temp_close|simpl; done].

Lemma mkstemp_raw (R : fs_op -> bool) (p prefix dir : string) :
  spec (no_raw_yet R p) (mkstemp ".yuv" prefix dir)
    (fun r s => refused s = R
                /\ match r with
                   | Ok raw => raw = p \/ no_temp_event ".yuv" p s
                   | Raise _ => no_temp_event ".yuv" p s
                   end).
Proof.
  intros s [HN HR]. prim_unfold. simpl.
  repeat (case_match; simplify_eq/=); (split; [done|]);
    try no_temp_close.
  all: match goal with
       | |- ?x = ?y \/ _ => destruct (decide (x = y)) as [->|Hne]; [by left|right]
       end; no_temp_close.
Qed.

(** the raw file created by a call of [fix_video] is gone when the call
    ends, unless the file system refuses to remove it *)
Lemma raw_file_removed (d : self) (vi : VideoInfo.t) (out : option string)
    (quality : string) (del : bool) (s : st) (p : string) :
  new_temp ".yuv" p s (fix_video d vi out quality del s).2 ->
  refused s (OpRemove p) = false ->
  not_a_file (fix_video d vi out quality del s).2 p.
Proof.
  intros [Hin Hnot] Href.
  set (Q := fun (_ : res outcome) (s1 : st) =>
              no_temp_event ".yuv" p s1 \/ not_a_file s1 p).
  assert (Hspec : spec (no_raw_yet (refused s) p) (fix_video d vi out quality del) Q).
  { unfold fix_video.
    destruct (negb (has_ffmpeg d)); [apply spec_ret; intros ? [? ?]; by left|].
    destruct (bool_decide _); [apply spec_ret; intros ? [? ?]; by left|].
    eapply spec_bind with (Q := fun _ => no_raw_yet (refused s) p).
    { as_preserves. preserves_go no_raw_yet_close. }
    2: { intros e s1 [? ?]. by left. }
    intros [temp_output_path output_path].
    eapply spec_bind with (Q := fun _ => no_raw_yet (refused s) p).
    { as_preserves. preserves_go no_raw_yet_close. }
    2: { intros e s1 [? ?]. by left. }
    intros dir_missing.
    eapply spec_bind with (Q := fun _ => no_raw_yet (refused s) p).
    { as_preserves. preserves_go no_raw_yet_close. }
    2: { intros e s1 [? ?]. by left. }
    intros [msg|]; [apply spec_ret; intros ? [? ?]; by left|].
    eapply spec_bind with (Q := fun _ => no_raw_yet (refused s) p).
    { as_preserves. preserves_go no_raw_yet_close. }
    2: { intros e s1 [? ?]. by left. }
    intros orig_info.
    eapply spec_bind.
    { apply mkstemp_raw. }
    2: { intros e s1 [_ ?]. by left. }
    intros raw. simpl.
    intros s1 [HR [->|HN]].
    - right. unfold bind, registry_add, modify. simpl.
      apply (guarded_removes_raw d vi). simpl. by rewrite HR.
    - left. clear HR. revert s1 HN.
      change (preserves (no_temp_event ".yuv" p)
                (registry_add raw ;;;
                 guarded d vi (VideoInfo.filepath vi) temp_output_path output_path raw
                   quality (quality_settings quality)
                   (info_or orig_info "width" 1920) (info_or orig_info "height" 1080)
                   (info_or orig_info "fps" 30))%py).
      apply preserves_bind; [|intros _; apply guarded_no_temp].
      preserves_go no_temp_close. }
  destruct (Hspec s) as [HN|Hgone].
  - split; [exact Hnot|reflexivity].
  - contradiction.
  - exact Hgone.
Qed.

Lemma is_Some_insert (m : gmap string node) (x : string) (v : node) (t : string) :
  is_Some (m !! t) -> is_Some (<[x := v]> m !! t).
Proof.
  intros H. destruct (decide (x = t)) as [->|Hne].
  - rewrite lookup_insert_eq. eauto.
  - by rewrite lookup_insert_ne.
Qed.

Ltac registered_close :=
  unfold registered in *; simpl;
  first [ assumption
        | apply in_or_app; left; assumption
        | apply list_remove_other; [assumption|assumption] ].

Ltac on_disk_close :=
  match goal with
  | H : on_disk_registered _ _ |- _ => destruct H as [? ?]
  end;
  split; [ simpl; repeat apply is_Some_insert; assumption
         | simpl; first [assumption | apply in_or_app; left; assumption] ].

Lemma mkstemp_on_disk (t suffix prefix dir : string) :
  spec (on_disk_registered t) (mkstemp suffix prefix dir)
    (fun r s => on_disk_registered t s /\ forall raw, r = Ok raw -> raw <> t).
Proof.
  intros s Hs. prim_unfold. simpl.
  repeat (case_match; simplify_eq/=); (split; [on_disk_close|]); try done.
  all: intros raw [= <-] ->; destruct Hs as [[x Hx] _];
    match goal with
    | H : first_free _ _ _ _ _ = _ |- _ => apply first_free_fresh in H; congruence
    end.
Qed.

Lemma replace_original_registered (t orig temp outp : string) :
  spec (registered t) (replace_original orig temp outp)
    (fun r s => match r with Ok None => True | _ => registered t s end).
Proof.
  unfold replace_original.
  eapply spec_try_except
    with (Q := fun r s => match r with
                          | Ok None => True
                          | Ok (Some _) => False
                          | Raise _ => registered t s
                          end).
  - eapply spec_bind with (Q := fun _ => registered t).
    { as_preserves. preserves_go registered_close. }
    2: { auto. }
    intros e. eapply spec_bind with (Q := fun _ => registered t).
    { as_preserves. preserves_go registered_close. }
    2: { auto. }
    intros _. eapply spec_bind with (Q := fun _ => registered t).
    { as_preserves. preserves_go registered_close. }
    2: { auto. }
    intros _ s _. unfold bind, registry_discard, modify, ret. simpl. done.
  - intros [msg|] s H; [destruct H|exact I].
  - intros e. apply spec_ret. auto.
Qed.

(** [two_stage] does not drop [t] from the registry unless it succeeds *)
Lemma two_stage_registered (t : string) d vi orig temp outp raw quality settings w h fps :
  raw <> t ->
  spec (registered t) (two_stage d vi orig temp outp raw quality settings w h fps)
    (fun r s => match r with
                | Ok o => o.2.1 = true \/ registered t s
                | Raise _ => registered t s
                end).
Proof.
  intros Hraw. unfold two_stage.
  eapply spec_bind with (Q := fun _ => registered t).
  { as_preserves. preserves_go registered_close. }
  2: { auto. }
  intros rc1. destruct (negb (rc1 =? 0)); [apply spec_ret; by right|].
  eapply spec_bind with (Q := fun _ => registered t).
  { as_preserves. preserves_go registered_close. }
  2: { auto. }
  intros rc2. destruct (negb (rc2 =? 0)); [apply spec_ret; by right|].
  eapply spec_bind with (Q := fun _ => registered t).
  { as_preserves. preserves_go registered_close. }
  2: { auto. }
  intros e. eapply spec_bind with (Q := fun _ => registered t).
  { as_preserves. preserves_go registered_close. }
  2: { auto. }
  intros [|]; [apply spec_ret; by right|].
  eapply spec_bind with (Q := fun _ => registered t).
  { as_preserves. preserves_go registered_close. }
  2: { auto. }
  intros _. eapply spec_bind with (Q := fun _ => registered t).
  { as_preserves. preserves_go registered_close. }
  2: { auto. }
  intros _. eapply spec_bind.
  { instantiate (1 := fun r s => match r with Ok None => True | _ => registered t s end).
    destruct (negb _); [apply replace_original_registered|by apply spec_ret]. }
  2: { auto. }
  intros [msg|]; [apply spec_ret; by right|].
  intros s _. unfold bind, get. simpl.
  destruct (has_ffprobe d); simpl; [|by left].
  unfold try_except, bind.
  destruct (_get_video_info d outp s) as [[?|?] ?]; simpl; by left.
Qed.

Lemma guarded_registered (t : string) d vi orig temp outp raw quality settings w h fps :
  raw <> t ->
  spec (registered t) (guarded d vi orig temp outp raw quality settings w h fps)
    (fun r s => succeeded r \/ registered t s).
Proof.
  intros Hraw. unfold guarded.
  eapply spec_try_finally
    with (Q := fun r s => match r with
                          | Ok o => o.2.1 = true \/ registered t s
                          | Raise _ => registered t s
                          end).
  - eapply spec_try_except; [by apply two_stage_registered|auto|].
    intros e. apply spec_ret. by right.
  - intros r s Hr.
    destruct (finally_removes_raw raw s) as [Hok _].
    assert (Hkeep : preserves (registered t)
                      (try_except (remove_raw raw) (fun _ => ret tt))).
    { preserves_go registered_close. }
    specialize (Hkeep s). simpl in Hkeep.
    destruct (try_except (remove_raw raw) (fun _ => ret tt) s) as [rf s2].
    simpl in *. subst rf.
    destruct r as [[vi' [[|] msg]]|e]; simpl in Hr.
    + left. by eexists _, _.
    + right. destruct Hr as [Hr|Hr]; [discriminate Hr|auto].
    + right. auto.
Qed.

(** the creation of the temporary output file, and its registration *)
Lemma mkstemp_output (p prefix dir orig : string) :
  spec (no_temp_event ".mp4" p)
    (temp_output_path <- mkstemp ".mp4" prefix dir ;;
     registry_add temp_output_path ;;;
     ret (temp_output_path, orig))%py
    (fun r s => match r with
                | Ok (t, _) =>
                    no_temp_event ".mp4" p s \/ (t = p /\ on_disk_registered p s)
                | Raise _ => no_temp_event ".mp4" p s
                end).
Proof.
  intros s HN. prim_unfold. simpl.
  repeat (case_match; simplify_eq/=); try no_temp_close.
  all: match goal with
       | |- _ \/ (?x = ?y /\ _) =>
           destruct (decide (x = y)) as [->|Hne]; [right|left; no_temp_close]
       end.
  all: split; [reflexivity|]; split; simpl;
    [rewrite lookup_insert_eq; eauto|apply in_or_app; right; by left].
Qed.

(** the temporary output file created by a call of [fix_video] is still in
    the registry when the call ends, unless the call succeeds *)
Lemma temp_output_registered (d : self) (vi : VideoInfo.t) (out : option string)
    (quality : string) (del : bool) (s : st) (p : string) :
  new_temp ".mp4" p s (fix_video d vi out quality del s).2 ->
  succeeded (fix_video d vi out quality del s).1
  \/ registered p (fix_video d vi out quality del s).2.
Proof.
  intros [Hin Hnot].
  set (Q := fun (r : res outcome) (s1 : st) =>
              no_temp_event ".mp4" p s1 \/ succeeded r \/ registered p s1).
  assert (Hspec : spec (no_temp_event ".mp4" p) (fix_video d vi out quality del) Q).
  { unfold fix_video.
    destruct (negb (has_ffmpeg d)); [apply spec_ret; by left|].
    destruct (bool_decide _); [apply spec_ret; by left|].
    destruct out as [o|].
    - eapply spec_conseq with (P' := no_temp_event ".mp4" p)
                              (Q' := fun _ => no_temp_event ".mp4" p);
        [|auto|intros; by left].
      as_preserves. preserves_go no_temp_close.
    - eapply spec_bind; [apply mkstemp_output| |intros e s1 H; by left].
      intros [temp_output_path output_path] s1 [HN|[-> HJ]].
      + left. revert s1 HN.
        match goal with
        | |- forall s1, _ -> no_temp_event _ _ (?c s1).2 =>
            change (preserves (no_temp_event ".mp4" p) c)
        end.
        preserves_go no_temp_close.
      + right. revert s1 HJ.
        match goal with
        | |- forall s1, _ -> succeeded (?c s1).1 \/ _ =>
            change (spec (on_disk_registered p) c
                      (fun r s1 => succeeded r \/ registered p s1))
        end.
        eapply spec_bind with (Q := fun _ => on_disk_registered p).
        { as_preserves. preserves_go on_disk_close. }
        2: { intros e s1 [_ H]. by right. }
        intros dir_missing.
        eapply spec_bind with (Q := fun _ => on_disk_registered p).
        { as_preserves. preserves_go on_disk_close. }
        2: { intros e s1 [_ H]. by right. }
        intros [msg|]; [apply spec_ret; intros s1 [_ H]; by right|].
        eapply spec_bind with (Q := fun _ => on_disk_registered p).
        { as_preserves. preserves_go on_disk_close. }
        2: { intros e s1 [_ H]. by right. }
        intros orig_info.
        eapply spec_bind; [apply mkstemp_on_disk| |intros e s1 [[_ H] _]; by right].
        intros raw.
        eapply spec_bind with (Q := fun _ s1 => registered p s1 /\ raw <> p).
        { intros s1 [[_ HJ] Hraw]. split; [|by apply Hraw].
          unfold registry_add, modify, registered. simpl.
          apply in_or_app. by left. }
        2: { intros e s1 [H _]. by right. }
        intros _ s1 [HJ Hraw].
        exact (guarded_registered p d vi _ _ _ raw quality _ _ _ _ Hraw s1 HJ). }
  destruct (Hspec s Hnot) as [HN|H]; [contradiction|exact H].
Qed.

Ltac kept_close :=
  match goal with
  | H : kept_raw _ _ |- _ => destruct H as [? ?]
  end;
  split; simpl;
  first [ assumption
        | congruence
        | apply in_or_app; left; assumption
        | apply list_remove_other; [assumption|assumption] ].

(** while the file system refuses to remove [raw], neither attempt to
    remove the raw file takes it out of the registry *)
Lemma remove_raw_kept (raw : string) :
  preserves (kept_raw raw) (try_except (remove_raw raw) (fun _ => ret tt)).
Proof.
  intros s Hs. unfold try_except, remove_raw. prim_unfold. simpl.
  repeat (case_match; simplify_eq/=); try kept_close.
  all: destruct Hs; congruence.
Qed.

Lemma replace_original_kept (raw orig temp outp : string) :
  temp <> raw ->
  preserves (kept_raw raw) (replace_original orig temp outp).
Proof. intros Hne. preserves_go kept_close. Qed.

Lemma two_stage_kept (raw : string) d vi orig temp outp quality settings w h fps :
  temp = outp \/ temp <> raw ->
  preserves (kept_raw raw)
    (two_stage d vi orig temp outp raw quality settings w h fps).
Proof.
  intros H. unfold two_stage.
  repeat first
    [ apply remove_raw_kept
    | lazymatch goal with
      | |- preserves _ (if negb (String.eqb temp outp) then _ else _) =>
          destruct (String.eqb_spec temp outp) as [E|E]; simpl;
          [ apply preserves_ret
          | apply replace_original_kept; destruct H; [contradiction|assumption] ]
      end
    | preserves_rule kept_close ].
Qed.

Lemma guarded_kept (raw : string) d vi orig temp outp quality settings w h fps :
  temp = outp \/ temp <> raw ->
  preserves (kept_raw raw)
    (guarded d vi orig temp outp raw quality settings w h fps).
Proof.
  intros H. unfold guarded.
  apply preserves_try_finally; [|apply remove_raw_kept].
  apply preserves_try_except; [by apply two_stage_kept|].
  intros e. apply preserves_ret.
Qed.

Lemma preserves_guard (c0 : Prop) (A B : st -> Prop) {X} (c : M X) :
  preserves A c -> preserves B c ->
  preserves (fun s => A s /\ (c0 \/ B s)) c.
Proof.
  intros HA HB s [Ha [Hc|Hb]]; (split; [by apply HA|]).
  - by left.
  - right. by apply HB.
Qed.

(** the output paths of [fix_video]: the caller's, or a temporary file that
    is on disk and registered *)
Lemma output_paths_raw (R : fs_op -> bool) (p orig dir : string)
    (out : option string) :
  spec (no_raw_yet R p)
    (match out with
     | None =>
         (temp_output_path <- mkstemp ".mp4" "temp_fix_" dir ;;
          registry_add temp_output_path ;;;
          ret (temp_output_path, orig))%py
     | Some o => ret (o, o)
     end)
    (fun r s => no_raw_yet R p s
                /\ match r with
                   | Ok (t, outp) => t = outp \/ on_disk_registered t s
                   | Raise _ => True
                   end).
Proof.
  destruct out as [o|].
  - apply spec_ret. intros s Hs. split; [exact Hs|by left].
  - intros s [HN HR]. prim_unfold. simpl.
    repeat (case_match; simplify_eq/=);
      (split; [split; [no_temp_close|done]|]); try done.
    all: right; split; simpl;
      [rewrite lookup_insert_eq; eauto|apply in_or_app; right; by left].
Qed.

(** the raw file is a new file: it is not the temporary output file *)
Lemma mkstemp_raw_fresh (R : fs_op -> bool) (p t outp prefix dir : string) :
  spec (fun s => no_raw_yet R p s /\ (t = outp \/ on_disk_registered t s))
    (mkstemp ".yuv" prefix dir)
    (fun r s => match r with
                | Ok raw => (raw = p /\ refused s = R /\ (t = outp \/ t <> raw))
                            \/ no_temp_event ".yuv" p s
                | Raise _ => no_temp_event ".yuv" p s
                end).
Proof.
  intros s [HA HB].
  pose proof (mkstemp_raw R p prefix dir s HA) as [HR H1].
  destruct (mkstemp ".yuv" prefix dir s) as [[raw|e] s1] eqn:E; simpl in *;
    [|exact H1].
  destruct H1 as [->|H1]; [left|by right].
  split; [done|]. split; [done|].
  destruct HB as [HB|HB]; [by left|right].
  pose proof (mkstemp_on_disk t ".yuv" prefix dir s HB) as [_ Hne].
  rewrite E in Hne. simpl in Hne. intros ->. by apply (Hne p).
Qed.

(** the raw file created by a call of [fix_video] is still in the registry
    when the call ends, when the file system refuses to remove it *)
Lemma raw_file_kept (d : self) (vi : VideoInfo.t) (out : option string)
    (quality : string) (del : bool) (s : st) (p : string) :
  new_temp ".yuv" p s (fix_video d vi out quality del s).2 ->
  refused s (OpRemove p) = true ->
  registered p (fix_video d vi out quality del s).2.
Proof.
  intros [Hin Hnot] Href.
  set (Q := fun (_ : res outcome) (s1 : st) =>
              no_temp_event ".yuv" p s1 \/ registered p s1).
  assert (Hspec : spec (no_raw_yet (refused s) p) (fix_video d vi out quality del) Q).
  { unfold fix_video.
    destruct (negb (has_ffmpeg d)); [apply spec_ret; intros ? [? ?]; by left|].
    destruct (bool_decide _); [apply spec_ret; intros ? [? ?]; by left|].
    eapply spec_bind; [apply output_paths_raw| |intros e s1 [[? ?] _]; by left].
    intros [t outp].
    eapply spec_bind
      with (Q := fun _ s1 => no_raw_yet (refused s) p s1
                             /\ (t = outp \/ on_disk_registered t s1)).
    { as_preserves.
      apply (preserves_guard (t = outp) (no_raw_yet (refused s) p)
               (on_disk_registered t));
        [preserves_go no_raw_yet_close|preserves_go on_disk_close]. }
    2: { intros e s1 [[? ?] _]. by left. }
    intros dir_missing.
    eapply spec_bind
      with (Q := fun _ s1 => no_raw_yet (refused s) p s1
                             /\ (t = outp \/ on_disk_registered t s1)).
    { as_preserves.
      apply (preserves_guard (t = outp) (no_raw_yet (refused s) p)
               (on_disk_registered t));
        [preserves_go no_raw_yet_close|preserves_go on_disk_close]. }
    2: { intros e s1 [[? ?] _]. by left. }
    intros [msg|]; [apply spec_ret; intros ? [[? ?] _]; by left|].
    eapply spec_bind
      with (Q := fun _ s1 => no_raw_yet (refused s) p s1
                             /\ (t = outp \/ on_disk_registered t s1)).
    { as_preserves.
      apply (preserves_guard (t = outp) (no_raw_yet (refused s) p)
               (on_disk_registered t));
        [preserves_go no_raw_yet_close|preserves_go on_disk_close]. }
    2: { intros e s1 [[? ?] _]. by left. }
    intros orig_info.
    eapply spec_bind; [apply mkstemp_raw_fresh| |intros e s1 ?; by left].
    intros raw s1 [(-> & HR & Hfresh)|HN].
    - right. unfold bind, registry_add, modify. simpl.
      refine (proj2 (guarded_kept p d vi _ _ _ quality _ _ _ _ Hfresh _ _)).
      split; simpl; [by rewrite HR|apply in_or_app; right; by left].
    - left. revert s1 HN.
      change (preserves (no_temp_event ".yuv" p)
                (registry_add raw ;;;
                 guarded d vi (VideoInfo.filepath vi) t outp raw
                   quality (quality_settings quality)
                   (info_or orig_info "width" 1920) (info_or orig_info "height" 1080)
                   (info_or orig_info "fps" 30))%py).
      apply preserves_bind; [|intros _; apply guarded_no_temp].
      preserves_go no_temp_close. }
  destruct (Hspec s) as [HN|Hreg].
  - split; [exact Hnot|reflexivity].
  - contradiction.
  - exact Hreg.
Qed.

(** C8 (amended). For every call of [fix_video], whatever way it ends:
    the raw intermediate file it created is removed before the call ends
    (by the [finally] block), unless the file system refuses the removal,
    and then it is still in the registry of the instance; the temporary
    output file it created is still in the registry when the call does not
    succeed; and [cleanup], when it is called, empties the registry and
    removes every registered file that the file system lets it remove,
    creating none.  [fix_video] itself does not remove the temporary output
    file. *)
Theorem temp_files_tracked_and_cleaned (d : self) (vi : VideoInfo.t)
    (out : option string) (quality : string) (del : bool) (s : st) (p : string) :
  let r := (fix_video d vi out quality del s).1 in
  let s1 := (fix_video d vi out quality del s).2 in
  let s2 := (cleanup s1).2 in
  (new_temp ".yuv" p s s1 -> refused s (OpRemove p) = false -> not_a_file s1 p)
  /\ (new_temp ".yuv" p s s1 -> refused s (OpRemove p) = true ->
      In p (temp_files s1))
  /\ (new_temp ".mp4" p s s1 -> succeeded r \/ In p (temp_files s1))
  /\ temp_files s2 = []
  /\ (In p (temp_files s1) -> refused s (OpRemove p) = false -> not_a_file s2 p)
  /\ (not_a_file s1 p -> not_a_file s2 p).
Proof.
  cbv zeta.
  pose proof (fix_video_refusing (refused s) d vi out quality del s eq_refl) as HR.
  unfold refusing in HR. simpl in HR.
  destruct (cleanup_spec (fix_video d vi out quality del s).2)
    as (_ & Hempty & Hdel & Hkeep).
  split; [apply raw_file_removed|].
  split; [apply raw_file_kept|].
  split; [apply temp_output_registered|].
  split; [exact Hempty|].
  split; [|apply Hkeep].
  intros Hin Href. apply Hdel; [exact Hin|]. by rewrite HR.
Qed.

(** a second stage that fails: the raw file is gone when the call returns,
    the temporary output file is registered, and [cleanup] removes it *)
Lemma temp_files_tracked_and_cleaned_witness :
  let d := Samples.both_tools in
  let vi := Samples.flagged_record in
  let s := Samples.world [Samples.good Samples.hevc_doc]
             [FfmpegExit 0 (Some "raw"); FfmpegExit 1 (Some "partial")] in
  let s1 := (fix_video d vi None "medium" false s).2 in
  let s2 := (cleanup s1).2 in
  new_temp ".yuv" "/v/raw_temp_q7w2.yuv" s s1
  /\ new_temp ".mp4" "/v/temp_fix_k3x9.mp4" s s1
  /\ refused s (OpRemove "/v/raw_temp_q7w2.yuv") = false
  /\ refused s (OpRemove "/v/temp_fix_k3x9.mp4") = false
  /\ not_a_file s1 "/v/raw_temp_q7w2.yuv"
  /\ In "/v/temp_fix_k3x9.mp4" (temp_files s1)
  /\ temp_files s2 = []
  /\ not_a_file s2 "/v/temp_fix_k3x9.mp4".
Proof.
  intros d vi s s1 s2.
  assert (H1 : new_temp ".yuv" "/v/raw_temp_q7w2.yuv" s s1).
  { split; [vm_compute; tauto|]. intros []. }
  assert (H2 : new_temp ".mp4" "/v/temp_fix_k3x9.mp4" s s1).
  { split; [vm_compute; tauto|]. intros []. }
  assert (H3 : refused s (OpRemove "/v/raw_temp_q7w2.yuv") = false) by reflexivity.
  assert (H4 : refused s (OpRemove "/v/temp_fix_k3x9.mp4") = false) by reflexivity.
  destruct (temp_files_tracked_and_cleaned d vi None "medium" false s
              "/v/raw_temp_q7w2.yuv") as (Hraw & _).
  destruct (temp_files_tracked_and_cleaned d vi None "medium" false s
              "/v/temp_fix_k3x9.mp4") as (_ & _ & Hreg & Hempty & Hdel & _).
  assert (H5 : In "/v/temp_fix_k3x9.mp4" (temp_files s1)).
  { destruct (Hreg H2) as [(vi' & msg & Hs)|H]; [|exact H].
    vm_compute in Hs. discriminate Hs. }
  repeat (split; [assumption|]).
  split; [exact (Hraw H1 H3)|].
  split; [exact H5|]. split; [exact Hempty|].
  exact (Hdel H5 H4).
Defined.

(** C8, as stated, fails for the temporary output file: after a first
    stage that fails, the call has returned, its [finally] block has removed
    the raw file, and the temporary output file is still on disk; the only
    removal the call attempted is that of the raw file. *)
Lemma temp_output_left_on_disk :
  let d := Samples.both_tools in
  let vi := Samples.flagged_record in
  let s := Samples.world [Samples.good Samples.hevc_doc] [FfmpegExit 1 None] in
  let s1 := (fix_video d vi None "medium" false s).2 in
  (fix_video d vi None "medium" false s).1 = Ok (vi, (false, stage1_message 1))
  /\ new_temp ".mp4" "/v/temp_fix_k3x9.mp4" s s1
  /\ fs s1 !! "/v/temp_fix_k3x9.mp4" = Some (File "")
  /\ ~ not_a_file s1 "/v/temp_fix_k3x9.mp4"
  /\ temp_files s1 = ["/v/temp_fix_k3x9.mp4"]
  /\ fs s1 !! "/v/raw_temp_q7w2.yuv" = None
  /\ trace s1
     = [EvFs (OpMkstemp "/v"); EvTemp ".mp4" "/v/temp_fix_k3x9.mp4";
        EvProbe {| show_data := false; probed := "/v/a.mp4" |};
        EvFs (OpMkstemp "/v"); EvTemp ".yuv" "/v/raw_temp_q7w2.yuv";
        EvFfmpeg (Stage1 "/v/a.mp4" "/v/raw_temp_q7w2.yuv");
        EvFs (OpRemove "/v/raw_temp_q7w2.yuv")].
Proof.
  intros d vi s s1.
  assert (Hfile : fs s1 !! "/v/temp_fix_k3x9.mp4" = Some (File "")) by reflexivity.
  split; [reflexivity|].
  split; [split; [vm_compute; tauto|intros []]|].
  split; [exact Hfile|].
  split; [intros H; exact (H "" Hfile)|].
  split; [reflexivity|]. split; reflexivity.
Qed.

(* ===================================================================== *)
(** ** Further properties of the code                                      *)
(* ===================================================================== *)

(** *** Looking for ffmpeg and ffprobe *)

Lemma split_char_first (c : ascii) (s : string) :
  exists p ps, split_char c s = p :: ps /\ contains_char c p = false
               /\ (forall a r, s = String a r -> Ascii.eqb a c = false ->
                   exists q, p = String a q).
Proof.
  induction s as [|a r IH]; simpl.
  - exists EmptyString, []. repeat split; intros; discriminate.
  - destruct (Ascii.eqb a c) eqn:E.
    + exists EmptyString, (split_char c r). repeat split.
      intros a' r' [= <- <-] E'. congruence.
    + destruct IH as (p & ps & -> & Hp & _).
      exists (String a p), ps. repeat split.
      * simpl. by rewrite E, Hp.
      * intros a' r' [= <- <-] _. by exists p.
Qed.

Lemma str_lstrip_first (l : list ascii) :
  match str_lstrip l with
  | c :: _ => is_str_space c = false
  | [] => True
  end.
Proof.
  induction l as [|c r IH]; simpl; [done|].
  destruct (is_str_space c) eqn:E; [exact IH|exact E].
Qed.

Lemma str_lstrip_keeps_last (x : list ascii) (c : ascii) :
  is_str_space c = false -> exists y, str_lstrip (x ++ [c]) = y ++ [c].
Proof.
  intros Hc. induction x as [|a x IH]; simpl.
  - rewrite Hc. by exists [].
  - destruct (is_str_space a); [exact IH|]. by exists (a :: x).
Qed.

Lemma str_strip_first (s : string) : no_leading_space (str_strip s).
Proof.
  unfold str_strip. pose proof (str_lstrip_first (list_ascii_of_string s)) as H.
  destruct (str_lstrip (list_ascii_of_string s)) as [|c r]; [exact I|].
  simpl rev. destruct (str_lstrip_keeps_last (rev r) c H) as [y ->].
  rewrite rev_app_distr. simpl. exact H.
Qed.

Lemma find_executable_exit (r : which_reply) :
  match _find_executable r with
  | Some path =>
      exists out, r = WhichExit 0 out
                  /\ contains_char newline path = false
                  /\ no_leading_space path
                  /\ (path = "" <-> str_strip out = "")
  | None => forall out, r <> WhichExit 0 out
  end.
Proof.
  destruct r as [msg|rc out]; simpl; [done|].
  destruct (Z.eqb_spec rc 0) as [->|Hrc]; [|intros out' [= ? ?]; done].
  pose proof (str_strip_first out) as Hs.
  destruct (split_char_first newline (str_strip out)) as (p & ps & E & Hp & Hfirst).
  rewrite E. exists out. split; [done|]. split; [exact Hp|].
  destruct (str_strip out) as [|a q]; simpl in Hs.
  - simpl in E. injection E as <- _. done.
  - assert (Ha : Ascii.eqb a newline = false).
    { destruct (Ascii.eqb_spec a newline) as [->|]; [discriminate Hs|done]. }
    destruct (Hfirst a q eq_refl Ha) as [q' ->]. simpl.
    split; [exact Hs|]. split; discriminate.
Qed.

(** X1. The search for a tool depends on the exit code of which/where
    alone.  [VideoDetector] counts the tool as available exactly when the
    exit code is 0, even when nothing was printed: the path is then the
    empty text.  [VideoConverter], which tests the path for truth, counts
    it as available only when something other than white space was printed.
    The path found is the first line of the output, without the white space
    in front of it. *)
Theorem tool_found_on_exit_code (r r' : which_reply) :
  (has_ffmpeg (init r r') = true <-> exists out, r = WhichExit 0 out)
  /\ (VideoConverter.path_truthy
        (VideoConverter.ffmpeg_path (VideoConverter.init None None r r')) = true
      <-> exists out, r = WhichExit 0 out /\ str_strip out <> "")
  /\ (forall path, _find_executable r = Some path ->
        contains_char newline path = false /\ no_leading_space path).
Proof.
  pose proof (find_executable_exit r) as H.
  unfold has_ffmpeg, init, VideoConverter.init, VideoConverter.path_truthy. simpl.
  destruct (_find_executable r) as [path|].
  - destruct H as (out & -> & Hnl & Hsp & Hempty).
    split; [|split].
    + split; [by exists out|intros _; by apply bool_decide_eq_true; eexists].
    + split.
      * intros Ht. exists out. split; [done|]. intros E.
        apply Hempty in E. by subst path.
      * intros (out' & [= <-] & Hne). destruct path; [|done].
        exfalso. by apply Hne, Hempty.
    + by intros ? [= <-].
  - split; [|split].
    + split; [intros Hd; by apply bool_decide_eq_true in Hd as [? ?]|].
      intros [out ->]. by destruct (H out).
    + split; [done|]. intros (out & -> & _). by destruct (H out).
    + done.
Qed.

(** *** The duration shown for a record *)

Lemma digit_chars (d : Decimal.uint) :
  contains_char ":" (string_of_list_ascii (uint_chars d)) = false.
Proof. induction d; simpl; auto. Qed.

Lemma format_02d_no_colon (z : Z) : 0 <= z -> contains_char ":" (format_02d z) = false.
Proof.
  intros Hz. unfold format_02d.
  assert (H : contains_char ":" (str_of_int z) = false).
  { destruct z as [|p|p]; [reflexivity|apply digit_chars|lia]. }
  destruct (_ && _); [|exact H].
  change (contains_char ":" (String "0" (str_of_int z)) = false).
  cbn [contains_char]. by rewrite H.
Qed.

Lemma int_of_format_02d (z : Z) : 0 <= z -> int_of_str (format_02d z) = Ok z.
Proof.
  intros Hz. unfold format_02d.
  destruct ((0 <=? z) && (z <? 10)) eqn:E; [|apply Decimals.int_of_str_of_int].
  apply andb_true_iff in E as [_ E%Z.ltb_lt].
  assert (z = 0 \/ z = 1 \/ z = 2 \/ z = 3 \/ z = 4 \/ z = 5 \/ z = 6 \/ z = 7
          \/ z = 8 \/ z = 9) as H by lia.
  repeat destruct H as [->|H]; try reflexivity. by subst z.
Qed.

Lemma clock_text_read_back (total : Z) :
  0 <= total -> seconds_of_clock (VideoInfo.clock_text total) = Some total.
Proof.
  intros Ht. unfold VideoInfo.clock_text, seconds_of_clock.
  pose proof (Z.div_mod total 3600 ltac:(lia)) as E1.
  pose proof (Z.mod_pos_bound total 3600 ltac:(lia)) as B1.
  pose proof (Z.div_pos total 3600 Ht ltac:(lia)) as Hh.
  set (hours := total / 3600) in *. set (remainder := total mod 3600) in *.
  pose proof (Z.div_mod remainder 60 ltac:(lia)) as E2.
  pose proof (Z.mod_pos_bound remainder 60 ltac:(lia)) as B2.
  pose proof (Z.div_pos remainder 60 ltac:(lia) ltac:(lia)) as Hm.
  set (minutes := remainder / 60) in *. set (seconds := remainder mod 60) in *.
  clearbody hours remainder minutes seconds.
  destruct (Z.ltb_spec 0 hours) as [Hpos|Hzero].
  - change (format_02d hours +:+ ":" +:+ format_02d minutes +:+ ":" +:+ format_02d seconds)
      with (format_02d hours +:+ String ":" (format_02d minutes +:+ String ":" (format_02d seconds))).
    rewrite Decimals.split_char_app by (apply format_02d_no_colon; lia).
    rewrite Decimals.split_char_app by (apply format_02d_no_colon; lia).
    rewrite Decimals.split_char_none by (apply format_02d_no_colon; lia).
    simpl. rewrite !int_of_format_02d by lia. f_equal. lia.
  - change (format_02d minutes +:+ ":" +:+ format_02d seconds)
      with (format_02d minutes +:+ String ":" (format_02d seconds)).
    rewrite Decimals.split_char_app by (apply format_02d_no_colon; lia).
    rewrite Decimals.split_char_none by (apply format_02d_no_colon; lia).
    simpl. rewrite !int_of_format_02d by lia. f_equal. lia.
Qed.

(** X2. [format_duration] on a record whose duration is the float [x]:
    it raises when [x] is a NaN or an infinity (values that [float] accepts
    from the texts "nan" and "inf"), and otherwise shows the whole seconds
    [int(x)].  From a non-negative number of seconds the text can be read
    back exactly (MM:SS below one hour, HH:MM:SS from one hour on); a
    duration below one hour, negative ones included, is shown as its
    remainder modulo 3600. *)
Theorem format_duration_whole_seconds (i : VideoInfo.t) (x : spec_float) :
  let shown := VideoInfo.format_duration (VideoInfo.setattr "duration" (PyFloat x) i) in
  match int_of_float x with
  | Ok total =>
      shown = Ok (VideoInfo.clock_text total)
      /\ (0 <= total -> seconds_of_clock (VideoInfo.clock_text total) = Some total)
      /\ (total < 3600 ->
          VideoInfo.clock_text total = VideoInfo.clock_text (total mod 3600))
  | Raise e =>
      shown = Raise e /\ (x = S754_nan \/ exists s, x = S754_infinity s)
  end
  /\ float_of_str "nan" = Ok S754_nan
  /\ float_of_str "inf" = Ok (S754_infinity false).
Proof.
  cbv zeta. split; [|split; reflexivity].
  unfold VideoInfo.format_duration. cbn [VideoInfo.setattr VideoInfo.duration].
  change (String.eqb "duration" "duration") with true. cbv iota.
  destruct (int_of_float x) as [total|e] eqn:E.
  - split; [reflexivity|]. split; [apply clock_text_read_back|].
    intros Hlt. unfold VideoInfo.clock_text.
    rewrite Z.mod_mod by lia.
    assert (Hh : total / 3600 <= 0).
    { apply Z.lt_succ_r. apply Z.div_lt_upper_bound; lia. }
    rewrite (Z.div_small (total mod 3600) 3600) by (apply Z.mod_pos_bound; lia).
    destruct (Z.ltb_spec 0 (total / 3600)); [lia|]. reflexivity.
  - split; [reflexivity|].
    destruct x as [s|s| |s m ex]; simpl in E; try discriminate E.
    + right. by exists s.
    + by left.
Qed.

(** *** The two analyzers *)

Lemma converter_check_stream_acc (acc : issue_lists) (stream : Ffprobe.stream) :
  VideoConverter.check_stream acc stream
  = {| video_issues :=
         video_issues acc
         ++ (if is_video stream then shared_video_issues stream else []);
       audio_issues := audio_issues acc ++ stream_audio_issues stream |}.
Proof.
  unfold VideoConverter.check_stream, is_video, shared_video_issues, codec_issue,
    pix_fmt_issue, color_space_issue, stream_audio_issues, check_stream.
  destruct (opt_str_is (Ffprobe.codec_type stream) "video").
  - match goal with
    | |- context [fold_left check_side_data ?l ?a] =>
        rewrite (proj2 (check_side_data_acc l a))
    end.
    repeat match goal with
           | |- context [if ?b then _ else _] => destruct b
           end;
      apply issue_lists_eq; simpl; rewrite <- ?app_assoc, ?app_nil_r; reflexivity.
  - destruct (opt_str_is (Ffprobe.codec_type stream) "audio").
    + destruct (negb _); apply issue_lists_eq; simpl; by rewrite ?app_nil_r.
    + apply issue_lists_eq; simpl; by rewrite !app_nil_r.
Qed.

Lemma converter_fold_check_stream (l : list Ffprobe.stream) (acc : issue_lists) :
  fold_left VideoConverter.check_stream l acc
  = {| video_issues :=
         video_issues acc
         ++ flat_map (fun stream =>
                        if is_video stream then shared_video_issues stream else []) l;
       audio_issues := audio_issues acc ++ flat_map stream_audio_issues l |}.
Proof.
  revert acc. induction l as [|x l IH]; intros acc; simpl.
  - apply issue_lists_eq; simpl; by rewrite app_nil_r.
  - rewrite IH, converter_check_stream_acc. simpl.
    apply issue_lists_eq; simpl; by rewrite <- app_assoc.
Qed.

(** *** Probing a file *)

(** one run of [_get_video_info], whatever ffprobe answers *)
Lemma get_video_info_run (d : self) (p : string) (s : st) :
  has_ffprobe d = true ->
  let s1 := log_event (EvProbe {| show_data := false; probed := p |}) s in
  _get_video_info d p s
  = match probes s with
    | ProbeExit rc out err :: rest =>
        ((if rc =? 0 then
            match out with
            | Json data =>
                match extract_info data with
                | Ok info => Ok (Some info)
                | Raise e =>
                    match exn_cls e with
                    | JSONDecodeError =>
                        Raise (mk_exn Exception ("无法解析FFprobe输出: " +:+ exn_msg e))
                    | _ => Raise (mk_exn Exception ("获取视频信息时出错: " +:+ exn_msg e))
                    end
                end
            | Unparsable why =>
                Raise (mk_exn Exception ("无法解析FFprobe输出: " +:+ why))
            end
          else Raise (mk_exn Exception
                        ("获取视频信息时出错: " +:+ "FFprobe执行失败: " +:+ err))),
         with_probes rest s1)
    | ProbeSpawnError msg :: rest =>
        (Raise (mk_exn Exception ("获取视频信息时出错: " +:+ msg)), with_probes rest s1)
    | [] => (Raise (mk_exn Exception ("获取视频信息时出错: " +:+ "cannot start ffprobe")), s1)
    end.
Proof.
  intros Hd. unfold _get_video_info. rewrite Hd. simpl.
  unfold try_except, bind at 1, run_ffprobe, bind, modify, get, os_error, raise,
    ret, lift. simpl.
  destruct (probes s) as [|[msg|rc out err] rest]; simpl; try reflexivity.
  destruct (rc =? 0); simpl; [|reflexivity].
  destruct out as [why|data]; simpl; [reflexivity|].
  destruct (extract_info data) as [info|e]; simpl; [reflexivity|].
  by destruct (exn_cls e).
Qed.

(** X4. [_get_video_info] of [VideoDetector]: without ffprobe it returns
    [None] and runs nothing; with ffprobe it runs ffprobe exactly once,
    whether or not the file exists, never returns [None], returns a
    description exactly when ffprobe exits with code 0 and prints a document
    that the extraction accepts, and in every other case raises a plain
    [Exception] whose message starts with "获取视频信息时出错: " or
    "无法解析FFprobe输出: "; a nonzero exit code gives the message
    "获取视频信息时出错: FFprobe执行失败: " followed by what ffprobe wrote to
    stderr.  It never touches a file. *)
Theorem get_video_info_outcomes (d : self) (p : string) (s : st) :
  let r := (_get_video_info d p s).1 in
  let s' := (_get_video_info d p s).2 in
  fs s' = fs s
  /\ (has_ffprobe d = false -> r = Ok None /\ s' = s)
  /\ (has_ffprobe d = true ->
      trace s' = trace s ++ [EvProbe {| show_data := false; probed := p |}]
      /\ probes s' = tl (probes s)
      /\ r <> Ok None
      /\ (forall info,
            r = Ok (Some info)
            <-> exists data err rest,
                  probes s = ProbeExit 0 (Json data) err :: rest
                  /\ extract_info data = Ok info)
      /\ (forall e, r = Raise e ->
            exn_cls e = Exception
            /\ exists m, exn_msg e = "获取视频信息时出错: " +:+ m
                         \/ exn_msg e = "无法解析FFprobe输出: " +:+ m)
      /\ (forall rc out err rest,
            probes s = ProbeExit rc out err :: rest -> rc <> 0 ->
            r = Raise (mk_exn Exception
                         ("获取视频信息时出错: FFprobe执行失败: " +:+ err)))).
Proof.
  cbv zeta. destruct (has_ffprobe d) eqn:Hd.
  2: { unfold _get_video_info. rewrite Hd. simpl. by repeat split. }
  rewrite (get_video_info_run d p s Hd). cbv zeta.
  split; [by destruct (probes s) as [|[msg|rc out err] rest]|].
  split; [done|]. intros _.
  split; [by destruct (probes s) as [|[msg|rc out err] rest]|].
  split; [destruct (probes s) as [|[msg|rc out err] rest] eqn:Hp; simpl;
          rewrite ?Hp; done|].
  destruct (probes s) as [|[msg|rc out err] rest]; simpl.
  - split; [done|]. split; [|split].
    + intros info. split; [done|]. intros (? & ? & ? & ? & _). done.
    + intros e [= <-]. split; [done|]. eexists. by left.
    + done.
  - split; [done|]. split; [|split].
    + intros info. split; [done|]. intros (? & ? & ? & ? & _). done.
    + intros e [= <-]. split; [done|]. eexists. by left.
    + done.
  - destruct (Z.eqb_spec rc 0) as [->|Hrc].
    + destruct out as [why|data].
      * split; [done|]. split; [|split].
        -- intros info. split; [done|]. intros (? & ? & ? & [= ?] & _).
        -- intros e [= <-]. split; [done|]. eexists. by right.
        -- intros rc' out' err' rest' [= <- _ _ _] Hrc. done.
      * destruct (extract_info data) as [info|e] eqn:E.
        -- split; [done|]. split; [|split].
           ++ intros info'. split.
              ** intros [= <-]. by exists data, err, rest.
              ** intros (? & ? & ? & [= <- _ _] & E'). congruence.
           ++ done.
           ++ intros rc' out' err' rest' [= <- _ _ _] Hrc. done.
        -- assert (H : exists m, (match exn_cls e with
                         | JSONDecodeError =>
                             Raise (mk_exn Exception ("无法解析FFprobe输出: " +:+ exn_msg e))
                         | _ => Raise (mk_exn Exception ("获取视频信息时出错: " +:+ exn_msg e))
                         end : res (option dict)) = Raise (mk_exn Exception m)
                       /\ (m = "获取视频信息时出错: " +:+ exn_msg e
                           \/ m = "无法解析FFprobe输出: " +:+ exn_msg e)).
           { destruct (exn_cls e); eexists; split; try reflexivity; auto. }
           destruct H as (m & -> & Hm).
           split; [done|]. split; [|split].
           ++ intros info'. split; [done|].
              intros (? & ? & ? & [= <- _ _] & E'). congruence.
           ++ intros e' [= <-]. simpl. split; [done|]. exists (exn_msg e). tauto.
           ++ intros rc' out' err' rest' [= <- _ _ _] Hrc. done.
    + split; [done|]. split; [|split].
      * intros info. split; [done|]. intros (? & ? & ? & [= ? _ _] & _). done.
      * intros e [= <-]. split; [done|]. eexists. by left.
      * intros rc' out' err' rest' [= <- _ <- _] _. reflexivity.
Qed.

(** one run of [get_video_info] of [VideoConverter] *)
Lemma converter_get_video_info_run (c : VideoConverter.self) (p : string) (s : st) :
  let s1 := log_event (EvProbe {| show_data := false; probed := p |}) s in
  VideoConverter.get_video_info c p s
  = if negb (VideoConverter.path_truthy (VideoConverter.ffprobe_path c))
    then (Ok None, s)
    else match fs s !! p with
         | None => (Ok None, s)
         | Some _ =>
             match probes s with
             | ProbeExit rc out err :: rest =>
                 ((if rc =? 0
                   then match out with
                        | Json data => Ok (Some data)
                        | Unparsable _ => Ok None
                        end
                   else Ok None),
                  with_probes rest s1)
             | ProbeSpawnError _ :: rest => (Ok None, with_probes rest s1)
             | [] => (Ok None, s1)
             end
         end.
Proof.
  unfold VideoConverter.get_video_info.
  destruct (negb _); [reflexivity|].
  unfold bind at 1. rewrite exists_run. simpl.
  destruct (fs s !! p) as [n|]; simpl; [|reflexivity].
  unfold try_except, bind at 1, run_ffprobe, bind, modify, get, os_error, raise,
    ret, lift. simpl.
  destruct (probes s) as [|[msg|rc out err] rest]; simpl; try reflexivity.
  destruct (rc =? 0); simpl; [|reflexivity].
  by destruct out.
Qed.

(** the analyzer of the detector, when ffprobe answers its two probes *)
Lemma identify_run (d : self) (p : string) (s : st) (d1 d2 : Ffprobe.data)
    (e1 e2 : string) (rest : list probe_reply) :
  has_ffprobe d = true ->
  probes s = ProbeExit 0 (Json d1) e1 :: ProbeExit 0 (Json d2) e2 :: rest ->
  (_identify_problematic_streams d p s).1
  = Ok match extract_info d1 with
       | Ok vi => if dict_truthy vi then scan_streams d2 else no_issues
       | Raise _ => no_issues
       end.
Proof.
  intros Hd Hp. unfold _identify_problematic_streams. rewrite Hd. simpl.
  unfold try_except, bind at 1. rewrite (get_video_info_run d p s Hd), Hp. simpl.
  destruct (extract_info d1) as [vi|e]; simpl.
  - destruct (dict_truthy vi); simpl; [|reflexivity].
    unfold run_ffprobe, bind, modify, get, ret, lift. simpl. reflexivity.
  - by destruct (exn_cls e).
Qed.

Lemma converter_identify_run (c : VideoConverter.self) (p : string) (s : st)
    (data : Ffprobe.data) (e1 : string) (rest : list probe_reply) :
  VideoConverter.path_truthy (VideoConverter.ffprobe_path c) = true ->
  is_Some (fs s !! p) ->
  probes s = ProbeExit 0 (Json data) e1 :: rest ->
  (VideoConverter.identify_problematic_streams c p s).1
  = Ok (VideoConverter.scan_streams data).
Proof.
  intros Hc [n Hn] Hp. unfold VideoConverter.identify_problematic_streams.
  rewrite Hc. simpl. unfold bind.
  rewrite (converter_get_video_info_run c p s), Hc, Hn, Hp. simpl.
  unfold VideoConverter.data_truthy, VideoConverter.scan_streams, streams_of.
  destruct (Ffprobe.streams data) as [l|] eqn:E; simpl; [reflexivity|].
  by destruct (bool_decide _).
Qed.

(** X3. The two analyzers on a file that exists, when ffprobe answers every
    probe with the same document.  The analyzer of the converter
    ([VideoConverter.identify_problematic_streams]) reports the audio issues
    and the codec, pixel-format and colour-space issues of every stream.
    The analyzer of the detector ([_identify_problematic_streams]) first
    asks [_get_video_info] for a description: when that fails or is empty it
    reports nothing at all; otherwise it reports the same audio issues, and
    for every video stream the same issues followed by the
    ambient-viewing-environment side-data issue, which it alone reports. *)
Theorem analyzers_differ_on_side_data (d : self) (c : VideoConverter.self)
    (path : string) (data : Ffprobe.data) (e1 e2 : string)
    (rest : list probe_reply) (s : st) :
  has_ffprobe d = true ->
  VideoConverter.path_truthy (VideoConverter.ffprobe_path c) = true ->
  is_Some (fs s !! path) ->
  probes s = ProbeExit 0 (Json data) e1 :: ProbeExit 0 (Json data) e2 :: rest ->
  exists a b,
    (_identify_problematic_streams d path s).1 = Ok a
    /\ (VideoConverter.identify_problematic_streams c path s).1 = Ok b
    /\ audio_issues b = flat_map stream_audio_issues (streams_of data)
    /\ video_issues b
       = flat_map (fun stream =>
                     if is_video stream then shared_video_issues stream else [])
           (streams_of data)
    /\ match extract_info data with
       | Ok vi =>
           if dict_truthy vi then
             audio_issues a = audio_issues b
             /\ video_issues a
                = flat_map (fun stream =>
                              if is_video stream
                              then shared_video_issues stream ++ side_data_issues stream
                              else [])
                    (streams_of data)
           else a = no_issues
       | Raise _ => a = no_issues
       end.
Proof.
  intros Hd Hc Hex Hp.
  eexists _, _. split; [exact (identify_run d path s data data e1 e2 rest Hd Hp)|].
  split; [exact (converter_identify_run c path s data e1 _ Hc Hex Hp)|].
  unfold VideoConverter.scan_streams. rewrite converter_fold_check_stream. simpl.
  split; [reflexivity|]. split; [reflexivity|].
  destruct (extract_info data) as [vi|e]; [|reflexivity].
  destruct (dict_truthy vi); [|reflexivity].
  rewrite scan_streams_flat_map. simpl. split; [reflexivity|].
  induction (streams_of data) as [|x l IH]; simpl; [reflexivity|].
  rewrite IH. f_equal. destruct (is_video x) eqn:E.
  - rewrite stream_video_issues_video by exact E. unfold shared_video_issues.
    by rewrite <- !app_assoc.
  - by apply stream_video_issues_not_video.
Qed.

(** an hevc stream whose frame rate is written with a decimal point: the
    description made by the detector fails, and its analyzer reports
    nothing *)
Lemma analyzers_differ_on_side_data_witness :
  let vs := {| Ffprobe.codec_type := Some "video"; Ffprobe.codec_name := Some "hevc";
               Ffprobe.width := Some 1920; Ffprobe.height := Some 1080;
               Ffprobe.pix_fmt := Some "yuv420p10le"; Ffprobe.color_space := Some "bt2020nc";
               Ffprobe.r_frame_rate := Some "25.0/1";
               Ffprobe.bit_rate := Some "4000000"; Ffprobe.duration := Some "10.0";
               Ffprobe.side_data_list := None |} in
  let data := Samples.document [vs; Samples.audio "opus"] (Some "10.0") in
  let s := Samples.world [Samples.good data; Samples.good data] [] in
  let c := {| VideoConverter.ffmpeg_path := None;
              VideoConverter.ffprobe_path := Some "/usr/bin/ffprobe" |} in
  (_identify_problematic_streams Samples.both_tools "/v/a.mp4" s).1 = Ok no_issues
  /\ exists b,
       (VideoConverter.identify_problematic_streams c "/v/a.mp4" s).1 = Ok b
       /\ length (video_issues b) = 3%nat /\ length (audio_issues b) = 1%nat.
Proof.
  intros vs data s c.
  destruct (analyzers_differ_on_side_data Samples.both_tools c "/v/a.mp4" data "" "" [] s
              eq_refl eq_refl ltac:(vm_compute; eauto) eq_refl)
    as (a & b & Ha & Hb & Hba & Hbv & Hrel).
  vm_compute in Hrel. subst a. split; [exact Ha|].
  exists b. split; [exact Hb|]. rewrite Hba, Hbv. split; reflexivity.
Defined.

(** X5. [get_video_info] of [VideoConverter] never raises and never
    touches a file.  Without a usable ffprobe path, or when the file does not
    exist, it returns [None] without running anything; it returns a document
    exactly when the path is usable, the file exists, and ffprobe exits with
    code 0 and prints that document. *)
Theorem converter_probe_never_raises (c : VideoConverter.self) (p : string)
    (s : st) :
  let r := (VideoConverter.get_video_info c p s).1 in
  let s' := (VideoConverter.get_video_info c p s).2 in
  fs s' = fs s
  /\ (exists o, r = Ok o)
  /\ (VideoConverter.path_truthy (VideoConverter.ffprobe_path c) = false
      \/ fs s !! p = None -> r = Ok None /\ s' = s)
  /\ (forall data,
        r = Ok (Some data)
        <-> VideoConverter.path_truthy (VideoConverter.ffprobe_path c) = true
            /\ is_Some (fs s !! p)
            /\ exists err rest, probes s = ProbeExit 0 (Json data) err :: rest).
Proof.
  cbv zeta. rewrite converter_get_video_info_run. cbv zeta.
  destruct (VideoConverter.path_truthy (VideoConverter.ffprobe_path c)); simpl.
  2: { split; [done|]. split; [by eexists|]. split; [done|].
       intros data. split; [done|]. by intros [? _]. }
  destruct (fs s !! p) as [n|] eqn:Hp; simpl.
  2: { split; [done|]. split; [by eexists|]. split; [done|].
       intros data. split; [done|]. by intros (_ & [? ?] & _). }
  destruct (probes s) as [|[msg|rc out err] rest]; simpl.
  - split; [done|]. split; [by eexists|]. split; [by intros [?|?]|].
    intros data. split; [done|]. by intros (_ & _ & ? & ? & ?).
  - split; [done|]. split; [by eexists|]. split; [by intros [?|?]|].
    intros data. split; [done|]. by intros (_ & _ & ? & ? & ?).
  - destruct (Z.eqb_spec rc 0) as [->|Hrc]; simpl.
    + destruct out as [why|data]; simpl.
      * split; [done|]. split; [by eexists|]. split; [by intros [?|?]|].
        intros data. split; [done|]. by intros (_ & _ & ? & ? & [= ?]).
      * split; [done|]. split; [by eexists|]. split; [by intros [?|?]|].
        intros data'. split.
        -- intros [= <-]. split; [done|]. split; [eauto|]. by exists err, rest.
        -- by intros (_ & _ & ? & ? & [= <- _ _]).
    + split; [done|]. split; [by eexists|]. split; [by intros [?|?]|].
      intros data. split; [done|]. intros (_ & _ & ? & ? & [= ? _ _]). done.
Qed.

(** *** A frame rate that is not two integers *)

(** X6. The frame rate of the first video stream is read without a guard:
    when [r_frame_rate] holds a slash but not two integers around it, the
    whole probe fails, and [detect_video] reports the file as an error with
    the message "检测失败: 获取视频信息时出错: ..." and none of the probed
    attributes, after one run of ffprobe.  A bit rate that is not an integer
    is skipped instead. *)
Theorem bad_frame_rate_fails_detection (d : self) (path : string) (s : st)
    (data : Ffprobe.data) (vs : Ffprobe.stream) (f err : string)
    (rest : list probe_reply) (e : exn) :
  has_ffprobe d = true ->
  is_Some (fs s !! path) ->
  probes s = ProbeExit 0 (Json data) err :: rest ->
  (pick_streams (streams_of data)).1 = Some vs ->
  Ffprobe.r_frame_rate vs = Some f ->
  parse_fps f = Raise e ->
  contains_char "/" f = true
  /\ (exists size,
        (detect_video d path s).1
        = Ok (Some (mark_error ("检测失败: 获取视频信息时出错: " +:+ exn_msg e)
                      (VideoInfo.init path (OsPath.basename path) size))))
  /\ probes (detect_video d path s).2 = rest
  /\ (forall b e', int_of_str b = Raise e' -> parse_bitrate (Some b) = Ok None).
Proof.
  intros Hd Hex Hp Hvs Hf He.
  assert (Hslash : contains_char "/" f = true).
  { unfold parse_fps in He. destruct (str_truthy f); [|done].
    by destruct (contains_char "/" f). }
  assert (Hcls : exn_cls e <> JSONDecodeError).
  { unfold parse_fps in He. destruct (str_truthy f && contains_char "/" f); [|done].
    unfold unpack2_ints, int_of_str, truediv in He.
    repeat (case_match; simplify_eq/=); done. }
  assert (Hx : extract_info data = Raise e).
  { unfold extract_info. destruct (pick_streams (streams_of data)) as [v a].
    simpl in Hvs. subst v. unfold extract_video. rewrite Hf, He. reflexivity. }
  split; [exact Hslash|].
  destruct (getsize_existing path s Hex) as [size Hsize].
  assert (Hrun : detect_video d path s
                 = (Ok (Some (mark_error
                                ("检测失败: 获取视频信息时出错: " +:+ exn_msg e)
                                (VideoInfo.init path (OsPath.basename path) size))),
                    with_probes rest
                      (log_event (EvProbe {| show_data := false; probed := path |}) s))).
  { unfold detect_video. unfold bind at 1. rewrite exists_run.
    rewrite bool_decide_eq_true_2 by exact Hex. simpl.
    unfold bind at 1. rewrite Hsize. rewrite Hd.
    unfold try_except, bind at 1. rewrite (get_video_info_run d path s Hd).
    rewrite Hp. simpl. rewrite Hx.
    by destruct (exn_cls e) eqn:Ec. }
  rewrite Hrun. simpl.
  split; [by exists size|]. split; [reflexivity|].
  intros b e' Hb. unfold parse_bitrate, pass_value_type_error. rewrite Hb. simpl.
  unfold int_of_str in Hb. destruct (int_of_chars _); [done|].
  by injection Hb as <-.
Qed.

(** a frame rate written with a decimal point *)
Lemma bad_frame_rate_fails_detection_witness :
  let vs := {| Ffprobe.codec_type := Some "video"; Ffprobe.codec_name := Some "h264";
               Ffprobe.width := Some 1920; Ffprobe.height := Some 1080;
               Ffprobe.pix_fmt := Some "yuv420p"; Ffprobe.color_space := Some "bt709";
               Ffprobe.r_frame_rate := Some "25.0/1";
               Ffprobe.bit_rate := Some "4000000"; Ffprobe.duration := Some "10.0";
               Ffprobe.side_data_list := None |} in
  let data := Samples.document [vs] (Some "10.0") in
  let s := Samples.world [Samples.good data] [] in
  exists info,
    (detect_video Samples.both_tools "/v/a.mp4" s).1 = Ok (Some info)
    /\ VideoInfo.status_ info = STATUS_ERROR
    /\ VideoInfo.codec info = PyNone
    /\ VideoInfo.error_message info
       = PyStr "检测失败: 获取视频信息时出错: invalid literal for int() with base 10: '25.0'".
Proof.
  intros vs data s.
  destruct (bad_frame_rate_fails_detection Samples.both_tools "/v/a.mp4" s data vs
              "25.0/1" "" []
              (mk_exn ValueError "invalid literal for int() with base 10: '25.0'"))
    as (_ & (size & Hrun) & _); try reflexivity.
  { vm_compute. eauto. }
  eexists. split; [exact Hrun|]. by repeat split.
Defined.

(** *** What a detection does and returns *)

Ltac quiet_close :=
  match goal with
  | H : quiet _ _ _ _ |- _ => destruct H as (? & ? & ?)
  end;
  repeat split; simpl; assumption.

Lemma detect_video_quiet (F : gmap string node) (T : list string)
    (E : list ffmpeg_reply) (d : self) (path : string) :
  preserves (quiet F T E) (detect_video d path).
Proof. preserves_go quiet_close. Qed.

Lemma probing_more (n m : nat) (T : list event) (s : st) :
  (n <= m)%nat -> probing n T s -> probing m T s.
Proof. intros Hnm (evs & ? & ? & ?). exists evs. repeat split; auto. lia. Qed.

Lemma run_ffprobe_probing (n : nat) (T : list event) (c : probe_cmd) :
  spec (probing n T) (run_ffprobe c) (fun _ => probing (S n) T).
Proof.
  intros s (evs & Ht & Hp & Hn).
  assert (H : probing (S n) T (log_event (EvProbe c) s)).
  { exists (evs ++ [EvProbe c]). simpl. rewrite Ht, <- app_assoc.
    split; [done|]. rewrite forallb_app, Hp, length_app. simpl.
    split; [done|lia]. }
  unfold run_ffprobe, bind, modify, get, os_error, raise, ret. simpl.
  destruct (probes s) as [|[msg|rc out err] rest]; exact H.
Qed.

Lemma get_video_info_probing (n : nat) (T : list event) (d : self) (p : string) :
  spec (probing n T) (_get_video_info d p) (fun _ => probing (S n) T).
Proof.
  unfold _get_video_info. destruct (negb (has_ffprobe d)).
  - apply spec_ret. intros s. apply probing_more. lia.
  - eapply spec_try_except with (Q := fun _ => probing (S n) T); [|auto|].
    + eapply spec_bind with (Q := fun _ => probing (S n) T);
        [apply run_ffprobe_probing| |auto].
      intros [[rc out] err]. destruct (negb (rc =? 0)).
      * apply spec_raise. auto.
      * as_preserves. preserves_go ltac:(assumption).
    + intros e. destruct (exn_cls e); apply spec_raise; auto.
Qed.

Lemma identify_probing (n : nat) (T : list event) (d : self) (p : string) :
  spec (probing n T) (_identify_problematic_streams d p)
    (fun r s => probing (S (S n)) T s /\ exists issues, r = Ok issues).
Proof.
  intros s Hs. split; [|apply identify_never_raises]. revert s Hs.
  change (spec (probing n T) (_identify_problematic_streams d p)
            (fun _ => probing (S (S n)) T)).
  unfold _identify_problematic_streams. destruct (negb (has_ffprobe d)).
  - apply spec_ret. intros s. apply probing_more. lia.
  - eapply spec_try_except with (Q := fun _ => probing (S (S n)) T); [|auto|].
    + eapply spec_bind with (Q := fun _ => probing (S n) T);
        [apply get_video_info_probing| |].
      * intros vi. destruct (negb (opt_dict_truthy vi)).
        -- apply spec_ret. intros s. apply probing_more. lia.
        -- eapply spec_bind with (Q := fun _ => probing (S (S n)) T);
             [apply run_ffprobe_probing| |auto].
           intros [[rc out] err]. destruct (negb (rc =? 0)).
           ++ apply spec_ret. auto.
           ++ as_preserves. preserves_go ltac:(assumption).
      * intros e s. apply probing_more. lia.
    + intros e. apply spec_ret. auto.
Qed.

Lemma copy_attrs_path (vi : dict) (i : VideoInfo.t) :
  VideoInfo.filepath (copy_attrs vi i) = VideoInfo.filepath i
  /\ VideoInfo.filename (copy_attrs vi i) = VideoInfo.filename i.
Proof.
  unfold copy_attrs. revert i. induction vi as [|[k v] l IH]; intros i; simpl; [done|].
  destruct (IH (if str_in k VideoInfo.probed_attrs then VideoInfo.setattr k v i else i))
    as [-> ->].
  by destruct (str_in _ _).
Qed.

Lemma detect_video_probing (n : nat) (T : list event) (d : self) (path : string) :
  spec (probing n T) (detect_video d path) (fun _ => probing (S (S (S n))) T).
Proof.
  assert (Hmore : forall k s, (k <= 3)%nat -> probing (k + n) T s ->
                              probing (S (S (S n))) T s).
  { intros k s Hk. apply probing_more. lia. }
  unfold detect_video.
  eapply spec_bind with (Q := fun _ => probing n T).
  { as_preserves. preserves_go ltac:(assumption). }
  2: { intros e s. apply (Hmore 0%nat). lia. }
  intros e. destruct (negb e); [apply spec_ret; intros s; apply (Hmore 0%nat); lia|].
  eapply spec_bind with (Q := fun _ => probing n T).
  { as_preserves. preserves_go ltac:(assumption). }
  2: { intros e' s. apply (Hmore 0%nat). lia. }
  intros size. destruct (has_ffprobe d);
    [|apply spec_ret; intros s; apply (Hmore 0%nat); lia].
  eapply spec_try_except with (Q := fun _ => probing (S (S (S n))) T); [|auto|].
  - eapply spec_bind with (Q := fun _ => probing (S n) T);
      [apply get_video_info_probing| |intros e' s; apply (Hmore 1%nat); lia].
    intros [vi|]; [|apply spec_ret; intros s; apply (Hmore 1%nat); lia].
    destruct (dict_truthy vi); [|apply spec_ret; intros s; apply (Hmore 1%nat); lia].
    eapply spec_bind
      with (Q := fun r s => probing (S (S (S n))) T s /\ exists issues, r = Ok issues);
      [apply identify_probing| |by intros e' s [? ?]].
    intros issues s [Hs _]. unfold try_except, bind, lift, ret.
    by destruct (completion_line _).
  - intros e'. apply spec_ret. auto.
Qed.

Lemma detect_video_detected (d : self) (path : string) (s : st) :
  is_Some (fs s !! path) -> detected path (detect_video d path s).1.
Proof.
  intros Hex. destruct (getsize_existing path s Hex) as [size Hsize].
  set (info0 := VideoInfo.init path (OsPath.basename path) size).
  assert (Herr : forall m, detected path (Ok (Some (mark_error m info0)))).
  { intros m. eexists. split; [reflexivity|]. split; [done|]. split; [done|].
    right. split; [done|]. by exists m. }
  unfold detect_video. unfold bind at 1. rewrite exists_run.
  rewrite bool_decide_eq_true_2 by exact Hex. simpl.
  unfold bind at 1. rewrite Hsize. fold info0.
  destruct (has_ffprobe d); [|apply Herr].
  match goal with
  | |- detected path (?c s).1 =>
      assert (H : spec (fun _ => True) c (fun r _ => detected path r));
        [|exact (H s I)]
  end.
  eapply spec_try_except
    with (Q := fun r _ => match r with Ok a => detected path (Ok a) | Raise _ => True end).
  - eapply spec_bind with (Q := fun _ _ => True); [done| |done].
    intros [vi|]; [|apply spec_ret; intros st' _; apply Herr].
    destruct (dict_truthy vi); [|apply spec_ret; intros st' _; apply Herr].
    eapply spec_bind with (Q := fun r _ => exists issues, r = Ok issues).
    { intros st' _. apply identify_never_raises. }
    2: { intros e st' [? ?]. done. }
    intros issues st' _. unfold try_except, bind, lift, ret.
    destruct (completion_line _) as [[]|e]; simpl.
    2: { eexists. split; [reflexivity|]. simpl.
         destruct (copy_attrs_path vi info0) as [Hp Hn].
         split; [by destruct (has_issues issues)|].
         split; [by destruct (has_issues issues)|].
         right. split; [done|]. by eexists. }
    destruct (has_issues issues) eqn:Hi.
    + eexists. split; [reflexivity|]. simpl.
      destruct (copy_attrs_path vi info0) as [-> ->].
      split; [done|]. split; [done|]. right. split; [done|]. by eexists.
    + eexists. split; [reflexivity|]. simpl.
      destruct (copy_attrs_path vi info0) as [-> ->].
      split; [done|]. split; [done|]. left. split; [done|].
      rewrite copy_attrs_error_message. split; [done|].
      apply has_issues_false in Hi as [-> ->]. reflexivity.
  - by intros [a|] st'.
  - intros e. apply spec_ret. intros st' _. apply Herr.
Qed.

Lemma detect_video_without_ffprobe (d : self) (path : string) (s : st) :
  is_Some (fs s !! path) -> has_ffprobe d = false ->
  exists size,
    detect_video d path s
    = (Ok (Some (mark_error "检测工具不可用，请安装FFprobe"
                   (VideoInfo.init path (OsPath.basename path) size))), s).
Proof.
  intros Hex Hd. destruct (getsize_existing path s Hex) as [size Hsize].
  exists size. unfold detect_video. unfold bind at 1. rewrite exists_run.
  rewrite bool_decide_eq_true_2 by exact Hex. simpl.
  unfold bind at 1. rewrite Hsize. by rewrite Hd.
Qed.

(** X7. [detect_video] never raises, and touches neither a file nor the
    temp-file registry; all it runs is ffprobe, at most three times (its own
    probe and the two of the analyzer).  For a path that does not exist it
    returns [None] and runs nothing.  For a path that exists it returns a
    record of that path with the status ok or error, never another one: an
    ok record has no error message and no issue, an error record always has
    a message.  Without ffprobe every file is reported as an error, with the
    message "检测工具不可用，请安装FFprobe", and nothing is run. *)
Theorem detect_video_outcomes (d : self) (path : string) (s : st) :
  let r := (detect_video d path s).1 in
  let s' := (detect_video d path s).2 in
  fs s' = fs s /\ temp_files s' = temp_files s /\ encodes s' = encodes s
  /\ (exists evs, trace s' = trace s ++ evs
                  /\ forallb probe_event evs = true /\ (length evs <= 3)%nat)
  /\ match fs s !! path with
     | None => r = Ok None /\ s' = s
     | Some _ =>
         detected path r
         /\ (has_ffprobe d = false ->
             s' = s
             /\ exists info,
                  r = Ok (Some info)
                  /\ VideoInfo.status_ info = STATUS_ERROR
                  /\ VideoInfo.error_message info
                     = PyStr "检测工具不可用，请安装FFprobe")
     end.
Proof.
  cbv zeta.
  destruct (detect_video_quiet (fs s) (temp_files s) (encodes s) d path s)
    as (Hfs & Htmp & Henc); [done|].
  split; [exact Hfs|]. split; [exact Htmp|]. split; [exact Henc|].
  split.
  { apply (detect_video_probing 0 (trace s) d path s).
    exists []. by rewrite app_nil_r. }
  destruct (fs s !! path) as [n|] eqn:Hp.
  - assert (Hex : is_Some (fs s !! path)) by (by rewrite Hp).
    split; [by apply detect_video_detected|]. intros Hd.
    destruct (detect_video_without_ffprobe d path s Hex Hd) as [size ->]. simpl.
    split; [done|]. eexists. by repeat split.
  - unfold detect_video. unfold bind. rewrite exists_run, Hp. done.
Qed.

(** a clean file, probed three times *)
Lemma detect_video_outcomes_witness :
  let s := Samples.world (replicate 3 (Samples.good Samples.clean_doc)) [] in
  exists info,
    (detect_video Samples.both_tools "/v/a.mp4" s).1 = Ok (Some info)
    /\ VideoInfo.status_ info = STATUS_OK
    /\ probes (detect_video Samples.both_tools "/v/a.mp4" s).2 = []
    /\ fs (detect_video Samples.both_tools "/v/a.mp4" s).2 = fs s.
Proof.
  intros s.
  destruct (detect_video_outcomes Samples.both_tools "/v/a.mp4" s)
    as (Hfs & _ & _ & _ & H).
  change (fs s !! "/v/a.mp4") with (Some (File "0123456789")) in H.
  destruct H as [(info & Hr & _ & _ & _) _].
  exists info. split; [exact Hr|]. split; [|split; [reflexivity|exact Hfs]].
  assert (E : Ok (Some info) = (detect_video Samples.both_tools "/v/a.mp4" s).1)
    by (by rewrite Hr).
  vm_compute in E. by injection E as ->.
Defined.

(** *** What [cleanup] leaves behind *)

Lemma cleanup_one_keeps (p q : string) (n : node) (s : st) :
  fs s !! q = Some n ->
  q <> p \/ refused s (OpRemove p) = true \/ n = Dir ->
  fs (cleanup_one p s).2 !! q = Some n.
Proof.
  intros Hq Hwhy.
  unfold cleanup_one, try_except, remove, fs_call, exists_, os_error, bind, get,
    modify, ret, raise. simpl.
  repeat (case_match; simplify_eq/=); try exact Hq.
  destruct Hwhy as [Hne|[Href|Hdir]].
  - by rewrite lookup_delete_ne.
  - congruence.
  - destruct (decide (q = p)) as [->|Hne]; [congruence|by rewrite lookup_delete_ne].
Qed.

Lemma for_each_cleanup_keeps (l : list string) (q : string) (n : node) (s : st) :
  fs s !! q = Some n ->
  ~ In q l \/ refused s (OpRemove q) = true \/ n = Dir ->
  fs (for_each l cleanup_one s).2 !! q = Some n.
Proof.
  revert s. induction l as [|x l IH]; intros s Hq Hwhy; simpl; [exact Hq|].
  unfold bind. destruct (cleanup_one_spec x s) as (Hok & Hr & _ & _).
  pose proof (cleanup_one_keeps x q n s Hq) as Hkeep.
  destruct (cleanup_one x s) as [r s1]. simpl in *. subst r.
  apply IH.
  - apply Hkeep. destruct (decide (q = x)) as [->|Hne]; [|by left].
    destruct Hwhy as [Hin|[Href|Hdir]]; [|auto|auto].
    exfalso. apply Hin. by left.
  - rewrite Hr. destruct Hwhy as [Hin|[Href|Hdir]]; auto.
Qed.

(** X8. [cleanup] never raises and always empties the registry, whatever
    happens to the files: a registered file that the file system refuses to
    remove stays on disk and is forgotten, so that a later [cleanup] does
    nothing about it.  A path that is not registered, and a directory, are
    never removed. *)
Theorem cleanup_forgets_what_it_cannot_remove (s : st) (p : string) (n : node) :
  fs s !! p = Some n ->
  ~ In p (temp_files s) \/ refused s (OpRemove p) = true \/ n = Dir ->
  (cleanup s).1 = Ok tt
  /\ temp_files (cleanup s).2 = []
  /\ fs (cleanup s).2 !! p = Some n
  /\ cleanup (cleanup s).2 = (Ok tt, (cleanup s).2).
Proof.
  intros Hp Hwhy.
  destruct (for_each_cleanup (temp_files s) s) as (Hok & _).
  assert (Hrun : cleanup s
                 = (Ok tt, with_temp_files [] (for_each (temp_files s) cleanup_one s).2)).
  { unfold cleanup, bind, get, modify.
    change (for_each (temp_files s) _ s) with (for_each (temp_files s) cleanup_one s).
    destruct (for_each (temp_files s) cleanup_one s) as [r s1]. simpl in Hok.
    by subst r. }
  rewrite Hrun. simpl.
  split; [done|]. split; [done|].
  split; [by apply for_each_cleanup_keeps|].
  unfold cleanup, bind, get, modify. simpl.
  by destruct (for_each (temp_files s) cleanup_one s) as [r [? ? ? ? ? ? ? ? ?]].
Qed.

(** a registered temporary file that cannot be removed *)
Lemma cleanup_forgets_what_it_cannot_remove_witness :
  let s0 := Samples.world [] [] in
  let s := {| fs := <["/v/temp_fix_k3x9.mp4" := File "partial"]> (fs s0);
              dir_size := dir_size s0;
              refused := fun op => match op with OpRemove _ => true | _ => false end;
              probes := []; encodes := []; tmp_names := [];
              clock := clock s0;
              temp_files := ["/v/temp_fix_k3x9.mp4"];
              trace := [] |} in
  (cleanup s).1 = Ok tt
  /\ temp_files (cleanup s).2 = []
  /\ fs (cleanup s).2 !! "/v/temp_fix_k3x9.mp4" = Some (File "partial")
  /\ cleanup (cleanup s).2 = (Ok tt, (cleanup s).2).
Proof.
  intros s0 s.
  apply (cleanup_forgets_what_it_cannot_remove s "/v/temp_fix_k3x9.mp4" (File "partial")).
  - reflexivity.
  - right. left. reflexivity.
Defined.

(** *** Repairs that leave the original alone *)

Ltac holds_close :=
  unfold holds in *; simpl;
  repeat match goal with
         | H : first_free _ _ _ _ _ = (Some _, _) |- _ => apply first_free_fresh in H
         end;
  first [ assumption
        | rewrite lookup_insert_ne by congruence;
          first [ assumption | rewrite lookup_delete_ne by congruence; assumption ]
        | rewrite lookup_delete_ne by congruence; assumption ].

Lemma mkstemp_holds (orig : string) (n : node) (suffix prefix dir : string) :
  spec (holds orig n) (mkstemp suffix prefix dir)
    (fun r s => holds orig n s /\ forall p, r = Ok p -> p <> orig).
Proof.
  intros s Hs. prim_unfold. simpl.
  repeat (case_match; simplify_eq/=); (split; [holds_close|]); try done.
  all: intros p [= <-] ->;
    match goal with
    | H : first_free _ _ _ _ _ = _ |- _ => apply first_free_fresh in H
    end; unfold holds in Hs; congruence.
Qed.

(** the [try] block and its [finally], when no replace step is due *)
Lemma guarded_holds (p : string) (n : node) d vi orig o raw quality settings w h fps :
  raw <> p -> o <> p ->
  preserves (holds p n) (guarded d vi orig o o raw quality settings w h fps).
Proof.
  intros Hraw Ho. unfold guarded, two_stage.
  repeat first
    [ lazymatch goal with
      | |- preserves _ (if negb (String.eqb o o) then _ else _) =>
          rewrite String.eqb_refl; simpl; apply preserves_ret
      end
    | preserves_rule holds_close ].
Qed.

(** with an output path of its own, [fix_video] writes to that path and to
    fresh temporary files only *)
Lemma explicit_output_holds (d : self) (vi : VideoInfo.t) (o : string)
    (quality : string) (del : bool) (p : string) (n : node) :
  o <> p ->
  preserves (holds p n) (fix_video d vi (Some o) quality del).
Proof.
  intros Ho. set (orig := VideoInfo.filepath vi) in *.
  unfold fix_video. fold orig.
  destruct (negb (has_ffmpeg d)); [apply preserves_ret|].
  destruct (bool_decide _); [apply preserves_ret|].
  lazymatch goal with
  | |- preserves _ (bind (ret ?a) ?k) => change (bind (ret a) k) with (k a); cbv beta iota
  end.
  apply preserves_bind; [preserves_go holds_close|]. intros dir_missing.
  apply preserves_bind; [preserves_go holds_close|].
  intros [msg|]; [apply preserves_ret|].
  apply preserves_bind; [preserves_go holds_close|]. intros orig_info.
  eapply spec_bind; [apply mkstemp_holds| |by intros e s [? _]].
  intros raw s [Hs Hraw].
  change (holds p n
            ((registry_add raw ;;;
              guarded d vi orig o o raw quality (quality_settings quality)
                (info_or orig_info "width" 1920) (info_or orig_info "height" 1080)
                (info_or orig_info "fps" 30))%py s).2).
  revert s Hs.
  change (preserves (holds p n)
            (registry_add raw ;;;
             guarded d vi orig o o raw quality (quality_settings quality)
               (info_or orig_info "width" 1920) (info_or orig_info "height" 1080)
               (info_or orig_info "fps" 30))%py).
  apply preserves_bind; [preserves_go holds_close|]. intros _.
  apply guarded_holds; [by apply Hraw|exact Ho].
Qed.

(** X9. With an output path of its own, other than the original's (both
    absolute and normalised, so that the two texts are two files),
    [fix_video] leaves the original file in place with its content, however
    the call ends and whatever [delete_original] says. *)
Theorem explicit_output_keeps_original (d : self) (vi : VideoInfo.t) (o : string)
    (quality : string) (del : bool) (s : st) (n : node) :
  canonical o = true ->
  canonical (VideoInfo.filepath vi) = true ->
  fs s !! VideoInfo.filepath vi = Some n ->
  o <> VideoInfo.filepath vi ->
  fs (fix_video d vi (Some o) quality del s).2 !! VideoInfo.filepath vi = Some n.
Proof.
  intros _ _ Hn Ho.
  exact (explicit_output_holds d vi o quality del (VideoInfo.filepath vi) n Ho s Hn).
Qed.

(** an output path next to the original, a second stage that fails, and
    the deletion of the original asked for *)
Lemma explicit_output_keeps_original_witness :
  let s := Samples.world [Samples.good Samples.hevc_doc]
             [FfmpegExit 0 (Some "raw"); FfmpegExit 1 (Some "partial")] in
  let s' := (fix_video Samples.both_tools Samples.flagged_record
               (Some "/v/a_fixed.mp4") "medium" true s).2 in
  fs s' !! "/v/a.mp4" = Some (File "0123456789")
  /\ fs s' !! "/v/a_fixed.mp4" = Some (File "partial").
Proof.
  intros s s'. split; [|reflexivity].
  apply (explicit_output_keeps_original Samples.both_tools Samples.flagged_record
           "/v/a_fixed.mp4" "medium" true s (File "0123456789")).
  - reflexivity.
  - reflexivity.
  - reflexivity.
  - discriminate.
Defined.

(** *** The exceptions of [fix_video] *)

Ltac before_ffmpeg_close :=
  match goal with
  | H : before_ffmpeg _ _ _ _ _ |- _ => destruct H as (? & ? & ?)
  end;
  unfold before_ffmpeg, ffmpeg_runs in *; simpl;
  rewrite ?omap_app; simpl; rewrite ?app_nil_r;
  repeat match goal with
         | H : first_free _ _ _ _ _ = (Some _, _) |- _ => apply first_free_fresh in H
         end;
  (split; [assumption|]); (split; [assumption|]);
  first [ assumption
        | rewrite lookup_insert_ne by congruence; assumption ].

Lemma mkstemp_before_ffmpeg E R orig n (suffix prefix dir : string) :
  spec (before_ffmpeg E R orig n) (mkstemp suffix prefix dir)
    (fun r s => before_ffmpeg E R orig n s
                /\ match r with Raise e => exn_cls e = OSError | Ok _ => True end).
Proof.
  intros s Hs. prim_unfold. simpl.
  repeat (case_match; simplify_eq/=); (split; [before_ffmpeg_close|done]).
Qed.

Lemma get_video_info_before_ffmpeg E R orig n (d : self) (p : string) :
  spec (before_ffmpeg E R orig n) (_get_video_info d p)
    (fun r s => before_ffmpeg E R orig n s
                /\ match r with Raise e => exn_cls e = Exception | Ok _ => True end).
Proof.
  intros s Hs. destruct (has_ffprobe d) eqn:Hd.
  2: { unfold _get_video_info. rewrite Hd. simpl. done. }
  rewrite (get_video_info_run d p s Hd). cbv zeta.
  destruct (probes s) as [|[msg|rc out err] rest]; simpl;
    (split; [before_ffmpeg_close|]); try done.
  destruct (rc =? 0); [|done]. destruct out as [why|data]; [done|].
  destruct (extract_info data) as [info|e]; [done|]. by destruct (exn_cls e).
Qed.

Lemma guarded_never_raises d vi orig temp outp raw quality settings w h fps (s : st) :
  exists o, (guarded d vi orig temp outp raw quality settings w h fps s).1 = Ok o.
Proof.
  unfold guarded, try_finally.
  match goal with
  | |- context [let '(_, _) := ?c s in _] =>
      assert (H : exists o s1, c s = (Ok o, s1))
  end.
  { unfold try_except, ret.
    destruct (two_stage d vi orig temp outp raw quality settings w h fps s)
      as [[o|e] s1]; by eexists _, _. }
  destruct H as (o & s1 & ->).
  destruct (finally_removes_raw raw s1) as [Hok _].
  destruct (try_except (remove_raw raw) (fun _ => ret tt) s1) as [r s2].
  simpl in Hok. subst r. by exists o.
Qed.

Lemma spec_total {A} (J : st -> Prop) (c : M A) :
  preserves J c -> (forall s, exists a, (c s).1 = Ok a) ->
  spec J c (fun r s1 => J s1 /\ exists a, r = Ok a).
Proof. intros Hc Ht s Hs. split; [by apply Hc|apply Ht]. Qed.

(** X10. [fix_video] raises in two situations only, both before the [try]
    block: a temporary file cannot be created (an OSError), or the probe of
    the original fails (the Exception of [_get_video_info]).  When it raises,
    ffmpeg has not been started and the original file is as it was. *)
Theorem fix_video_raises_before_ffmpeg (d : self) (vi : VideoInfo.t)
    (out : option string) (quality : string) (del : bool) (s : st) (e : exn)
    (n : node) :
  (fix_video d vi out quality del s).1 = Raise e ->
  fs s !! VideoInfo.filepath vi = Some n ->
  let s' := (fix_video d vi out quality del s).2 in
  (exn_cls e = OSError \/ exn_cls e = Exception)
  /\ encodes s' = encodes s
  /\ ffmpeg_runs s' = ffmpeg_runs s
  /\ fs s' !! VideoInfo.filepath vi = Some n.
Proof.
  intros Hr Hn. cbv zeta.
  set (orig := VideoInfo.filepath vi) in *.
  assert (Hspec : spec (before_ffmpeg (encodes s) (ffmpeg_runs s) orig n)
                    (fix_video d vi out quality del)
                    (fun r s1 =>
                       match r with
                       | Raise e =>
                           before_ffmpeg (encodes s) (ffmpeg_runs s) orig n s1
                           /\ (exn_cls e = OSError \/ exn_cls e = Exception)
                       | Ok _ => True
                       end)).
  { unfold fix_video. fold orig.
    destruct (negb (has_ffmpeg d)); [by apply spec_ret|].
    destruct (bool_decide _); [by apply spec_ret|].
    eapply spec_bind
      with (Q := fun r s1 =>
                   before_ffmpeg (encodes s) (ffmpeg_runs s) orig n s1
                   /\ match r with
                      | Raise e => exn_cls e = OSError
                      | Ok _ => True
                      end).
    { destruct out as [o|]; [by apply spec_ret|].
      eapply spec_bind; [apply mkstemp_before_ffmpeg| |by intros e' s1 [? ?]].
      intros t s1 [Hs1 _]. split; [|done]. revert s1 Hs1.
      match goal with
      | |- forall s1, _ -> ?J (?c s1).2 => change (preserves J c)
      end.
      preserves_go before_ffmpeg_close. }
    2: { intros e' s1 [? ?]. split; [done|by left]. }
    intros [t outp].
    eapply spec_conseq
      with (P' := before_ffmpeg (encodes s) (ffmpeg_runs s) orig n);
      [|by intros s1 [? _]|intros r s1 H; exact H].
    eapply spec_bind; [apply spec_total| |by intros e' s1 [_ [? ?]]].
    { preserves_go before_ffmpeg_close. }
    { intros s1. destruct (str_truthy _); [|by eexists].
      unfold bind, exists_, get, ret. simpl. by eexists. }
    intros dir_missing.
    eapply spec_conseq
      with (P' := before_ffmpeg (encodes s) (ffmpeg_runs s) orig n);
      [|by intros s1 [? _]|intros r s1 H; exact H].
    eapply spec_bind; [apply spec_total| |by intros e' s1 [_ [? ?]]].
    { preserves_go before_ffmpeg_close. }
    { intros s1. destruct dir_missing; [|by eexists].
      unfold try_except, ret.
      match goal with |- context [match ?c s1 with _ => _ end] =>
        destruct (c s1) as [[a|e'] s2] end; by eexists. }
    intros [msg|].
    { apply spec_ret. done. }
    eapply spec_conseq
      with (P' := before_ffmpeg (encodes s) (ffmpeg_runs s) orig n);
      [|by intros s1 [? _]|intros r s1 H; exact H].
    eapply spec_bind; [apply get_video_info_before_ffmpeg| |].
    2: { intros e' s1 [? ?]. split; [done|by right]. }
    intros orig_info.
    eapply spec_conseq
      with (P' := before_ffmpeg (encodes s) (ffmpeg_runs s) orig n);
      [|by intros s1 [? _]|intros r s1 H; exact H].
    eapply spec_bind; [apply mkstemp_before_ffmpeg| |].
    2: { intros e' s1 [? ?]. split; [done|by left]. }
    intros raw s1 _. unfold bind at 1, registry_add, modify.
    match goal with
    | |- match (try_finally _ _ ?s2).1 with _ => _ end =>
        destruct (guarded_never_raises d vi orig t outp raw quality
                    (quality_settings quality) (info_or orig_info "width" 1920)
                    (info_or orig_info "height" 1080) (info_or orig_info "fps" 30) s2)
          as [oc Hoc]
    end.
    unfold guarded in Hoc. by rewrite Hoc. }
  specialize (Hspec s). rewrite Hr in Hspec.
  destruct Hspec as [(He & Hruns & Hfs) Hcls]; [by repeat split|].
  by repeat split.
Qed.

(** the probe of the original fails *)
Lemma fix_video_raises_before_ffmpeg_witness :
  let s := Samples.world [Samples.bad] [FfmpegExit 0 (Some "raw")] in
  let r := fix_video Samples.both_tools Samples.flagged_record None "medium" false s in
  r.1 = Raise (mk_exn Exception
                 "获取视频信息时出错: FFprobe执行失败: Invalid data found")
  /\ encodes r.2 = encodes s
  /\ ffmpeg_runs r.2 = []
  /\ fs r.2 !! "/v/a.mp4" = Some (File "0123456789").
Proof.
  intros s r.
  assert (Hr : r.1 = Raise (mk_exn Exception
                              "获取视频信息时出错: FFprobe执行失败: Invalid data found"))
    by reflexivity.
  destruct (fix_video_raises_before_ffmpeg Samples.both_tools Samples.flagged_record
              None "medium" false s _ (File "0123456789") Hr eq_refl)
    as (_ & He & Hruns & Hfs).
  split; [exact Hr|]. split; [exact He|]. split; [exact Hruns|exact Hfs].
Defined.

(** *** The frame size given to the second stage *)

Ltac geometry_close :=
  let evs := fresh "evs" in
  let Ht := fresh "Ht" in
  let Hg := fresh "Hg" in
  let c := fresh "c" in
  let Hin := fresh "Hin" in
  match goal with
  | H : geometry_is _ _ _ |- _ => destruct H as (evs & Ht & Hg)
  end;
  unfold geometry_is; simpl; rewrite Ht, <- ?app_assoc;
  eexists; (split; [reflexivity|]);
  intros c Hin; rewrite ?in_app_iff in Hin; simpl in Hin;
  intuition (simplify_eq/=; auto).

Lemma guarded_geometry (g : pyval * pyval * pyval) (T : list event)
    d vi orig temp outp raw quality settings :
  preserves (geometry_is g T)
    (guarded d vi orig temp outp raw quality settings g.1.1 g.1.2 g.2).
Proof.
  destruct g as [[w h] r]. simpl. unfold guarded.
  preserves_go geometry_close.
Qed.

(** X11. Without ffprobe, [fix_video] cannot read the size and the frame
    rate of the original, and every second stage it runs tells ffmpeg that
    the raw frames are 1920x1080 at 30 frames per second, whatever the file
    is. *)
Theorem repair_without_ffprobe_assumes_1080p (d : self) (vi : VideoInfo.t)
    (out : option string) (quality : string) (del : bool) (s : st) :
  has_ffprobe d = false ->
  geometry_is (PyInt 1920, PyInt 1080, PyInt 30) (trace s)
    (fix_video d vi out quality del s).2.
Proof.
  intros Hd.
  set (g := (PyInt 1920, PyInt 1080, PyInt 30)).
  assert (H0 : geometry_is g (trace s) s).
  { exists []. by rewrite app_nil_r. }
  revert H0. generalize (trace s) as T. intros T. revert s.
  change (preserves (geometry_is g T) (fix_video d vi out quality del)).
  unfold fix_video.
  destruct (negb (has_ffmpeg d)); [apply preserves_ret|].
  destruct (bool_decide _); [apply preserves_ret|].
  apply preserves_bind; [preserves_go geometry_close|]. intros [t outp].
  apply preserves_bind; [preserves_go geometry_close|]. intros dir_missing.
  apply preserves_bind; [preserves_go geometry_close|].
  intros [msg|]; [apply preserves_ret|].
  unfold _get_video_info at 1. rewrite Hd. simpl negb. cbv iota.
  lazymatch goal with
  | |- preserves _ (bind (ret ?a) ?k) => change (bind (ret a) k) with (k a); cbv beta iota
  end.
  apply preserves_bind; [preserves_go geometry_close|]. intros raw.
  apply preserves_bind; [preserves_go geometry_close|]. intros _.
  apply (guarded_geometry g T).
Qed.

(** a repair with ffmpeg alone *)
Lemma repair_without_ffprobe_assumes_1080p_witness :
  let d := {| ffmpeg_path := Some "/usr/bin/ffmpeg"; ffprobe_path := None |} in
  let s := Samples.world [] [FfmpegExit 0 (Some "raw"); FfmpegExit 0 (Some "video")] in
  let s' := (fix_video d Samples.flagged_record None "medium" false s).2 in
  geometry_is (PyInt 1920, PyInt 1080, PyInt 30) [] s'
  /\ ffmpeg_runs s'
     = [Stage1 "/v/a.mp4" "/v/raw_temp_q7w2.yuv";
        Stage2 (PyInt 1920) (PyInt 1080) (PyInt 30) "/v/raw_temp_q7w2.yuv" "/v/a.mp4"
          "medium" "23" "/v/temp_fix_k3x9.mp4"].
Proof.
  intros d s s'. split; [|reflexivity].
  apply (repair_without_ffprobe_assumes_1080p d Samples.flagged_record None "medium"
           false s).
  reflexivity.
Defined.

(** *** A repair in place that succeeds *)

Lemma last_char_app (a b : string) (d : ascii) :
  last_char (a +:+ b) d = last_char b (last_char a d).
Proof. revert d. induction a as [|c r IH]; intros d; simpl; [done|apply IH]. Qed.

Lemma first_free_shape (f : gmap string node) (dir prefix suffix : string)
    (names rest : list string) (p : string) :
  first_free f dir prefix suffix names = (Some p, rest) ->
  exists name, p = OsPath.join dir (prefix +:+ name +:+ suffix).
Proof.
  induction names as [|n names IH]; simpl; [done|].
  destruct (f !! OsPath.join dir (prefix +:+ n +:+ suffix)).
  - exact IH.
  - intros [= <- _]. by exists n.
Qed.

(** a temporary output file is never the backup name of the original *)
Lemma temp_fix_not_backup (dir name x : string) :
  OsPath.join dir ("temp_fix_" +:+ name +:+ ".mp4") <> x +:+ ".bak".
Proof.
  intros E.
  assert (H : last_char (OsPath.join dir ("temp_fix_" +:+ name +:+ ".mp4")) "000"
              = "4"%char).
  { unfold OsPath.join. simpl.
    destruct (_ || _); rewrite !last_char_app; reflexivity. }
  rewrite E, last_char_app in H. discriminate H.
Qed.

Lemma length_append (a b : string) :
  String.length (a +:+ b) = (String.length a + String.length b)%nat.
Proof. induction a as [|c r IH]; simpl; [done|by rewrite IH]. Qed.

Lemma not_its_backup (x : string) : x +:+ ".bak" <> x.
Proof.
  intros E. apply (f_equal String.length) in E.
  rewrite length_append in E. simpl in E. lia.
Qed.

Ltac encoded_close :=
  match goal with
  | H : encoded _ _ _ _ _ _ _ |- _ => destruct H as (? & ? & ? & ? & ?)
  end;
  unfold encoded; simpl;
  repeat match goal with
         | H : first_free _ _ _ _ _ = (Some _, _) |- _ => apply first_free_fresh in H
         end;
  rewrite ?in_app_iff;
  repeat split;
  first [ assumption
        | by auto
        | rewrite lookup_insert_ne by congruence;
          first [ assumption | rewrite lookup_delete_ne by congruence; assumption ]
        | rewrite lookup_delete_ne by congruence; assumption ].

Lemma output_paths_encoded (E : list ffmpeg_reply) (C orig : string) (n : node)
    (dir : string) :
  spec (fun s => encodes s = E /\ clock s = C /\ fs s !! orig = Some n)
    (temp_output_path <- mkstemp ".mp4" "temp_fix_" dir ;;
     registry_add temp_output_path ;;;
     ret (temp_output_path, orig))%py
    (fun r s => match r with
                | Ok (t, o) =>
                    o = orig /\ encoded E C orig n t "" s
                    /\ t <> orig /\ t <> orig +:+ ".bak"
                | Raise _ => True
                end).
Proof.
  intros s (He & Hc & Hn). prim_unfold. simpl.
  repeat (case_match; simplify_eq/=); try done.
  all: match goal with
       | H : first_free _ _ _ _ _ = _ |- _ =>
           pose proof (first_free_fresh _ _ _ _ _ _ _ H) as Hfresh;
           apply first_free_shape in H as [name Hname]
       end.
  all: split; [done|]; split;
    [|split; [congruence|rewrite Hname; apply temp_fix_not_backup]].
  all: unfold encoded; simpl; repeat split; try done.
  all: try (rewrite lookup_insert_ne by congruence; done).
  all: try (rewrite lookup_insert_eq; done).
  all: rewrite !in_app_iff; simpl; auto.
Qed.

Lemma mkstemp_raw_encoded E C orig n t b (prefix dir : string) :
  spec (encoded E C orig n t b) (mkstemp ".yuv" prefix dir)
    (fun r s => encoded E C orig n t b s
                /\ forall raw, r = Ok raw -> raw <> orig /\ raw <> t).
Proof.
  intros s Hs. prim_unfold. simpl.
  repeat (case_match; simplify_eq/=); (split; [encoded_close|]); try done.
  all: intros raw [= <-]; destruct Hs as (_ & _ & Hn & Ht & _);
    match goal with
    | H : first_free _ _ _ _ _ = _ |- _ => apply first_free_fresh in H
    end; split; congruence.
Qed.

Lemma stage1_encoded E C orig n t b raw :
  raw <> orig -> raw <> t ->
  spec (encoded E C orig n t b) (run_ffmpeg (Stage1 orig raw))
    (fun r s => match r with
                | Ok rc => exists w rest,
                             E = FfmpegExit rc w :: rest /\ encoded rest C orig n t b s
                | Raise _ => True
                end).
Proof.
  intros Hraw Hrt s Hs. destruct Hs as (He & Hc & Hn & Ht & Hin).
  destruct (encodes s) as [|[msg|rc w] rest] eqn:Henc.
  1, 2: unfold run_ffmpeg, bind, modify, get, os_error, raise, ret; simpl;
    by rewrite Henc.
  rewrite (run_ffmpeg_exit _ s rc w rest Henc). simpl.
  exists w, rest. split; [done|].
  unfold after_ffmpeg.
  destruct w as [bytes|]; unfold encoded; simpl; rewrite ?in_app_iff;
    rewrite ?lookup_insert_ne by congruence; auto 10.
Qed.

Lemma stage2_encoded E C orig n t b raw w h fps preset crf :
  t <> orig ->
  spec (encoded E C orig n t b)
    (run_ffmpeg (Stage2 w h fps raw orig preset crf t))
    (fun r s => match r with
                | Ok rc =>
                    exists w2 rest,
                      E = FfmpegExit rc w2 :: rest
                      /\ encoded rest C orig n t
                           (match w2 with Some b' => b' | None => b end) s
                | Raise _ => True
                end).
Proof.
  intros Hto s Hs. destruct Hs as (He & Hc & Hn & Ht & Hin).
  destruct (encodes s) as [|[msg|rc w2] rest] eqn:Henc.
  1, 2: unfold run_ffmpeg, bind, modify, get, os_error, raise, ret; simpl;
    by rewrite Henc.
  rewrite (run_ffmpeg_exit _ s rc w2 rest Henc). simpl.
  exists w2, rest. split; [done|].
  unfold after_ffmpeg.
  destruct w2 as [bytes|]; unfold encoded; simpl; rewrite ?in_app_iff;
    rewrite ?lookup_insert_ne by congruence; rewrite ?lookup_insert_eq; auto 10.
Qed.

Lemma replace_original_replaces rest C orig n t b :
  t <> orig -> t <> orig +:+ ".bak" ->
  spec (encoded rest C orig n t b) (replace_original orig t orig)
    (fun r s => match r with
                | Ok None => replaced rest C orig t b s
                | _ => True
                end).
Proof.
  intros Hto Hbak s Hs. destruct Hs as (He & Hc & Hn & Ht & Hin).
  pose proof (not_its_backup orig) as Hb.
  destruct (replace_original orig t orig s) as [r s'] eqn:Hrun. simpl.
  unfold replace_original, try_except, remove, rename, move, registry_discard,
    exists_, fs_call, os_error, bind, ret, raise, get, modify in Hrun.
  simpl in Hrun.
  repeat (case_match; simplify_eq/=); try done.
  all: try match goal with
       | H : bool_decide (is_Some (fs ?s0 !! ?k)) = false,
         H' : fs ?s0 !! ?k = Some _ |- _ =>
           rewrite H' in H; discriminate H
       end.
  all: unfold replaced; simpl; rewrite ?in_app_iff; simplify_map_eq; auto 10.
Qed.

Lemma spec_exists {A X} (P : X -> st -> Prop) (c : M A) (Q : res A -> st -> Prop) :
  (forall x, spec (P x) c Q) -> spec (fun s => exists x, P x s) c Q.
Proof. intros H s [x Hx]. by apply (H x). Qed.

Lemma spec_pure {A} (F : Prop) (P : st -> Prop) (c : M A) (Q : res A -> st -> Prop) :
  (F -> spec P c Q) -> spec (fun s => F /\ P s) c Q.
Proof. intros H s [HF Hs]. by apply H. Qed.

Lemma spec_pure_r {A} (F : Prop) (P : st -> Prop) (c : M A) (Q : res A -> st -> Prop) :
  (F -> spec P c Q) -> spec (fun s => P s /\ F) c Q.
Proof. intros H s [Hs HF]. by apply H. Qed.

Ltac replaced_close :=
  match goal with
  | H : replaced _ _ _ _ _ _ |- _ => destruct H as (? & ? & ? & ? & ?)
  end;
  unfold replaced; simpl; rewrite ?in_app_iff;
  repeat split;
  first [ assumption
        | by auto
        | by simplify_map_eq ].

Lemma remove_raw_replaced rest C orig t b (raw : string) :
  raw <> orig ->
  preserves (replaced rest C orig t b)
    (try_except (remove_raw raw) (fun _ => ret tt)).
Proof. intros Hraw. preserves_go replaced_close. Qed.

(** the [try] block of a repair in place, from the creation of the raw
    file on *)
Lemma two_stage_replaces E C orig n t raw d vi quality settings w h fps :
  t <> orig -> raw <> orig -> raw <> t -> t <> orig +:+ ".bak" ->
  spec (encoded E C orig n t "")
    (two_stage d vi orig t orig raw quality settings w h fps)
    (repaired_in_place E C orig t vi).
Proof.
  intros Hto Hro Hrt Hbak. unfold two_stage.
  assert (Hfail : forall m s, repaired_in_place E C orig t vi (Ok (vi, (false, m))) s).
  { intros m s vi' msg [=]. }
  assert (Hraise : forall e s, repaired_in_place E C orig t vi (Raise e) s).
  { intros e s vi' msg [=]. }
  eapply spec_bind; [by apply stage1_encoded| |auto].
  intros rc1. destruct (Z.eqb_spec rc1 0) as [->|Hrc1]; simpl;
    [|apply spec_ret; auto].
  apply spec_exists. intros w1. apply spec_exists. intros rest1.
  apply spec_pure. intros ->.
  eapply spec_bind; [by apply stage2_encoded| |auto].
  intros rc2. destruct (Z.eqb_spec rc2 0) as [->|Hrc2]; simpl;
    [|apply spec_ret; auto].
  apply spec_exists. intros w2. apply spec_exists. intros rest.
  apply spec_pure. intros ->.
  set (b := match w2 with Some b' => b' | None => "" end).
  eapply spec_bind
    with (Q := fun r s => encoded rest C orig n t b s /\ r = Ok true).
  { intros s Hs. split; [exact Hs|]. destruct Hs as (_ & _ & _ & Ht & _).
    unfold exists_, get. simpl. rewrite Ht. reflexivity. }
  2: { intros e s [_ [=]]. }
  intros e. apply spec_pure_r. intros [= ->].
  eapply spec_bind
    with (Q := fun r s => encoded rest C orig n t b s
                          /\ r = Ok (Z.of_nat (String.length b) =? 0)).
  { intros s Hs. pose proof Hs as (_ & _ & _ & Ht & _).
    unfold getsize, bind, get, ret. simpl. rewrite Ht. simpl.
    split; [exact Hs|reflexivity]. }
  2: { intros e s [_ [=]]. }
  intros empty. apply spec_pure_r. intros [= ->].
  destruct (Z.eqb_spec (Z.of_nat (String.length b)) 0) as [Hz|Hz];
    [apply spec_ret; auto|].
  assert (Hb : b <> "") by (intros Eb; rewrite Eb in Hz; by apply Hz).
  destruct w2 as [b'|]; [|done]. subst b.
  eapply spec_bind with (Q := fun _ => encoded rest C orig n t b'); [| |auto].
  { as_preserves. preserves_go encoded_close. }
  intros _.
  eapply spec_bind with (Q := fun _ => encoded rest C orig n t b'); [| |auto].
  { as_preserves. preserves_go encoded_close. }
  intros _.
  rewrite (proj2 (String.eqb_neq t orig) Hto). simpl.
  eapply spec_bind; [by apply replace_original_replaces| |auto].
  intros [m|]; [apply spec_ret; auto|].
  eapply spec_bind
    with (Q := fun r s => replaced rest C orig t b' s /\ r = Ok C).
  { intros s Hs. split; [exact Hs|]. destruct Hs as (_ & Hc & _).
    unfold get. simpl. by rewrite Hc. }
  2: { intros e s [_ [=]]. }
  intros now. apply spec_pure_r. intros [= ->].
  eapply spec_bind with (Q := fun _ => replaced rest C orig t b'); [| |auto].
  { as_preserves. preserves_go replaced_close. }
  intros _. apply spec_ret. intros s Hs vi' msg [= <- <-].
  exists w1, b', rest. split; [reflexivity|]. split; [exact Hb|].
  split; [exact Hs|]. by repeat split.
Qed.

Lemma guarded_replaces E C orig n t raw d vi quality settings w h fps :
  t <> orig -> raw <> orig -> raw <> t -> t <> orig +:+ ".bak" ->
  spec (encoded E C orig n t "")
    (guarded d vi orig t orig raw quality settings w h fps)
    (repaired_in_place E C orig t vi).
Proof.
  intros Hto Hro Hrt Hbak. unfold guarded.
  eapply spec_try_finally with (Q := repaired_in_place E C orig t vi).
  - eapply spec_try_except; [by apply two_stage_replaces|auto|].
    intros e. apply spec_ret. intros s _ vi' msg [=].
  - intros r s Hr.
    destruct (finally_removes_raw raw s) as [Hok _].
    pose proof (fun rest b => remove_raw_replaced rest C orig t b raw Hro s) as Hkeep.
    destruct (try_except (remove_raw raw) (fun _ => ret tt) s) as [rf s2].
    simpl in *. subst rf.
    intros vi' msg Hsucc.
    destruct (Hr vi' msg Hsucc) as (w1 & b & rest & HE & Hb & Hrep & Hrest).
    exists w1, b, rest. split; [done|]. split; [done|]. split; [|done].
    by apply Hkeep.
Qed.

(** X12. A repair in place ([output_path] None) of a file that is on disk
    reports success only after two ffmpeg runs that both exited with code 0,
    the second having written a non-empty output.  Then the original path
    holds exactly the bytes that the second stage wrote, the temporary
    output file is gone (it was moved there, after the original was removed
    or, if that failed, renamed to its ".bak" name), and the record is marked
    fixed, with the original path as [fixed_path] and the time of the clock
    as [fixed_time]. *)
Theorem in_place_repair_replaces_original (d : self) (vi : VideoInfo.t)
    (quality : string) (del : bool) (s : st) (n : node)
    (vi' : VideoInfo.t) (msg : string) :
  fs s !! VideoInfo.filepath vi = Some n ->
  VideoInfo.status_ vi <> STATUS_OK ->
  (fix_video d vi None quality del s).1 = Ok (vi', (true, msg)) ->
  exists t w1 b rest,
    encodes s = FfmpegExit 0 w1 :: FfmpegExit 0 (Some b) :: rest
    /\ b <> ""
    /\ replaced rest (clock s) (VideoInfo.filepath vi) t b
         (fix_video d vi None quality del s).2
    /\ VideoInfo.status_ vi' = STATUS_FIXED
    /\ VideoInfo.fixed_path vi' = PyStr (VideoInfo.filepath vi)
    /\ VideoInfo.fixed_time vi' = PyStr (clock s)
    /\ VideoInfo.filepath vi' = VideoInfo.filepath vi.
Proof.
  intros Hn Hst Hr.
  set (orig := VideoInfo.filepath vi) in *.
  assert (Hspec : spec (fun s1 => encodes s1 = encodes s /\ clock s1 = clock s
                                  /\ fs s1 !! orig = Some n)
                    (fix_video d vi None quality del)
                    (fun r s1 =>
                       forall vi' msg, r = Ok (vi', (true, msg)) ->
                       exists t, repaired_in_place (encodes s) (clock s) orig t vi r s1)).
  { unfold fix_video. fold orig.
    destruct (negb (has_ffmpeg d)); [apply spec_ret; by intros s1 _ ? ? [=]|].
    rewrite bool_decide_eq_false_2 by exact Hst.
    eapply spec_bind; [apply output_paths_encoded| |by intros e s1 _ ? ? [=]].
    intros [t outp].
    apply spec_pure. intros ->. apply spec_pure_r. intros [Hto Hbak].
    eapply spec_conseq
      with (P' := encoded (encodes s) (clock s) orig n t "")
           (Q' := fun r s1 => repaired_in_place (encodes s) (clock s) orig t vi r s1);
      [|auto|intros r s1 H ? ? _; by exists t].
    assert (Hraise : forall e s1,
               repaired_in_place (encodes s) (clock s) orig t vi (Raise e) s1).
    { intros e s1 ? ? [=]. }
    eapply spec_bind
      with (Q := fun _ => encoded (encodes s) (clock s) orig n t ""); [| |auto].
    { as_preserves. preserves_go encoded_close. }
    intros dir_missing.
    eapply spec_bind
      with (Q := fun _ => encoded (encodes s) (clock s) orig n t ""); [| |auto].
    { as_preserves. preserves_go encoded_close. }
    intros [m|]; [apply spec_ret; by intros s1 _ ? ? [=]|].
    eapply spec_bind
      with (Q := fun _ => encoded (encodes s) (clock s) orig n t ""); [| |auto].
    { as_preserves. preserves_go encoded_close. }
    intros orig_info.
    eapply spec_bind; [apply mkstemp_raw_encoded| |auto].
    intros raw. apply spec_pure_r. intros Hraw.
    destruct (Hraw raw eq_refl) as [Hro Hrt].
    eapply spec_bind
      with (Q := fun _ => encoded (encodes s) (clock s) orig n t ""); [| |auto].
    { as_preserves. preserves_go encoded_close. }
    intros _. by apply guarded_replaces. }
  destruct (Hspec s ltac:(done) vi' msg Hr) as [t Ht].
  exists t. rewrite Hr in Ht. exact (Ht vi' msg eq_refl).
Qed.

(** a repair in place that goes through *)
Lemma in_place_repair_replaces_original_witness :
  let d := Samples.both_tools in
  let vi := Samples.flagged_record in
  let s := Samples.world (replicate 4 (Samples.good Samples.clean_doc))
             [FfmpegExit 0 (Some "raw"); FfmpegExit 0 (Some "video")] in
  let r := fix_video d vi None "medium" false s in
  exists vi',
    r.1 = Ok (vi', (true, "视频修复成功: a.mp4"))
    /\ VideoInfo.status_ vi' = STATUS_FIXED
    /\ fs r.2 !! "/v/a.mp4" = Some (File "video")
    /\ fs r.2 !! "/v/temp_fix_k3x9.mp4" = None
    /\ encodes r.2 = [].
Proof.
  intros d vi s r.
  set (vi' := VideoInfo.set_fixed (PyStr "/v/a.mp4") (PyStr "2024-05-01 12:00:00")
                (PyStr "质量: medium, 预设: medium, CRF: 23, 两阶段完全重编码")
                (VideoInfo.set_status STATUS_FIXED vi)).
  assert (Hr : r.1 = Ok (vi', (true, "视频修复成功: a.mp4")))
    by (vm_compute; reflexivity).
  destruct (in_place_repair_replaces_original d vi "medium" false s
              (File "0123456789") vi' "视频修复成功: a.mp4" eq_refl
              ltac:(discriminate) Hr)
    as (t & w1 & b & rest & HE & _ & _ & Hst & _).
  exists vi'. split; [exact Hr|]. split; [exact Hst|].
  repeat split; vm_compute; reflexivity.
Defined.

(** *** The list of records of the application *)

Import VideoDetectorApp.

Lemma existsb_filepath (l : list VideoInfo.t) (p : string) :
  existsb (fun info => String.eqb (VideoInfo.filepath info) p) l = true
  <-> In p (map VideoInfo.filepath l).
Proof.
  rewrite existsb_exists, in_map_iff. split.
  - intros (x & Hx & E%String.eqb_eq). by exists x.
  - intros (x & E & Hx). exists x. split; [done|]. by apply String.eqb_eq.
Qed.

(** X13. [_add_to_file_list] keeps the paths of the list pairwise
    distinct (as texts) and touches nothing on disk: a path that is already
    listed leaves the list as it is, a new path of an existing file is
    appended as a fresh record, and a path with no file behind it raises
    (the OSError of [os.path.getsize] in [VideoInfo.__init__]) and leaves
    the list as it is. *)
Theorem add_to_file_list_keeps_paths_distinct (l : list VideoInfo.t) (p : string)
    (s : st) :
  NoDup (map VideoInfo.filepath l) ->
  (_add_to_file_list l p s).2 = s
  /\ match (_add_to_file_list l p s).1 with
     | Ok l' =>
         NoDup (map VideoInfo.filepath l')
         /\ In p (map VideoInfo.filepath l')
         /\ (In p (map VideoInfo.filepath l) -> l' = l)
         /\ (~ In p (map VideoInfo.filepath l) ->
             exists size,
               l' = l ++ [VideoInfo.init p (OsPath.basename p) size]
               /\ is_Some (fs s !! p))
     | Raise e =>
         ~ In p (map VideoInfo.filepath l) /\ fs s !! p = None
         /\ exn_cls e = OSError
     end.
Proof.
  intros Hnd. unfold _add_to_file_list.
  destruct (existsb _ l) eqn:Hex.
  - apply existsb_filepath in Hex. simpl. by repeat split.
  - assert (Hnot : ~ In p (map VideoInfo.filepath l)).
    { intros Hin. apply existsb_filepath in Hin. congruence. }
    unfold getsize, bind, get, ret, os_error, raise. simpl.
    destruct (fs s !! p) as [[c|]|] eqn:Hp; simpl; (split; [done|]).
    3: { by repeat split. }
    all: split; [rewrite map_app; simpl; apply NoDup_app; split; [done|];
                 split; [intros x Hx [->|[]]%list_elem_of_In; apply Hnot;
                         by apply list_elem_of_In|apply NoDup_singleton]|].
    all: split; [rewrite map_app, in_app_iff; right; by left|].
    all: split; [done|]; intros _; eexists; split; [reflexivity|eauto].
Qed.

(** a path added twice, and a path with no file *)
Lemma add_to_file_list_keeps_paths_distinct_witness :
  let s := Samples.world [] [] in
  let l := [VideoInfo.init "/v/a.mp4" "a.mp4" 10] in
  (_add_to_file_list [] "/v/a.mp4" s).1 = Ok l
  /\ (_add_to_file_list l "/v/a.mp4" s).1 = Ok l
  /\ NoDup (map VideoInfo.filepath l)
  /\ exists e, (_add_to_file_list l "/v/b.mp4" s).1 = Raise e.
Proof.
  intros s l.
  assert (Hnd : NoDup (map VideoInfo.filepath l)).
  { pose proof (add_to_file_list_keeps_paths_distinct [] "/v/a.mp4" s
                  (NoDup_nil_2 : NoDup (map VideoInfo.filepath []))) as [_ H].
    change ((_add_to_file_list [] "/v/a.mp4" s).1) with (Ok l) in H.
    by destruct H as [H _]. }
  split; [reflexivity|]. split; [reflexivity|]. split; [exact Hnd|].
  eexists. reflexivity.
Defined.

Lemma detect_video_missing (d : self) (path : string) (s : st) :
  fs s !! path = None -> detect_video d path s = (Ok None, s).
Proof.
  intros Hp. unfold detect_video, bind. rewrite exists_run, Hp. reflexivity.
Qed.

Lemma detection_loop_spec (d : self) (todo done : list VideoInfo.t) (s : st) :
  fs (detection_loop d done todo s).2 = fs s
  /\ exists new,
       (detection_loop d done todo s).1 = (done ++ new, None)
       /\ map VideoInfo.filepath new = map VideoInfo.filepath todo
       /\ Forall (status_after_detection (fs s)) new.
Proof.
  revert done s. induction todo as [|info rest IH]; intros done s; simpl.
  - split; [done|]. exists []. by rewrite app_nil_r.
  - pose proof (detect_video_quiet (fs s) (temp_files s) (encodes s) d
                  (VideoInfo.filepath info) s) as Hq.
    destruct Hq as (Hfs & _); [done|].
    destruct (fs s !! VideoInfo.filepath info) as [n|] eqn:Hp.
    + destruct (detect_video_detected d (VideoInfo.filepath info) s)
        as (detected_info & Hr & Hpath & _ & Hst); [by rewrite Hp|].
      destruct (detect_video d (VideoInfo.filepath info) s) as [r s1].
      simpl in *. subst r.
      destruct (IH (done ++ [detected_info]) s1) as (Hfs' & new & Hrun & Hpaths & Hall).
      split; [congruence|]. exists (detected_info :: new).
      rewrite Hrun, <- app_assoc. split; [done|]. simpl. rewrite Hpaths, Hpath.
      split; [done|]. constructor; [|by rewrite <- Hfs].
      unfold status_after_detection. rewrite Hpath, Hp. tauto.
    + rewrite detect_video_missing by done.
      destruct (IH (done ++ [VideoInfo.set_status STATUS_PROCESSING info]) s)
        as (Hfs' & new & Hrun & Hpaths & Hall).
      split; [done|].
      exists (VideoInfo.set_status STATUS_PROCESSING info :: new).
      rewrite Hrun, <- app_assoc. split; [done|]. simpl. rewrite Hpaths.
      split; [done|]. constructor; [|done].
      unfold status_after_detection. simpl. by rewrite Hp.
Qed.

Lemma counts_after_detection (F : gmap string node) (l : list VideoInfo.t) :
  Forall (status_after_detection F) l ->
  count_status STATUS_OK l + count_status STATUS_ERROR l = listed_on_disk F l.
Proof.
  unfold count_status, listed_on_disk.
  induction 1 as [|info l Hinfo Hall IH]; simpl; [done|].
  unfold status_after_detection in Hinfo.
  destruct (F !! VideoInfo.filepath info) as [n|]; simpl.
  - destruct Hinfo as [-> | ->]; simpl; lia.
  - rewrite Hinfo. simpl. lia.
Qed.

Lemma listed_on_disk_paths (F : gmap string node) (l1 l2 : list VideoInfo.t) :
  map VideoInfo.filepath l1 = map VideoInfo.filepath l2 ->
  listed_on_disk F l1 = listed_on_disk F l2.
Proof.
  unfold listed_on_disk. intros H. f_equal. revert l2 H.
  induction l1 as [|x l1 IH]; intros [|y l2] [=]; [done|]. simpl.
  rewrite H0. destruct (bool_decide _); simpl; by rewrite (IH l2).
Qed.

(** X14. A detection pass never raises and changes no file.  It leaves the
    records in their order, each on its path; the record of a file that is
    on disk ends with the status ok or error, and the record of a file that
    is no longer there is left with the status processing, which nothing
    resets.  The report counts every file on disk once: the number of ok
    records plus the number of error records is the number of listed files
    that exist. *)
Theorem detection_worker_report (d : self) (l : list VideoInfo.t) (s : st) :
  let r := _detection_worker d l s in
  fs r.2 = fs s
  /\ map VideoInfo.filepath r.1.1 = map VideoInfo.filepath l
  /\ Forall (status_after_detection (fs s)) r.1.1
  /\ exists ok_count error_count,
       r.1.2 = Some (ok_count, error_count)
       /\ ok_count + error_count = listed_on_disk (fs s) l.
Proof.
  cbv zeta. unfold _detection_worker.
  destruct (detection_loop_spec d l [] s) as (Hfs & new & Hrun & Hpaths & Hall).
  destruct (detection_loop d [] l s) as [[l' raised] s1]. simpl in *.
  injection Hrun as -> ->. simpl.
  split; [done|]. split; [done|]. split; [done|].
  eexists _, _. split; [reflexivity|].
  rewrite (counts_after_detection (fs s) new Hall).
  by apply listed_on_disk_paths.
Qed.

(** *** What a repair hands back *)

Lemma returns_ret {A} (a : A) (Q : A -> Prop) : Q a -> returns (ret a) Q.
Proof. intros H s b [= <-]. exact H. Qed.

Lemma returns_bind {A B} (c : M A) (k : A -> M B) (Q : B -> Prop) :
  (forall a, returns (k a) Q) -> returns (bind c k) Q.
Proof.
  intros H s b. unfold bind. destruct (c s) as [[a|e] s1] eqn:E; [|done].
  apply H.
Qed.

Lemma returns_try_except {A} (c : M A) (h : exn -> M A) (Q : A -> Prop) :
  returns c Q -> (forall e, returns (h e) Q) -> returns (try_except c h) Q.
Proof.
  intros Hc Hh s b. unfold try_except.
  destruct (c s) as [[a|e] s1] eqn:E.
  - intros [= <-]. apply (Hc s). by rewrite E.
  - apply Hh.
Qed.

Lemma returns_try_finally {A} (c : M A) (f : M unit) (Q : A -> Prop) :
  returns c Q -> returns (try_finally c f) Q.
Proof.
  intros Hc s b. unfold try_finally. destruct (c s) as [r s1] eqn:E.
  destruct (f s1) as [[u|e] s2]; [|done]. simpl. intros ->.
  apply (Hc s). by rewrite E.
Qed.

Ltac returns_go :=
  repeat first
    [ apply returns_ret
    | apply returns_bind; intros ?
    | apply returns_try_except; [|intros ?]
    | apply returns_try_finally
    | match goal with
      | |- returns (if ?b then _ else _) _ => destruct b
      | |- returns (match ?x with _ => _ end) _ => destruct x
      end ].

Lemma fix_video_returns (d : self) (vi : VideoInfo.t) (o : option string)
    (quality : string) (del : bool) :
  returns (fix_video d vi o quality del) (repair_outcome vi).
Proof.
  unfold fix_video.
  destruct (negb (has_ffmpeg d)); [by apply returns_ret|].
  case_bool_decide as Hok; [apply returns_ret; simpl; by left|].
  unfold two_stage. returns_go; simpl; try done.
  right. by eexists _, _, _.
Qed.

(** *** One repair from the list *)

Lemma record_at_lookup (l : list VideoInfo.t) (index : Z) (info : VideoInfo.t) :
  record_at l index = Some info ->
  in_range index l = true /\ l !! Z.to_nat index = Some info.
Proof.
  unfold record_at, in_range. destruct (0 <=? index) eqn:E; [|done].
  intros H. split; [|done]. apply lookup_lt_Some in H. simpl. lia.
Qed.

Lemma record_at_insert (l : list VideoInfo.t) (index : Z) (x info : VideoInfo.t) :
  record_at l index = Some info ->
  record_at (<[Z.to_nat index := x]> l) index = Some x
  /\ forall j, j <> index ->
       record_at (<[Z.to_nat index := x]> l) j = record_at l j.
Proof.
  unfold record_at. destruct (0 <=? index) eqn:E; [|done]. intros H. split.
  - apply list_lookup_insert_eq. by apply lookup_lt_Some in H.
  - intros j Hj. destruct (0 <=? j) eqn:Ej; [|done].
    apply list_lookup_insert_ne. lia.
Qed.

(** X15. [_fix_worker] changes the record at its index and no other, and
    keeps the record on its path.  The status it leaves follows the outcome
    of [fix_video] on the record marked as processing: fixed when the repair
    succeeds, error when it fails, and processing, as set before the call,
    when it raises.  It is never ok. *)
Theorem fix_worker_outcomes (d : self) (l : list VideoInfo.t) (index : Z)
    (info : VideoInfo.t) (output_path : option string) (quality : string)
    (delete_original : bool) (s : st) :
  record_at l index = Some info ->
  let run := fix_video d (VideoInfo.set_status STATUS_PROCESSING info)
               output_path quality delete_original s in
  let r := _fix_worker d l index output_path quality delete_original s in
  r.2 = run.2
  /\ length r.1 = length l
  /\ (forall j, j <> index -> record_at r.1 j = record_at l j)
  /\ exists info',
       record_at r.1 index = Some info'
       /\ VideoInfo.filepath info' = VideoInfo.filepath info
       /\ VideoInfo.status_ info' =
            match run.1 with
            | Ok (_, (true, _)) => STATUS_FIXED
            | Ok (_, (false, _)) => STATUS_ERROR
            | Raise _ => STATUS_PROCESSING
            end.
Proof.
  intros Hat. pose proof (record_at_lookup l index info Hat) as [Hin Hl].
  cbv zeta. unfold _fix_worker. rewrite Hin, Hl. simpl.
  pose proof (fix_video_returns d (VideoInfo.set_status STATUS_PROCESSING info)
                output_path quality delete_original s) as Hret.
  destruct (fix_video d (VideoInfo.set_status STATUS_PROCESSING info)
              output_path quality delete_original s) as [[[info' [[] msg]]|e] s1];
    simpl in *.
  - specialize (Hret _ eq_refl). simpl in Hret.
    destruct Hret as [[_ [=]]|(p & t & m & ->)].
    destruct (record_at_insert l index
                (VideoInfo.set_fixed p t m
                   (VideoInfo.set_status STATUS_FIXED
                      (VideoInfo.set_status STATUS_PROCESSING info))) info Hat)
      as [Hi Ho].
    split; [done|]. split; [by rewrite length_insert|]. split; [exact Ho|].
    eexists. split; [exact Hi|]. by split.
  - specialize (Hret _ eq_refl). simpl in Hret. subst info'.
    destruct (record_at_insert l index
                (VideoInfo.set_status STATUS_ERROR
                   (VideoInfo.set_status STATUS_PROCESSING info)) info Hat)
      as [Hi Ho].
    split; [done|]. split; [by rewrite length_insert|]. split; [exact Ho|].
    eexists. split; [exact Hi|]. by split.
  - destruct (record_at_insert l index
                (VideoInfo.set_status STATUS_PROCESSING info) info Hat)
      as [Hi Ho].
    split; [done|]. split; [by rewrite length_insert|]. split; [exact Ho|].
    eexists. split; [exact Hi|]. by split.
Qed.

(** a second stage that fails: the record goes back to error *)
Lemma fix_worker_outcomes_witness :
  let s := Samples.world [Samples.good Samples.hevc_doc]
             [FfmpegExit 0 (Some "raw"); FfmpegExit 1 (Some "partial")] in
  let r := _fix_worker Samples.both_tools [Samples.ok_record; Samples.flagged_record]
             1 (Some "/v/a_fixed.mp4") "medium" false s in
  record_at r.1 0 = Some Samples.ok_record
  /\ exists info',
       record_at r.1 1 = Some info'
       /\ VideoInfo.filepath info' = "/v/a.mp4"
       /\ VideoInfo.status_ info' = STATUS_ERROR.
Proof.
  intros s r.
  destruct (fix_worker_outcomes Samples.both_tools
              [Samples.ok_record; Samples.flagged_record] 1 Samples.flagged_record
              (Some "/v/a_fixed.mp4") "medium" false s eq_refl)
    as (_ & _ & Ho & info' & Hi & Hp & Hs).
  split; [exact (Ho 0 ltac:(lia))|].
  exists info'. split; [exact Hi|]. split; [exact Hp|exact Hs].
Defined.

Lemma error_indices_from_spec (l : list VideoInfo.t) (i j : Z) :
  In j (error_indices_from i l)
  <-> i <= j /\ exists info, l !! Z.to_nat (j - i) = Some info
                              /\ VideoInfo.status_ info = STATUS_ERROR.
Proof.
  revert i. induction l as [|x l IH]; intros i; simpl.
  - split; [done|]. by intros (_ & info & [=] & _).
  - assert (Hrest : In j (error_indices_from (i + 1) l)
                    <-> i < j /\ exists info, (x :: l) !! Z.to_nat (j - i) = Some info
                                  /\ VideoInfo.status_ info = STATUS_ERROR).
    { rewrite IH. split.
      - intros (Hle & info & Hl & Hs). split; [lia|]. exists info. split; [|done].
        replace (Z.to_nat (j - i)) with (S (Z.to_nat (j - (i + 1)))) by lia. done.
      - intros (Hlt & info & Hl & Hs). split; [lia|]. exists info. split; [|done].
        replace (Z.to_nat (j - i)) with (S (Z.to_nat (j - (i + 1)))) in Hl by lia.
        done. }
    case_bool_decide as Hx; simpl; rewrite Hrest; split.
    + intros [<-|(Hlt & H)]; [|split; [lia|done]].
      split; [lia|]. exists x. by rewrite Z.sub_diag.
    + intros (Hle & info & Hl & Hs).
      destruct (decide (i = j)) as [->|]; [by left|]. right. split; [lia|].
      by exists info.
    + intros (Hlt & H). split; [lia|done].
    + intros (Hle & info & Hl & Hs).
      destruct (decide (i = j)) as [->|].
      * rewrite Z.sub_diag in Hl. simpl in Hl. congruence.
      * split; [lia|]. by exists info.
Qed.

Lemma error_indices_records (l : list VideoInfo.t) (j : Z) :
  In j (error_indices_from 0 l)
  <-> exists info, record_at l j = Some info
                   /\ VideoInfo.status_ info = STATUS_ERROR.
Proof.
  rewrite error_indices_from_spec, Z.sub_0_r. unfold record_at. split.
  - intros (Hle & info & Hl & Hs). exists info.
    by destruct (0 <=? j) eqn:E; [|lia].
  - intros (info & Hl & Hs). destruct (0 <=? j) eqn:E; [|done].
    split; [lia|]. by exists info.
Qed.

(** X16. A repair that raises is not offered again.  When [fix_video] raises
    for the selected record, [_fix_selected] leaves that record with the
    status processing; from then on [_fix_selected] on the same record does
    nothing, whatever the options and the answer to the confirmation, and
    [_fix_all] does not list it among the records to repair. *)
Theorem raised_repair_is_not_retried (d : self) (l : list VideoInfo.t)
    (index : Z) (info : VideoInfo.t) (keep_original_name delete_original_var : bool)
    (quality : string) (s : st) (e : exn) :
  record_at l index = Some info ->
  VideoInfo.status_ info = STATUS_ERROR ->
  (fix_video d (VideoInfo.set_status STATUS_PROCESSING info)
     (output_path_for keep_original_name info) quality
     (delete_original_var && negb keep_original_name) s).1 = Raise e ->
  let l' := (_fix_selected d l index keep_original_name delete_original_var
               quality true s).1 in
  record_at l' index = Some (VideoInfo.set_status STATUS_PROCESSING info)
  /\ ~ In index (error_indices_from 0 l')
  /\ forall keep' delete' quality' confirm s',
       _fix_selected d l' index keep' delete' quality' confirm s' = (l', s').
Proof.
  intros Hat Herr Hraise. cbv zeta.
  pose proof (record_at_lookup l index info Hat) as [Hin Hl].
  assert (Hsel : (_fix_selected d l index keep_original_name delete_original_var
                    quality true s).1
                 = <[Z.to_nat index := VideoInfo.set_status STATUS_PROCESSING info]> l).
  { unfold _fix_selected. rewrite Hin, Hl. simpl.
    rewrite bool_decide_eq_true_2 by done. simpl.
    unfold _fix_worker. rewrite Hin, Hl. simpl.
    destruct (fix_video d (VideoInfo.set_status STATUS_PROCESSING info)
                (output_path_for keep_original_name info) quality
                (delete_original_var && negb keep_original_name) s)
      as [[?|?] ?]; [done|reflexivity]. }
  rewrite Hsel.
  destruct (record_at_insert l index
              (VideoInfo.set_status STATUS_PROCESSING info) info Hat) as [Hi _].
  split; [exact Hi|]. split.
  - rewrite error_indices_records. intros (x & Hx & Hs).
    rewrite Hi in Hx. by injection Hx as <-.
  - intros keep' delete' quality' confirm s'.
    pose proof (record_at_lookup _ index _ Hi) as [Hin' Hl'].
    unfold _fix_selected. rewrite Hin', Hl'. reflexivity.
Qed.

(** a probe that fails: detection has marked the file as an error, and the
    probe at the start of the repair raises *)
Lemma raised_repair_is_not_retried_witness :
  let s := Samples.world [Samples.bad] [FfmpegExit 0 (Some "raw")] in
  let l' := (_fix_selected Samples.both_tools [Samples.flagged_record] 0
               true false "medium" true s).1 in
  record_at l' 0 = Some (VideoInfo.set_status STATUS_PROCESSING Samples.flagged_record)
  /\ error_indices_from 0 l' = []
  /\ _fix_selected Samples.both_tools l' 0 true false "medium" true s = (l', s).
Proof.
  intros s l'.
  destruct (raised_repair_is_not_retried Samples.both_tools [Samples.flagged_record] 0
              Samples.flagged_record true false "medium" s
              (mk_exn Exception
                 "获取视频信息时出错: FFprobe执行失败: Invalid data found")
              eq_refl eq_refl eq_refl) as (Hi & _ & Hno).
  split; [exact Hi|]. split; [reflexivity|]. apply Hno.
Defined.

(** *** Output paths with a suffix *)

Lemma contains_char_append (c : ascii) (a b : string) :
  contains_char c (a +:+ b) = contains_char c a || contains_char c b.
Proof.
  induction a as [|x a IH]; simpl; [done|]. rewrite IH. by rewrite orb_assoc.
Qed.

Lemma basename_no_slash (p : string) :
  contains_char "/" (OsPath.basename p) = false.
Proof.
  unfold OsPath.basename. induction p as [|c r IH]; simpl; [done|].
  destruct (contains_char "/" r) eqn:Hr.
  - destruct (OsPath.split_last_slash r) as [h t]. exact IH.
  - destruct (Ascii.eqb c "/") eqn:Hc; simpl; [done|]. by rewrite Hc, Hr.
Qed.

Lemma split_last_slash_plain (b : string) :
  contains_char "/" b = false -> OsPath.split_last_slash b = ("", b).
Proof.
  destruct b as [|c r]; simpl; [done|].
  intros [Hc Hr]%orb_false_iff. by rewrite Hr, Hc.
Qed.

Lemma basename_after_slash (a x : string) :
  contains_char "/" x = false ->
  OsPath.basename (a +:+ String "/" x) = x.
Proof.
  intros Hx. unfold OsPath.basename. induction a as [|c a IH]; simpl.
  - by rewrite Hx.
  - rewrite contains_char_append. simpl. rewrite orb_true_r.
    destruct (OsPath.split_last_slash (a +:+ String "/" x)). exact IH.
Qed.

Lemma string_of_list_ascii_app (l1 l2 : list ascii) :
  string_of_list_ascii (l1 ++ l2)
  = string_of_list_ascii l1 +:+ string_of_list_ascii l2.
Proof. induction l1 as [|c l1 IH]; simpl; [done|]. by rewrite IH. Qed.

Lemma ends_with_slash_inv (a : string) :
  OsPath.ends_with_slash a = true -> exists a', a = a' +:+ "/".
Proof.
  unfold OsPath.ends_with_slash.
  destruct (rev (list_ascii_of_string a)) as [|c l] eqn:E; [done|].
  intros ->%Ascii.eqb_eq.
  exists (string_of_list_ascii (rev l)).
  rewrite <- (string_of_list_ascii_of_string a), <- (rev_involutive (list_ascii_of_string a)), E.
  simpl. by rewrite string_of_list_ascii_app.
Qed.

Lemma append_cons (c : ascii) (a b : string) :
  String c a +:+ b = String c (a +:+ b).
Proof. reflexivity. Qed.

Lemma append_assoc (a b c : string) : (a +:+ b) +:+ c = a +:+ (b +:+ c).
Proof. induction a as [|x a IH]; [done|]. rewrite !append_cons. by f_equal. Qed.

Lemma append_empty_r (a : string) : a = a +:+ "".
Proof. induction a as [|x a IH]; [done|]. rewrite append_cons. by f_equal. Qed.

Lemma basename_join (dn x : string) :
  contains_char "/" x = false ->
  OsPath.basename (OsPath.join dn x) = x.
Proof.
  intros Hx.
  assert (Hplain : OsPath.basename x = x).
  { unfold OsPath.basename. by rewrite split_last_slash_plain. }
  assert (Hjoin : OsPath.join dn x
                  = if negb (str_truthy dn) || OsPath.ends_with_slash dn
                    then dn +:+ x else dn +:+ "/" +:+ x).
  { unfold OsPath.join. destruct x as [|c x]; [done|].
    destruct (Ascii.eqb c "/") eqn:Hc; [simpl in Hx; by rewrite Hc in Hx|].
    destruct c as [[] [] [] [] [] [] [] []]; try done. }
  rewrite Hjoin. destruct dn as [|c dn]; simpl negb; cbn [orb]; [done|].
  destruct (OsPath.ends_with_slash (String c dn)) eqn:He.
  - apply ends_with_slash_inv in He as [a' ->].
    rewrite append_assoc. by apply basename_after_slash.
  - by apply (basename_after_slash (String c dn)).
Qed.

Lemma split_last_dot_inv (s name ext : string) :
  OsPath.split_last_dot s = Some (name, ext) ->
  s = name +:+ ext /\ exists r, ext = String "." r.
Proof.
  revert name. induction s as [|c r IH]; intros name; simpl; [done|].
  destruct (OsPath.split_last_dot r) as [[a b]|].
  - intros [= <- <-]. destruct (IH a eq_refl) as [-> H]. by split.
  - destruct (Ascii.eqb c ".") eqn:Hc; [|done].
    apply Ascii.eqb_eq in Hc as ->. intros [= <- <-]. split; [done|]. by eexists.
Qed.

Lemma splitext_plain (b name ext : string) :
  contains_char "/" b = false ->
  OsPath.splitext b = (name, ext) ->
  b = name +:+ ext /\ (ext = "" \/ exists r, ext = String "." r).
Proof.
  intros Hb. unfold OsPath.splitext. rewrite split_last_slash_plain by done.
  destruct (OsPath.split_last_dot b) as [[n e]|] eqn:E.
  - destruct (OsPath.all_dots n).
    + intros [= <- <-]. split; [apply append_empty_r|by left].
    + simpl. intros [= <- <-]. apply split_last_dot_inv in E as [-> H]. by split; [|right].
  - intros [= <- <-]. split; [apply append_empty_r|by left].
Qed.




(** *** Batch repair *)

Lemma valid_indices_length (indices : list Z) (l l' : list VideoInfo.t) :
  length l' = length l -> valid_indices indices l' = valid_indices indices l.
Proof. intros H. unfold valid_indices, in_range. by rewrite H. Qed.

Lemma paths_insert (l : list VideoInfo.t) (i : nat) (x y : VideoInfo.t) :
  l !! i = Some y -> VideoInfo.filepath x = VideoInfo.filepath y ->
  map VideoInfo.filepath (<[i := x]> l) = map VideoInfo.filepath l.
Proof.
  intros Hl Hp.
  change (VideoInfo.filepath <$> <[i := x]> l = VideoInfo.filepath <$> l).
  rewrite list_fmap_insert, Hp. apply list_insert_id.
  by rewrite list_lookup_fmap, Hl.
Qed.

Lemma batch_loop_spec (d : self) (quality : string) (del keep : bool)
    (indices : list Z) (l : list VideoInfo.t) (a b : Z) (s : st) :
  let r := batch_loop d quality del keep indices l a b s in
  map VideoInfo.filepath r.1.1.1 = map VideoInfo.filepath l
  /\ (exists k1 k2,
        r.1.1.2 = (a + k1, b + k2) /\ 0 <= k1 /\ 0 <= k2
        /\ k1 + k2 <= valid_indices indices l
        /\ (r.1.2 = None -> k1 + k2 = valid_indices indices l))
  /\ (keep = false ->
      forall p n,
        (forall q, In q (map VideoInfo.filepath l) -> suffixed_output q <> p) ->
        fs s !! p = Some n -> fs r.2 !! p = Some n).
Proof.
  cbv zeta. revert l a b s.
  induction indices as [|index rest IH]; intros l a b s.
  - simpl. split; [done|]. split; [|done].
    exists 0, 0. rewrite !Z.add_0_r. unfold valid_indices. simpl. by repeat split.
  - assert (Hskip : in_range index l = false ->
                    valid_indices (index :: rest) l = valid_indices rest l).
    { intros H. unfold valid_indices. simpl. by rewrite H. }
    assert (Hcount : in_range index l = true ->
                     valid_indices (index :: rest) l = 1 + valid_indices rest l).
    { intros H. unfold valid_indices. simpl. rewrite H. simpl. lia. }
    assert (Hnn : 0 <= valid_indices rest l) by (unfold valid_indices; lia).
    simpl. destruct (in_range index l) eqn:Hin; simpl.
    2: { rewrite (Hskip eq_refl). apply IH. }
    destruct (l !! Z.to_nat index) as [info|] eqn:Hl.
    2: { unfold in_range in Hin. apply lookup_ge_None in Hl. lia. }
    set (vi := VideoInfo.set_status STATUS_PROCESSING info).
    pose proof (fix_video_returns d vi (output_path_for keep vi) quality del s) as Hret.
    assert (Hkeep : keep = false -> forall p n,
              (forall q, In q (map VideoInfo.filepath l) -> suffixed_output q <> p) ->
              fs s !! p = Some n ->
              fs (fix_video d vi (output_path_for keep vi) quality del s).2 !! p = Some n).
    { intros -> p n Hout Hn. simpl.
      apply (explicit_output_holds d vi (suffixed_output (VideoInfo.filepath info))
               quality del p n); [|exact Hn].
      apply Hout. apply in_map_iff. exists info. split; [done|].
      apply list_elem_of_In. by eapply list_elem_of_lookup_2. }
    destruct (fix_video d vi (output_path_for keep vi) quality del s)
      as [[[info' [[] msg]]|e] s1]; simpl in *.
    + specialize (Hret _ eq_refl). simpl in Hret.
      destruct Hret as [[_ [=]]|(pth & t & m & ->)].
      set (x := VideoInfo.set_fixed pth t m (VideoInfo.set_status STATUS_FIXED vi)).
      assert (Hpaths : map VideoInfo.filepath (<[Z.to_nat index := x]> l)
                       = map VideoInfo.filepath l) by by eapply paths_insert.
      destruct (IH (<[Z.to_nat index := x]> l) (a + 1) b s1)
        as (Hp & (k1 & k2 & Hc & H1 & H2 & Hle & Hnone) & Hk).
      rewrite (valid_indices_length rest l) in Hle, Hnone by apply length_insert.
      split; [congruence|]. split.
      * exists (1 + k1), k2. rewrite Hc, (Hcount eq_refl).
        split; [f_equal; lia|]. split; [lia|]. split; [lia|]. split; [lia|].
        intros H. specialize (Hnone H). lia.
      * intros Hkp p n Hout Hn. apply (Hk Hkp p n); [by rewrite Hpaths|].
        by apply Hkeep.
    + specialize (Hret _ eq_refl). simpl in Hret. subst info'.
      set (x := VideoInfo.set_status STATUS_ERROR vi).
      assert (Hpaths : map VideoInfo.filepath (<[Z.to_nat index := x]> l)
                       = map VideoInfo.filepath l) by by eapply paths_insert.
      destruct (IH (<[Z.to_nat index := x]> l) a (b + 1) s1)
        as (Hp & (k1 & k2 & Hc & H1 & H2 & Hle & Hnone) & Hk).
      rewrite (valid_indices_length rest l) in Hle, Hnone by apply length_insert.
      split; [congruence|]. split.
      * exists k1, (1 + k2). rewrite Hc, (Hcount eq_refl).
        split; [f_equal; lia|]. split; [lia|]. split; [lia|]. split; [lia|].
        intros H. specialize (Hnone H). lia.
      * intros Hkp p n Hout Hn. apply (Hk Hkp p n); [by rewrite Hpaths|].
        by apply Hkeep.
    + split; [by eapply paths_insert|]. split.
      * exists 0, 0. rewrite !Z.add_0_r, (Hcount eq_refl).
        split; [done|]. split; [lia|]. split; [lia|]. split; [lia|]. done.
      * intros Hkp p n Hout Hn. by apply Hkeep.
Qed.


Lemma error_indices_length (l : list VideoInfo.t) (i : Z) :
  Z.of_nat (length (error_indices_from i l)) = count_status STATUS_ERROR l.
Proof.
  unfold count_status. revert i. induction l as [|x l IH]; intros i; simpl; [done|].
  specialize (IH (i + 1)).
  destruct (bool_decide (VideoInfo.status_ x = STATUS_ERROR)); simpl; lia.
Qed.

Lemma error_indices_valid (l : list VideoInfo.t) :
  valid_indices (error_indices_from 0 l) l = count_status STATUS_ERROR l.
Proof.
  rewrite <- (error_indices_length l 0). unfold valid_indices. do 2 f_equal.
  apply forallb_filter_id. apply forallb_forall. intros j Hj.
  apply error_indices_records in Hj as (info & Hat & _).
  by apply record_at_lookup in Hat as [Hin _].
Qed.

(** X19. [_fix_all] starts a batch exactly when some record has the status
    error, and hands it the indices of those records only: the two counters
    of the batch never add up to more than the number of error records, and
    add up to exactly that number when no repair raises. *)
Theorem fix_all_counts_error_records (d : self) (l : list VideoInfo.t)
    (keep_original_name delete_original_var : bool) (quality : string) (s : st) :
  match _fix_all d l keep_original_name delete_original_var quality true s with
  | None => count_status STATUS_ERROR l = 0
  | Some r =>
      0 < count_status STATUS_ERROR l
      /\ r.1.1.2.1 + r.1.1.2.2 <= count_status STATUS_ERROR l
      /\ (r.1.2 = None -> r.1.1.2.1 + r.1.1.2.2 = count_status STATUS_ERROR l)
  end.
Proof.
  unfold _fix_all.
  pose proof (error_indices_length l 0) as Hlen.
  pose proof (error_indices_valid l) as Hvalid.
  destruct (error_indices_from 0 l) as [|j js] eqn:E; simpl in Hlen; [lia|].
  simpl. split; [lia|]. rewrite <- Hvalid.
  unfold _batch_fix_worker.
  destruct (batch_loop_spec d quality (delete_original_var && negb keep_original_name)
              keep_original_name (j :: js) l 0 0 s)
    as (_ & (k1 & k2 & Hc & _ & _ & Hle & Hnone) & _).
  rewrite Hc. by split.
Qed.

(** *** Conversions *)

Import VideoConverter.

Lemma last_convert_command (ffmpeg : string) (o : opts) (input output : string) :
  List.last (convert_command ffmpeg o input output) "" = output.
Proof.
  unfold convert_command. rewrite !app_assoc. apply last_last.
Qed.

Lemma popen_run (cmd : list string) (s : st) :
  match encodes s with
  | FfmpegExit rc written :: rest =>
      popen cmd s
      = (Ok rc,
         match written with
         | Some bytes =>
             with_fs (<[List.last cmd "" := File bytes]> (fs s)) (with_encodes rest s)
         | None => with_encodes rest s
         end)
  | FfmpegSpawnError msg :: rest =>
      popen cmd s = (Raise (mk_exn OSError msg), with_encodes rest s)
  | [] => popen cmd s = (Raise (mk_exn OSError "cannot start ffmpeg"), s)
  end.
Proof.
  unfold popen, bind, get, modify, ret, os_error, raise. simpl.
  destruct (encodes s) as [|[msg|rc [bytes|]] rest]; reflexivity.
Qed.


Lemma convert_video_run (c : self) (input : string) (out : option string)
    (options : option overrides) (del : bool) (now : Z) (s : st) :
  let target := target_path (merged options) input out now in
  let r := convert_video c input out options del now s in
  exists success path msg,
    r.1 = Ok (success, path, msg)
    /\ (success = false -> path = None)
    /\ (success = true ->
        path = Some target /\ msg = "视频转换成功" /\ is_Some (fs s !! input)
        /\ exists written rest,
             encodes s = FfmpegExit 0 written :: rest /\ encodes r.2 = rest)
    /\ (success = true -> del = false \/ target <> input ->
        exists n, fs r.2 !! target = Some n /\ n <> File "")
    /\ (target <> input ->
        fs r.2 !! input = fs s !! input
        \/ (success = true /\ del = true /\ refused s (OpRemove input) = false
            /\ fs r.2 !! input = None)).
Proof.
  cbv zeta. set (target := target_path (merged options) input out now).
  destruct (convert_video c input out options del now s) as [r s'] eqn:Hrun.
  unfold convert_video in Hrun. fold target in Hrun.
  destruct (ffmpeg_path c) as [ffmpeg|];
    [|injection Hrun as <- <-; eexists _, _, _; repeat split; try done; by left].
  destruct (negb (str_truthy ffmpeg));
    [injection Hrun as <- <-; eexists _, _, _; repeat split; try done; by left|].
  unfold popen in Hrun. rewrite last_convert_command in Hrun.
  unfold remove, makedirs, fs_call, getsize, exists_, try_except, os_error, raise,
    bind, get, modify, ret in Hrun.
  simpl in Hrun.
  repeat (case_match; simplify_eq/=).
  all: eexists _, _, _; (split; [reflexivity|]).
  all: repeat match goal with
         | H : negb _ = false |- _ => apply negb_false_iff in H
         | H : negb _ = true |- _ => apply negb_true_iff in H
         | H : bool_decide _ = true |- _ => apply bool_decide_eq_true in H
         | H : bool_decide _ = false |- _ => apply bool_decide_eq_false in H
         | H : (_ =? 0) = true |- _ => apply Z.eqb_eq in H
         end; subst.
  all: try match goal with
           | H1 : fs ?s0 !! ?d = None, H2 : is_Some (fs ?s0 !! ?i) |- _ =>
               assert (d <> i) by (intros ->; rewrite H1 in H2; by destruct H2)
           end.
  all: (split; [first [done | by intros [=]]|]).
  all: (split;
         [first [ by intros [=]
                | intros _; do 3 (split; [done|]);
                  eexists _, _; split; [eassumption|reflexivity] ]|]).
  all: (split;
         [first [ by intros [=]
                | intros _ Hd; eexists; split;
                  [ first [ eassumption
                          | rewrite lookup_delete_ne
                              by (destruct Hd as [[=]|Hd]; congruence);
                            eassumption ]
                  | first [ done | intros [= ->]; simpl in *; done ] ] ]|]).
  all: intros Hne.
  all: try (left; rewrite ?lookup_insert_ne by congruence; reflexivity).
  all: right; do 3 (split; [done|]); apply lookup_delete_eq.
Qed.

Lemma generated_output_other (o : opts) (input : string) (now : Z) :
  contains_char "/" (format o) = false ->
  generated_output o input now <> input.
Proof.
  intros Hf. unfold generated_output.
  destruct (OsPath.splitext (OsPath.basename input)) as [name ext] eqn:E.
  destruct (splitext_plain _ _ _ (basename_no_slash input) E) as [Hb Hext].
  intros H. apply (f_equal OsPath.basename) in H.
  rewrite basename_join in H.
  - assert (H' : name +:+ "_converted_" +:+ str_of_int now +:+ "." +:+ format o
                 = name +:+ ext) by congruence.
    apply String.app_inj in H'.
    destruct Hext as [->|[r ->]]; discriminate.
  - pose proof (basename_no_slash input) as Hn.
    rewrite Hb, contains_char_append in Hn.
    apply orb_false_iff in Hn as [Hn _].
    rewrite !contains_char_append, Hn, Hf, Decimals.str_of_int_no_slash. reflexivity.
Qed.

(** X20. [convert_video] never raises: every outcome is a triple.  A
    failure carries no path.  A success carries the output path (the one
    given, or the generated one), and means that the input existed, that
    exactly one ffmpeg run was consumed and exited with code 0, and, unless
    the deletion of the input was asked for and the output path is not a
    different file (an absolute, normalised path other than the input's),
    that the output is on disk and is not an empty file. *)
Theorem convert_video_outcomes (c : self) (input : string) (out : option string)
    (options : option overrides) (del : bool) (now : Z) (s : st) :
  let target := target_path (merged options) input out now in
  let r := convert_video c input out options del now s in
  exists success path msg,
    r.1 = Ok (success, path, msg)
    /\ (success = false -> path = None)
    /\ (success = true ->
        path = Some target /\ msg = "视频转换成功" /\ is_Some (fs s !! input)
        /\ (exists written rest,
              encodes s = FfmpegExit 0 written :: rest /\ encodes r.2 = rest)
        /\ (del = false
            \/ (canonical target = true /\ canonical input = true
                /\ target <> input) ->
            exists n, fs r.2 !! target = Some n /\ n <> File "")).
Proof.
  cbv zeta.
  destruct (convert_video_run c input out options del now s)
    as (success & path & msg & Hr & Hfail & Hok & Hout & _).
  exists success, path, msg. split; [exact Hr|]. split; [exact Hfail|].
  intros Hs. destruct (Hok Hs) as (Hp & Hm & Hin & Hrun).
  split; [exact Hp|]. split; [exact Hm|]. split; [exact Hin|].
  split; [exact Hrun|]. intros Hd. apply (Hout Hs). tauto.
Qed.

(** X21. When the output path is not the input's (both absolute and
    normalised, so that the two texts are two files), [convert_video]
    leaves the input on disk as it was, with one exception: the conversion
    succeeded, [delete_original] was set and the removal was not refused.
    A refused removal does not turn the success into a failure. *)
Theorem convert_video_removes_input_only_on_success (c : self) (input : string)
    (out : option string) (options : option overrides) (del : bool) (now : Z)
    (s : st) :
  let target := target_path (merged options) input out now in
  let r := convert_video c input out options del now s in
  canonical target = true ->
  canonical input = true ->
  target <> input ->
  fs r.2 !! input = fs s !! input
  \/ (del = true /\ r.1 = Ok (true, Some target, "视频转换成功")
      /\ refused s (OpRemove input) = false /\ fs r.2 !! input = None).
Proof.
  cbv zeta. intros _ _ Hne.
  destruct (convert_video_run c input out options del now s)
    as (success & path & msg & Hr & _ & Hok & _ & Hin).
  destruct (Hin Hne) as [Hkept|(Hs & Hd & Href & Hgone)]; [by left|]. right.
  destruct (Hok Hs) as (-> & -> & _). subst success. by repeat split.
Qed.

(** a conversion that succeeds while the removal of the input is refused *)
Lemma convert_video_removes_input_only_on_success_witness :
  let c := {| ffmpeg_path := Some "/usr/bin/ffmpeg"; ffprobe_path := None |} in
  let s0 := Samples.world [] [FfmpegExit 0 (Some "fine")] in
  let s := {| fs := fs s0; dir_size := dir_size s0;
              refused := fun op => match op with OpRemove _ => true | _ => false end;
              probes := probes s0; encodes := encodes s0;
              tmp_names := tmp_names s0; clock := clock s0;
              temp_files := temp_files s0; trace := trace s0 |} in
  let r := convert_video c "/v/a.mp4" (Some "/v/b.mp4") None true 0 s in
  r.1 = Ok (true, Some "/v/b.mp4", "视频转换成功")
  /\ fs r.2 !! "/v/a.mp4" = Some (File "0123456789").
Proof.
  intros c s0 s r. split; [reflexivity|].
  destruct (convert_video_removes_input_only_on_success c "/v/a.mp4"
              (Some "/v/b.mp4") None true 0 s eq_refl eq_refl ltac:(discriminate))
    as [H|(_ & _ & H & _)]; [exact H|discriminate H].
Defined.

(** X22. When no output path is given (or an empty one), the output is
    written next to a name made of the input's name without its extension,
    [_converted_], the time and the format.  For a format without a slash,
    as the default [mp4], this is never the path of the input. *)
Theorem generated_output_is_a_new_name (options : option overrides)
    (input : string) (out : option string) (now : Z) :
  path_truthy out = false ->
  contains_char "/" (format (merged options)) = false ->
  let target := target_path (merged options) input out now in
  target <> input
  /\ OsPath.basename target
     = (OsPath.splitext (OsPath.basename input)).1 +:+ "_converted_"
       +:+ str_of_int now +:+ "." +:+ format (merged options).
Proof.
  intros Hout Hf. cbv zeta.
  assert (Ht : target_path (merged options) input out now
               = generated_output (merged options) input now).
  { unfold target_path. destruct out as [p|]; [|done]. simpl in Hout. by rewrite Hout. }
  rewrite Ht. split; [by apply generated_output_other|].
  unfold generated_output.
  destruct (OsPath.splitext (OsPath.basename input)) as [name ext] eqn:E.
  destruct (splitext_plain _ _ _ (basename_no_slash input) E) as [Hb _].
  simpl. apply basename_join.
  pose proof (basename_no_slash input) as Hn.
  rewrite Hb, contains_char_append in Hn. apply orb_false_iff in Hn as [Hn _].
  rewrite !contains_char_append, Hn, Hf, Decimals.str_of_int_no_slash. reflexivity.
Qed.

(** the default format, and an input with two extensions *)
Lemma generated_output_is_a_new_name_witness :
  target_path (merged None) "/v/a.tar.gz" (Some "") 1700000000 <> "/v/a.tar.gz"
  /\ OsPath.basename (target_path (merged None) "/v/a.tar.gz" (Some "") 1700000000)
     = "a.tar_converted_1700000000.mp4".
Proof.
  exact (generated_output_is_a_new_name None "/v/a.tar.gz" (Some "") 1700000000
           eq_refl eq_refl).
Defined.

(** X23. Every command line of [convert_video] starts with ffmpeg, [-y],
    the input and the video codec as given, and ends with the output
    path.  Unless the codec is the text [audio_bitrate], four rate-control
    words follow and then the pixel format yuv420p and the three bt709
    colour settings, whatever the quality and the codec: an unknown codec
    gets the words of libx264, an unknown quality those of medium.  The
    codec [audio_bitrate] is a key of the same table: the audio bit rate is
    then spread into its characters and no colour setting is passed. *)
Theorem convert_command_pins_colours (ffmpeg : string) (o : opts)
    (input output : string) :
  let p := quality_presets (quality o) in
  exists params rest,
    convert_command ffmpeg o input output
    = [ffmpeg; "-y"; "-i"; input; "-c:v"; video_codec o] ++ params ++ rest
    /\ List.last rest "" = output
    /\ (video_codec o <> "audio_bitrate" ->
        exists rate, params = rate ++ colour_params /\ length rate = 4%nat)
    /\ (video_codec o = "audio_bitrate" ->
        params = characters (audio_bitrate p)
        /\ In (audio_bitrate p) ["192k"; "128k"; "96k"])
    /\ (~ In (quality o) ["high"; "medium"; "low"] -> p = preset_medium).
Proof.
  cbv zeta. unfold convert_command.
  eexists _, _. split; [reflexivity|]. split.
  { rewrite app_assoc. apply last_last. }
  assert (Hp : quality_presets (quality o) = preset_high
               \/ quality_presets (quality o) = preset_medium
               \/ quality_presets (quality o) = preset_low).
  { unfold quality_presets. repeat case_match; tauto. }
  split; [|split].
  - intros Hc. unfold video_params.
    destruct (String.eqb_spec (video_codec o) "audio_bitrate") as [|_]; [done|].
    destruct Hp as [->|[->| ->]]; repeat case_match;
      by eexists [_; _; _; _].
  - intros ->. split; [reflexivity|].
    destruct Hp as [->|[->| ->]]; simpl; tauto.
  - intros Hq. unfold quality_presets.
    destruct (String.eqb_spec (quality o) "high") as [E|_];
      [exfalso; apply Hq; rewrite E; simpl; tauto|].
    destruct (String.eqb_spec (quality o) "medium") as [E|_]; [done|].
    by destruct (String.eqb_spec (quality o) "low") as [E|_];
      [exfalso; apply Hq; rewrite E; simpl; tauto|].
Qed.
